(** * espCoinWatch: the cooperative control loop of the weather ticker

    A shallow embedding of [btc_ticker_weather_websrv.ino]: the price
    acquisition with provider fallback ([fetchPrice]), and the body of
    [loop()] (the web server's settings request, WiFi check, price and
    weather polls, screen cycling, the D6 screen button, the D5 button in
    its three roles, and the alert logic with its blink patterns).

    Conventions.
    - [unsigned long] is 32 bits on the ESP8266; it is a [Z] in
      [0, 2^32) and every subtraction and product is reduced modulo
      [2^32] ([sub32], [mul32]).  [uint8_t] counters wrap at 256.
    - A [float] is a single-precision value ([f32]): a rational, an
      infinity or NaN; every operation rounds to the nearest value with
      a 24-bit significand, ties to even ([round32]).  The numbers a feed
      carries are the finite floats the fetcher parsed, so the price and
      the weather values are rationals; the sign of a zero is not kept.
      An [int] compared with a [float] is converted first
      ([float_of_int]).
    - Everything the sketch reads from the outside during one iteration
      (the clock, [WiFi.status()], the provider answers, the pin levels,
      the request [server.handleClient()] serves) is a field of [Inputs].
    - Everything it does to the outside (display, LED, flash, debug line
      of a provider attempt) is an [Event] of the iteration's output. *)

From Stdlib Require Import ZArith QArith Bool List Lia Lqa.
From Stdlib Require String Ascii DecimalString.
Import ListNotations.
Local Open Scope Z_scope.

(** ** Machine arithmetic *)

Definition two32 : Z := 4294967296.

Definition wrap32 (x : Z) : Z := x mod two32.
Definition sub32 (a b : Z) : Z := wrap32 (a - b).
Definition mul32 (a b : Z) : Z := wrap32 (a * b).
Definition wrap8 (x : Z) : Z := x mod 256.

(** ** Single-precision floats *)

Definition Qltb (x y : Q) : bool := (Qnum x * QDen y <? Qnum y * QDen x)%Z.
Definition Qleb (x y : Q) : bool := (Qnum x * QDen y <=? Qnum y * QDen x)%Z.

(** The values of a [float]; [Fin 0] stands for both zeros. *)
Inductive f32 := Fin (q : Q) | Inf (negative : bool) | NaN.

(** The integer nearest to [num / den] ([den] positive), ties to even. *)
Definition round_half_even (num den : Z) : Z :=
  let q := num / den in
  let r := num mod den in
  if 2 * r <? den then q
  else if den <? 2 * r then q + 1
  else if Z.even q then q else q + 1.

(** [floor (log2 (n / d))] for positive [n]. *)
Definition ilog2 (n : Z) (d : positive) : Z :=
  let e0 := Z.log2 n - Z.log2 (Zpos d) in
  if (if 0 <=? e0 then Zpos d * 2 ^ e0 <=? n else Zpos d <=? n * 2 ^ (- e0))
  then e0 else e0 - 1.

(** Rounding of a real to binary32: 24 significant bits, ties to even,
    gradual underflow below [2^-126], infinity from [2^128] on. *)
Definition round32 (q : Q) : f32 :=
  let n := Z.abs (Qnum q) in
  let d := Qden q in
  let negative := Qnum q <? 0 in
  if n =? 0 then Fin 0
  else
    let x := Z.max (ilog2 n d) (-126) - 23 in
    let m := if 0 <=? x then round_half_even n (Zpos d * 2 ^ x)
             else round_half_even (n * 2 ^ (- x)) (Zpos d) in
    if (0 <=? x) && (2 ^ 128 <=? m * 2 ^ x) then Inf negative
    else
      let v := if 0 <=? x then inject_Z (m * 2 ^ x)
               else m # Z.to_pos (2 ^ (- x)) in
      Fin (Qred (if negative then - v else v)).

(** [(float) z] for an integer. *)
Definition float_of_int (z : Z) : f32 := round32 (inject_Z z).

Definition fneg (a : f32) : f32 :=
  match a with
  | Fin q => Fin (Qred (- q))
  | Inf negative => Inf (negb negative)
  | NaN => NaN
  end.

Definition fadd (a b : f32) : f32 :=
  match a, b with
  | Fin x, Fin y => round32 (x + y)
  | NaN, _ | _, NaN => NaN
  | Inf s, Fin _ => Inf s
  | Fin _, Inf s => Inf s
  | Inf s, Inf t => if Bool.eqb s t then Inf s else NaN
  end.

Definition fsub (a b : f32) : f32 := fadd a (fneg b).

Definition fmul (a b : f32) : f32 :=
  match a, b with
  | Fin x, Fin y => round32 (x * y)
  | NaN, _ | _, NaN => NaN
  | Inf s, Fin y | Fin y, Inf s =>
      if Qnum y =? 0 then NaN else Inf (xorb s (Qnum y <? 0))
  | Inf s, Inf t => Inf (xorb s t)
  end.

(** Division; a zero divisor is taken as [+0]. *)
Definition fdiv (a b : f32) : f32 :=
  match a, b with
  | Fin x, Fin y =>
      if Qnum y =? 0
      then (if Qnum x =? 0 then NaN else Inf (Qnum x <? 0))
      else round32 (x / y)
  | NaN, _ | _, NaN => NaN
  | Inf s, Fin y => Inf (xorb s (Qnum y <? 0))
  | Fin _, Inf _ => Fin 0
  | Inf _, Inf _ => NaN
  end.

(** [a < b] and [a <= b]; false on NaN. *)
Definition fltb (a b : f32) : bool :=
  match a, b with
  | Fin x, Fin y => Qltb x y
  | Fin _, Inf negative => negb negative
  | Inf negative, Fin _ => negative
  | Inf s, Inf t => s && negb t
  | _, _ => false
  end.

Definition fleb (a b : f32) : bool :=
  match a, b with
  | Fin x, Fin y => Qleb x y
  | Fin _, Inf negative => negb negative
  | Inf negative, Fin _ => negative
  | Inf s, Inf t => s || negb t
  | _, _ => false
  end.

(** The cast of a rational to an integer type: toward zero. *)
Definition Qtrunc (q : Q) : Z := Z.quot (Qnum q) (Zpos (Qden q)).

(** [(int) a] and [(long) a] (both 32 bits): undefined ([None]) unless
    the truncated value is an [int]. *)
Definition int_of_float (a : f32) : option Z :=
  match a with
  | Fin q =>
      if (- 2147483648 <=? Qtrunc q) && (Qtrunc q <=? 2147483647)
      then Some (Qtrunc q) else None
  | _ => None
  end.

(** [price < threshold] and [price > threshold] for a [float] price and
    an [int] threshold: the threshold is converted to [float]. *)
Definition price_lt (p : Q) (t : Z) : bool := fltb (Fin p) (float_of_int t).
Definition price_gt (p : Q) (t : Z) : bool := fltb (float_of_int t) (Fin p).

(** ** Configuration ([struct Config], the fields the loop reads) *)

Record Config := {
  api_source : Z;          (* 0=auto, 1=Binance only, 2..4 = X first *)
  poll_interval : Z;
  alert_low : Z;
  alert_high : Z;
  blink_pattern_low : Z;   (* 0=Slow, 1=Fast, 2=Strobe, 3=SOS *)
  blink_pattern_high : Z;
  weather_enabled : bool;
  weather_poll : Z;
  btc_cycle : Z;
  weather_cycle : Z;
  button_mode : Z;         (* 0=auto cycle, 1=always weather, 2=on-demand, 3=d5 *)
  alert_mode : Z;          (* 0=Display, 1=LED, 2=Both *)
  led_pin : Z;
  led_inverted : bool;
  alert_duration : Z;      (* 0=Infinite, >0=seconds *)
  touch_enabled : bool;
  d5_weather_mode : bool;
  d5_btc_mode : bool;
  d5_timeout : Z
}.

(** The defaults of the struct's member initialisers. *)
Definition default_config : Config := {|
  api_source := 0; poll_interval := 60000; alert_low := 0; alert_high := 0;
  blink_pattern_low := 0; blink_pattern_high := 1;
  weather_enabled := false; weather_poll := 1800000;
  btc_cycle := 120000; weather_cycle := 10000; button_mode := 0;
  alert_mode := 0; led_pin := 2; led_inverted := true; alert_duration := 0;
  touch_enabled := false; d5_weather_mode := false; d5_btc_mode := false;
  d5_timeout := 5000 |}.

(** ** The settings form *)

(** The assignment [config.field = v], one for each member modelled. *)
Definition assign_api_source (v : Z) (c : Config) : Config :=
  {| api_source := v; poll_interval := poll_interval c;
     alert_low := alert_low c; alert_high := alert_high c;
     blink_pattern_low := blink_pattern_low c;
     blink_pattern_high := blink_pattern_high c;
     weather_enabled := weather_enabled c; weather_poll := weather_poll c;
     btc_cycle := btc_cycle c; weather_cycle := weather_cycle c;
     button_mode := button_mode c; alert_mode := alert_mode c;
     led_pin := led_pin c; led_inverted := led_inverted c;
     alert_duration := alert_duration c; touch_enabled := touch_enabled c;
     d5_weather_mode := d5_weather_mode c; d5_btc_mode := d5_btc_mode c;
     d5_timeout := d5_timeout c |}.

Definition assign_poll_interval (v : Z) (c : Config) : Config :=
  {| api_source := api_source c; poll_interval := v;
     alert_low := alert_low c; alert_high := alert_high c;
     blink_pattern_low := blink_pattern_low c;
     blink_pattern_high := blink_pattern_high c;
     weather_enabled := weather_enabled c; weather_poll := weather_poll c;
     btc_cycle := btc_cycle c; weather_cycle := weather_cycle c;
     button_mode := button_mode c; alert_mode := alert_mode c;
     led_pin := led_pin c; led_inverted := led_inverted c;
     alert_duration := alert_duration c; touch_enabled := touch_enabled c;
     d5_weather_mode := d5_weather_mode c; d5_btc_mode := d5_btc_mode c;
     d5_timeout := d5_timeout c |}.

Definition assign_alert_low (v : Z) (c : Config) : Config :=
  {| api_source := api_source c; poll_interval := poll_interval c;
     alert_low := v; alert_high := alert_high c;
     blink_pattern_low := blink_pattern_low c;
     blink_pattern_high := blink_pattern_high c;
     weather_enabled := weather_enabled c; weather_poll := weather_poll c;
     btc_cycle := btc_cycle c; weather_cycle := weather_cycle c;
     button_mode := button_mode c; alert_mode := alert_mode c;
     led_pin := led_pin c; led_inverted := led_inverted c;
     alert_duration := alert_duration c; touch_enabled := touch_enabled c;
     d5_weather_mode := d5_weather_mode c; d5_btc_mode := d5_btc_mode c;
     d5_timeout := d5_timeout c |}.

Definition assign_alert_high (v : Z) (c : Config) : Config :=
  {| api_source := api_source c; poll_interval := poll_interval c;
     alert_low := alert_low c; alert_high := v;
     blink_pattern_low := blink_pattern_low c;
     blink_pattern_high := blink_pattern_high c;
     weather_enabled := weather_enabled c; weather_poll := weather_poll c;
     btc_cycle := btc_cycle c; weather_cycle := weather_cycle c;
     button_mode := button_mode c; alert_mode := alert_mode c;
     led_pin := led_pin c; led_inverted := led_inverted c;
     alert_duration := alert_duration c; touch_enabled := touch_enabled c;
     d5_weather_mode := d5_weather_mode c; d5_btc_mode := d5_btc_mode c;
     d5_timeout := d5_timeout c |}.

Definition assign_blink_pattern_low (v : Z) (c : Config) : Config :=
  {| api_source := api_source c; poll_interval := poll_interval c;
     alert_low := alert_low c; alert_high := alert_high c;
     blink_pattern_low := v; blink_pattern_high := blink_pattern_high c;
     weather_enabled := weather_enabled c; weather_poll := weather_poll c;
     btc_cycle := btc_cycle c; weather_cycle := weather_cycle c;
     button_mode := button_mode c; alert_mode := alert_mode c;
     led_pin := led_pin c; led_inverted := led_inverted c;
     alert_duration := alert_duration c; touch_enabled := touch_enabled c;
     d5_weather_mode := d5_weather_mode c; d5_btc_mode := d5_btc_mode c;
     d5_timeout := d5_timeout c |}.

Definition assign_blink_pattern_high (v : Z) (c : Config) : Config :=
  {| api_source := api_source c; poll_interval := poll_interval c;
     alert_low := alert_low c; alert_high := alert_high c;
     blink_pattern_low := blink_pattern_low c; blink_pattern_high := v;
     weather_enabled := weather_enabled c; weather_poll := weather_poll c;
     btc_cycle := btc_cycle c; weather_cycle := weather_cycle c;
     button_mode := button_mode c; alert_mode := alert_mode c;
     led_pin := led_pin c; led_inverted := led_inverted c;
     alert_duration := alert_duration c; touch_enabled := touch_enabled c;
     d5_weather_mode := d5_weather_mode c; d5_btc_mode := d5_btc_mode c;
     d5_timeout := d5_timeout c |}.

Definition assign_weather_enabled (v : bool) (c : Config) : Config :=
  {| api_source := api_source c; poll_interval := poll_interval c;
     alert_low := alert_low c; alert_high := alert_high c;
     blink_pattern_low := blink_pattern_low c;
     blink_pattern_high := blink_pattern_high c; weather_enabled := v;
     weather_poll := weather_poll c; btc_cycle := btc_cycle c;
     weather_cycle := weather_cycle c; button_mode := button_mode c;
     alert_mode := alert_mode c; led_pin := led_pin c;
     led_inverted := led_inverted c; alert_duration := alert_duration c;
     touch_enabled := touch_enabled c; d5_weather_mode := d5_weather_mode c;
     d5_btc_mode := d5_btc_mode c; d5_timeout := d5_timeout c |}.

Definition assign_weather_poll (v : Z) (c : Config) : Config :=
  {| api_source := api_source c; poll_interval := poll_interval c;
     alert_low := alert_low c; alert_high := alert_high c;
     blink_pattern_low := blink_pattern_low c;
     blink_pattern_high := blink_pattern_high c;
     weather_enabled := weather_enabled c; weather_poll := v;
     btc_cycle := btc_cycle c; weather_cycle := weather_cycle c;
     button_mode := button_mode c; alert_mode := alert_mode c;
     led_pin := led_pin c; led_inverted := led_inverted c;
     alert_duration := alert_duration c; touch_enabled := touch_enabled c;
     d5_weather_mode := d5_weather_mode c; d5_btc_mode := d5_btc_mode c;
     d5_timeout := d5_timeout c |}.

Definition assign_btc_cycle (v : Z) (c : Config) : Config :=
  {| api_source := api_source c; poll_interval := poll_interval c;
     alert_low := alert_low c; alert_high := alert_high c;
     blink_pattern_low := blink_pattern_low c;
     blink_pattern_high := blink_pattern_high c;
     weather_enabled := weather_enabled c; weather_poll := weather_poll c;
     btc_cycle := v; weather_cycle := weather_cycle c;
     button_mode := button_mode c; alert_mode := alert_mode c;
     led_pin := led_pin c; led_inverted := led_inverted c;
     alert_duration := alert_duration c; touch_enabled := touch_enabled c;
     d5_weather_mode := d5_weather_mode c; d5_btc_mode := d5_btc_mode c;
     d5_timeout := d5_timeout c |}.

Definition assign_weather_cycle (v : Z) (c : Config) : Config :=
  {| api_source := api_source c; poll_interval := poll_interval c;
     alert_low := alert_low c; alert_high := alert_high c;
     blink_pattern_low := blink_pattern_low c;
     blink_pattern_high := blink_pattern_high c;
     weather_enabled := weather_enabled c; weather_poll := weather_poll c;
     btc_cycle := btc_cycle c; weather_cycle := v;
     button_mode := button_mode c; alert_mode := alert_mode c;
     led_pin := led_pin c; led_inverted := led_inverted c;
     alert_duration := alert_duration c; touch_enabled := touch_enabled c;
     d5_weather_mode := d5_weather_mode c; d5_btc_mode := d5_btc_mode c;
     d5_timeout := d5_timeout c |}.

Definition assign_button_mode (v : Z) (c : Config) : Config :=
  {| api_source := api_source c; poll_interval := poll_interval c;
     alert_low := alert_low c; alert_high := alert_high c;
     blink_pattern_low := blink_pattern_low c;
     blink_pattern_high := blink_pattern_high c;
     weather_enabled := weather_enabled c; weather_poll := weather_poll c;
     btc_cycle := btc_cycle c; weather_cycle := weather_cycle c;
     button_mode := v; alert_mode := alert_mode c; led_pin := led_pin c;
     led_inverted := led_inverted c; alert_duration := alert_duration c;
     touch_enabled := touch_enabled c; d5_weather_mode := d5_weather_mode c;
     d5_btc_mode := d5_btc_mode c; d5_timeout := d5_timeout c |}.

Definition assign_alert_mode (v : Z) (c : Config) : Config :=
  {| api_source := api_source c; poll_interval := poll_interval c;
     alert_low := alert_low c; alert_high := alert_high c;
     blink_pattern_low := blink_pattern_low c;
     blink_pattern_high := blink_pattern_high c;
     weather_enabled := weather_enabled c; weather_poll := weather_poll c;
     btc_cycle := btc_cycle c; weather_cycle := weather_cycle c;
     button_mode := button_mode c; alert_mode := v; led_pin := led_pin c;
     led_inverted := led_inverted c; alert_duration := alert_duration c;
     touch_enabled := touch_enabled c; d5_weather_mode := d5_weather_mode c;
     d5_btc_mode := d5_btc_mode c; d5_timeout := d5_timeout c |}.

Definition assign_led_pin (v : Z) (c : Config) : Config :=
  {| api_source := api_source c; poll_interval := poll_interval c;
     alert_low := alert_low c; alert_high := alert_high c;
     blink_pattern_low := blink_pattern_low c;
     blink_pattern_high := blink_pattern_high c;
     weather_enabled := weather_enabled c; weather_poll := weather_poll c;
     btc_cycle := btc_cycle c; weather_cycle := weather_cycle c;
     button_mode := button_mode c; alert_mode := alert_mode c; led_pin := v;
     led_inverted := led_inverted c; alert_duration := alert_duration c;
     touch_enabled := touch_enabled c; d5_weather_mode := d5_weather_mode c;
     d5_btc_mode := d5_btc_mode c; d5_timeout := d5_timeout c |}.

Definition assign_led_inverted (v : bool) (c : Config) : Config :=
  {| api_source := api_source c; poll_interval := poll_interval c;
     alert_low := alert_low c; alert_high := alert_high c;
     blink_pattern_low := blink_pattern_low c;
     blink_pattern_high := blink_pattern_high c;
     weather_enabled := weather_enabled c; weather_poll := weather_poll c;
     btc_cycle := btc_cycle c; weather_cycle := weather_cycle c;
     button_mode := button_mode c; alert_mode := alert_mode c;
     led_pin := led_pin c; led_inverted := v;
     alert_duration := alert_duration c; touch_enabled := touch_enabled c;
     d5_weather_mode := d5_weather_mode c; d5_btc_mode := d5_btc_mode c;
     d5_timeout := d5_timeout c |}.

Definition assign_alert_duration (v : Z) (c : Config) : Config :=
  {| api_source := api_source c; poll_interval := poll_interval c;
     alert_low := alert_low c; alert_high := alert_high c;
     blink_pattern_low := blink_pattern_low c;
     blink_pattern_high := blink_pattern_high c;
     weather_enabled := weather_enabled c; weather_poll := weather_poll c;
     btc_cycle := btc_cycle c; weather_cycle := weather_cycle c;
     button_mode := button_mode c; alert_mode := alert_mode c;
     led_pin := led_pin c; led_inverted := led_inverted c;
     alert_duration := v; touch_enabled := touch_enabled c;
     d5_weather_mode := d5_weather_mode c; d5_btc_mode := d5_btc_mode c;
     d5_timeout := d5_timeout c |}.

Definition assign_touch_enabled (v : bool) (c : Config) : Config :=
  {| api_source := api_source c; poll_interval := poll_interval c;
     alert_low := alert_low c; alert_high := alert_high c;
     blink_pattern_low := blink_pattern_low c;
     blink_pattern_high := blink_pattern_high c;
     weather_enabled := weather_enabled c; weather_poll := weather_poll c;
     btc_cycle := btc_cycle c; weather_cycle := weather_cycle c;
     button_mode := button_mode c; alert_mode := alert_mode c;
     led_pin := led_pin c; led_inverted := led_inverted c;
     alert_duration := alert_duration c; touch_enabled := v;
     d5_weather_mode := d5_weather_mode c; d5_btc_mode := d5_btc_mode c;
     d5_timeout := d5_timeout c |}.

Definition assign_d5_weather_mode (v : bool) (c : Config) : Config :=
  {| api_source := api_source c; poll_interval := poll_interval c;
     alert_low := alert_low c; alert_high := alert_high c;
     blink_pattern_low := blink_pattern_low c;
     blink_pattern_high := blink_pattern_high c;
     weather_enabled := weather_enabled c; weather_poll := weather_poll c;
     btc_cycle := btc_cycle c; weather_cycle := weather_cycle c;
     button_mode := button_mode c; alert_mode := alert_mode c;
     led_pin := led_pin c; led_inverted := led_inverted c;
     alert_duration := alert_duration c; touch_enabled := touch_enabled c;
     d5_weather_mode := v; d5_btc_mode := d5_btc_mode c;
     d5_timeout := d5_timeout c |}.

Definition assign_d5_btc_mode (v : bool) (c : Config) : Config :=
  {| api_source := api_source c; poll_interval := poll_interval c;
     alert_low := alert_low c; alert_high := alert_high c;
     blink_pattern_low := blink_pattern_low c;
     blink_pattern_high := blink_pattern_high c;
     weather_enabled := weather_enabled c; weather_poll := weather_poll c;
     btc_cycle := btc_cycle c; weather_cycle := weather_cycle c;
     button_mode := button_mode c; alert_mode := alert_mode c;
     led_pin := led_pin c; led_inverted := led_inverted c;
     alert_duration := alert_duration c; touch_enabled := touch_enabled c;
     d5_weather_mode := d5_weather_mode c; d5_btc_mode := v;
     d5_timeout := d5_timeout c |}.

Definition assign_d5_timeout (v : Z) (c : Config) : Config :=
  {| api_source := api_source c; poll_interval := poll_interval c;
     alert_low := alert_low c; alert_high := alert_high c;
     blink_pattern_low := blink_pattern_low c;
     blink_pattern_high := blink_pattern_high c;
     weather_enabled := weather_enabled c; weather_poll := weather_poll c;
     btc_cycle := btc_cycle c; weather_cycle := weather_cycle c;
     button_mode := button_mode c; alert_mode := alert_mode c;
     led_pin := led_pin c; led_inverted := led_inverted c;
     alert_duration := alert_duration c; touch_enabled := touch_enabled c;
     d5_weather_mode := d5_weather_mode c; d5_btc_mode := d5_btc_mode c;
     d5_timeout := v |}.

(** The arguments of the settings request the modelled members are set
    from: [Some v] when [server.hasArg(name)], with [v] the [long] that
    [server.arg(name).toInt()] returns; a check box is its [hasArg]. *)
Record Form := {
  arg_apisrc : option Z;
  arg_poll : option Z;
  arg_alow : option Z;
  arg_ahigh : option Z;
  arg_bl_low : option Z;
  arg_bl_high : option Z;
  arg_touch_en : bool;
  arg_amode : option Z;
  arg_lpin : option Z;
  arg_linv : bool;
  arg_adur : option Z;
  arg_weather_en : bool;
  arg_btccycle : option Z;
  arg_wcycle : option Z;
  arg_wpoll : option Z;
  arg_wbtn : option Z;
  arg_d5_weather : bool;
  arg_d5_btc : bool;
  arg_d5_timeout : option Z
}.

(** [if (server.hasArg(name)) config.field = conv(server.arg(name).toInt())]. *)
Definition if_arg (arg : option Z) (assign : Z -> Config -> Config)
    (conv : Z -> Z) (c : Config) : Config :=
  match arg with Some v => assign (conv v) c | None => c end.

(** The assignments of [handleSave] to the modelled members, in the
    order of the source. *)
Definition handleSave_config (f : Form) (config : Config) : Config :=
  let config := if_arg (arg_apisrc f) assign_api_source wrap8 config in
  let config := if_arg (arg_poll f) assign_poll_interval wrap32 config in
  let config := if_arg (arg_alow f) assign_alert_low (fun v => v) config in
  let config := if_arg (arg_ahigh f) assign_alert_high (fun v => v) config in
  let config := if_arg (arg_bl_low f) assign_blink_pattern_low wrap8 config in
  let config := if_arg (arg_bl_high f) assign_blink_pattern_high wrap8 config in
  let config := assign_touch_enabled (arg_touch_en f) config in
  let config := assign_led_inverted false config in
  let config := if_arg (arg_amode f) assign_alert_mode wrap8 config in
  let config := if_arg (arg_lpin f) assign_led_pin wrap8 config in
  let config := if arg_linv f then assign_led_inverted true config else config in
  let config := if_arg (arg_adur f) assign_alert_duration wrap32 config in
  let config := assign_weather_enabled (arg_weather_en f) config in
  let config :=
    if_arg (arg_btccycle f) assign_btc_cycle (fun v => mul32 (wrap32 v) 1000)
      config in
  let config :=
    if_arg (arg_wcycle f) assign_weather_cycle (fun v => mul32 (wrap32 v) 1000)
      config in
  let config :=
    if_arg (arg_wpoll f) assign_weather_poll (fun v => mul32 (wrap32 v) 60000)
      config in
  let config := if_arg (arg_wbtn f) assign_button_mode wrap8 config in
  let config := assign_d5_weather_mode (arg_d5_weather f) config in
  let config := assign_d5_btc_mode (arg_d5_btc f) config in
  let config :=
    if d5_weather_mode config && d5_btc_mode config
    then assign_d5_weather_mode false config else config in
  let config :=
    if_arg (arg_d5_timeout f) assign_d5_timeout (fun v => mul32 (wrap32 v) 1000)
      config in
  let config :=
    if d5_weather_mode config || d5_btc_mode config
    then assign_button_mode 3 config else config in
  config.

(** ** Global and function-static state *)

Record WeatherReading := {
  temperature : Q; humidity : Z; rainChance : Z; windSpeed : Q; windGusts : Q
}.

Record PriceState := {
  g_currentPrice : Q;
  g_priceChange24h : f32;
  g_hasValidData : bool;
  g_dataStale : bool;
  g_lastPollTime : Z;
  g_lastSuccessTime : Z;
  g_currentProvider : Z;       (* 0=Binance 1=CoinGecko 2=Coinbase 3=Kraken *)
  g_consecutiveFailures : Z
}.

Record WeatherState := {
  g_weather : WeatherReading;
  g_hasWeatherData : bool;
  g_weatherStale : bool;
  g_lastWeatherPoll : Z;
  g_lastWeatherSuccess : Z
}.

Record ScreenState := {
  g_currentScreen : Z;         (* 0 = BTC, 1 = Weather *)
  g_lastScreenSwitch : Z;
  screenBtnPressStart : Z;
  screenBtnHandled : bool
}.

Record ButtonD5State := {
  btnPressStart : Z;
  d5WeatherShowing : bool;
  d5BtcShowing : bool;
  d5BtcReleaseTime : Z;
  d5WeatherReleaseTime : Z
}.

Record AlertState := {
  g_alertStartTime : Z;
  lastBlinkTime : Z;
  blinkState : bool;           (* true = ON / visible *)
  ledCleanedUp : bool;
  sosStep : Z
}.

Record State := {
  g_isInConfigMode : bool;
  g_wifiConnected : bool;
  lastWiFiCheck : Z;
  lastTouchTime : Z;
  price : PriceState;
  weather : WeatherState;
  screen : ScreenState;
  d5 : ButtonD5State;
  alert : AlertState
}.

(** *** Field updates *)

Definition upd_price (f : PriceState -> PriceState) (s : State) : State :=
  {| g_isInConfigMode := g_isInConfigMode s; g_wifiConnected := g_wifiConnected s;
     lastWiFiCheck := lastWiFiCheck s; lastTouchTime := lastTouchTime s;
     price := f (price s); weather := weather s; screen := screen s;
     d5 := d5 s; alert := alert s |}.

Definition upd_weather (f : WeatherState -> WeatherState) (s : State) : State :=
  {| g_isInConfigMode := g_isInConfigMode s; g_wifiConnected := g_wifiConnected s;
     lastWiFiCheck := lastWiFiCheck s; lastTouchTime := lastTouchTime s;
     price := price s; weather := f (weather s); screen := screen s;
     d5 := d5 s; alert := alert s |}.

Definition upd_screen (f : ScreenState -> ScreenState) (s : State) : State :=
  {| g_isInConfigMode := g_isInConfigMode s; g_wifiConnected := g_wifiConnected s;
     lastWiFiCheck := lastWiFiCheck s; lastTouchTime := lastTouchTime s;
     price := price s; weather := weather s; screen := f (screen s);
     d5 := d5 s; alert := alert s |}.

Definition upd_d5 (f : ButtonD5State -> ButtonD5State) (s : State) : State :=
  {| g_isInConfigMode := g_isInConfigMode s; g_wifiConnected := g_wifiConnected s;
     lastWiFiCheck := lastWiFiCheck s; lastTouchTime := lastTouchTime s;
     price := price s; weather := weather s; screen := screen s;
     d5 := f (d5 s); alert := alert s |}.

Definition upd_alert (f : AlertState -> AlertState) (s : State) : State :=
  {| g_isInConfigMode := g_isInConfigMode s; g_wifiConnected := g_wifiConnected s;
     lastWiFiCheck := lastWiFiCheck s; lastTouchTime := lastTouchTime s;
     price := price s; weather := weather s; screen := screen s;
     d5 := d5 s; alert := f (alert s) |}.

Definition set_g_wifiConnected (v : bool) (s : State) : State :=
  {| g_isInConfigMode := g_isInConfigMode s; g_wifiConnected := v;
     lastWiFiCheck := lastWiFiCheck s; lastTouchTime := lastTouchTime s;
     price := price s; weather := weather s; screen := screen s;
     d5 := d5 s; alert := alert s |}.

Definition set_lastWiFiCheck (v : Z) (s : State) : State :=
  {| g_isInConfigMode := g_isInConfigMode s; g_wifiConnected := g_wifiConnected s;
     lastWiFiCheck := v; lastTouchTime := lastTouchTime s;
     price := price s; weather := weather s; screen := screen s;
     d5 := d5 s; alert := alert s |}.

Definition set_lastTouchTime (v : Z) (s : State) : State :=
  {| g_isInConfigMode := g_isInConfigMode s; g_wifiConnected := g_wifiConnected s;
     lastWiFiCheck := lastWiFiCheck s; lastTouchTime := v;
     price := price s; weather := weather s; screen := screen s;
     d5 := d5 s; alert := alert s |}.

(** What the four provider fetchers write on success. *)
Definition store_price (p : Q) (c : f32) (now : Z) : State -> State :=
  upd_price (fun x =>
    {| g_currentPrice := p; g_priceChange24h := c;
       g_hasValidData := true; g_dataStale := false;
       g_lastPollTime := g_lastPollTime x; g_lastSuccessTime := now;
       g_currentProvider := g_currentProvider x;
       g_consecutiveFailures := g_consecutiveFailures x |}).

Definition set_g_dataStale (v : bool) : State -> State :=
  upd_price (fun x =>
    {| g_currentPrice := g_currentPrice x; g_priceChange24h := g_priceChange24h x;
       g_hasValidData := g_hasValidData x; g_dataStale := v;
       g_lastPollTime := g_lastPollTime x; g_lastSuccessTime := g_lastSuccessTime x;
       g_currentProvider := g_currentProvider x;
       g_consecutiveFailures := g_consecutiveFailures x |}).

Definition set_g_lastPollTime (v : Z) : State -> State :=
  upd_price (fun x =>
    {| g_currentPrice := g_currentPrice x; g_priceChange24h := g_priceChange24h x;
       g_hasValidData := g_hasValidData x; g_dataStale := g_dataStale x;
       g_lastPollTime := v; g_lastSuccessTime := g_lastSuccessTime x;
       g_currentProvider := g_currentProvider x;
       g_consecutiveFailures := g_consecutiveFailures x |}).

Definition set_g_currentProvider (v : Z) : State -> State :=
  upd_price (fun x =>
    {| g_currentPrice := g_currentPrice x; g_priceChange24h := g_priceChange24h x;
       g_hasValidData := g_hasValidData x; g_dataStale := g_dataStale x;
       g_lastPollTime := g_lastPollTime x; g_lastSuccessTime := g_lastSuccessTime x;
       g_currentProvider := v;
       g_consecutiveFailures := g_consecutiveFailures x |}).

Definition set_g_consecutiveFailures (v : Z) : State -> State :=
  upd_price (fun x =>
    {| g_currentPrice := g_currentPrice x; g_priceChange24h := g_priceChange24h x;
       g_hasValidData := g_hasValidData x; g_dataStale := g_dataStale x;
       g_lastPollTime := g_lastPollTime x; g_lastSuccessTime := g_lastSuccessTime x;
       g_currentProvider := g_currentProvider x;
       g_consecutiveFailures := v |}).

(** What the two weather fetchers write on success. *)
Definition store_weather (w : WeatherReading) (now : Z) : State -> State :=
  upd_weather (fun x =>
    {| g_weather := w; g_hasWeatherData := true; g_weatherStale := false;
       g_lastWeatherPoll := g_lastWeatherPoll x; g_lastWeatherSuccess := now |}).

Definition set_g_weatherStale (v : bool) : State -> State :=
  upd_weather (fun x =>
    {| g_weather := g_weather x; g_hasWeatherData := g_hasWeatherData x;
       g_weatherStale := v; g_lastWeatherPoll := g_lastWeatherPoll x;
       g_lastWeatherSuccess := g_lastWeatherSuccess x |}).

Definition set_g_lastWeatherPoll (v : Z) : State -> State :=
  upd_weather (fun x =>
    {| g_weather := g_weather x; g_hasWeatherData := g_hasWeatherData x;
       g_weatherStale := g_weatherStale x; g_lastWeatherPoll := v;
       g_lastWeatherSuccess := g_lastWeatherSuccess x |}).

Definition set_g_currentScreen (v : Z) : State -> State :=
  upd_screen (fun x =>
    {| g_currentScreen := v; g_lastScreenSwitch := g_lastScreenSwitch x;
       screenBtnPressStart := screenBtnPressStart x;
       screenBtnHandled := screenBtnHandled x |}).

Definition set_g_lastScreenSwitch (v : Z) : State -> State :=
  upd_screen (fun x =>
    {| g_currentScreen := g_currentScreen x; g_lastScreenSwitch := v;
       screenBtnPressStart := screenBtnPressStart x;
       screenBtnHandled := screenBtnHandled x |}).

Definition set_screenBtnPressStart (v : Z) : State -> State :=
  upd_screen (fun x =>
    {| g_currentScreen := g_currentScreen x;
       g_lastScreenSwitch := g_lastScreenSwitch x;
       screenBtnPressStart := v; screenBtnHandled := screenBtnHandled x |}).

Definition set_screenBtnHandled (v : bool) : State -> State :=
  upd_screen (fun x =>
    {| g_currentScreen := g_currentScreen x;
       g_lastScreenSwitch := g_lastScreenSwitch x;
       screenBtnPressStart := screenBtnPressStart x; screenBtnHandled := v |}).

Definition set_btnPressStart (v : Z) : State -> State :=
  upd_d5 (fun x =>
    {| btnPressStart := v; d5WeatherShowing := d5WeatherShowing x;
       d5BtcShowing := d5BtcShowing x; d5BtcReleaseTime := d5BtcReleaseTime x;
       d5WeatherReleaseTime := d5WeatherReleaseTime x |}).

Definition set_d5WeatherShowing (v : bool) : State -> State :=
  upd_d5 (fun x =>
    {| btnPressStart := btnPressStart x; d5WeatherShowing := v;
       d5BtcShowing := d5BtcShowing x; d5BtcReleaseTime := d5BtcReleaseTime x;
       d5WeatherReleaseTime := d5WeatherReleaseTime x |}).

Definition set_d5BtcShowing (v : bool) : State -> State :=
  upd_d5 (fun x =>
    {| btnPressStart := btnPressStart x; d5WeatherShowing := d5WeatherShowing x;
       d5BtcShowing := v; d5BtcReleaseTime := d5BtcReleaseTime x;
       d5WeatherReleaseTime := d5WeatherReleaseTime x |}).

Definition set_d5BtcReleaseTime (v : Z) : State -> State :=
  upd_d5 (fun x =>
    {| btnPressStart := btnPressStart x; d5WeatherShowing := d5WeatherShowing x;
       d5BtcShowing := d5BtcShowing x; d5BtcReleaseTime := v;
       d5WeatherReleaseTime := d5WeatherReleaseTime x |}).

Definition set_d5WeatherReleaseTime (v : Z) : State -> State :=
  upd_d5 (fun x =>
    {| btnPressStart := btnPressStart x; d5WeatherShowing := d5WeatherShowing x;
       d5BtcShowing := d5BtcShowing x; d5BtcReleaseTime := d5BtcReleaseTime x;
       d5WeatherReleaseTime := v |}).

Definition set_g_alertStartTime (v : Z) : State -> State :=
  upd_alert (fun x =>
    {| g_alertStartTime := v; lastBlinkTime := lastBlinkTime x;
       blinkState := blinkState x; ledCleanedUp := ledCleanedUp x;
       sosStep := sosStep x |}).

Definition set_lastBlinkTime (v : Z) : State -> State :=
  upd_alert (fun x =>
    {| g_alertStartTime := g_alertStartTime x; lastBlinkTime := v;
       blinkState := blinkState x; ledCleanedUp := ledCleanedUp x;
       sosStep := sosStep x |}).

Definition set_blinkState (v : bool) : State -> State :=
  upd_alert (fun x =>
    {| g_alertStartTime := g_alertStartTime x; lastBlinkTime := lastBlinkTime x;
       blinkState := v; ledCleanedUp := ledCleanedUp x; sosStep := sosStep x |}).

Definition set_ledCleanedUp (v : bool) : State -> State :=
  upd_alert (fun x =>
    {| g_alertStartTime := g_alertStartTime x; lastBlinkTime := lastBlinkTime x;
       blinkState := blinkState x; ledCleanedUp := v; sosStep := sosStep x |}).

Definition set_sosStep (v : Z) : State -> State :=
  upd_alert (fun x =>
    {| g_alertStartTime := g_alertStartTime x; lastBlinkTime := lastBlinkTime x;
       blinkState := blinkState x; ledCleanedUp := ledCleanedUp x; sosStep := v |}).

(** The values of the globals' initialisers. *)
Definition no_weather : WeatherReading :=
  {| temperature := 0; humidity := 0; rainChance := 0;
     windSpeed := 0; windGusts := 0 |}.

Definition boot_state : State := {|
  g_isInConfigMode := false; g_wifiConnected := false;
  lastWiFiCheck := 0; lastTouchTime := 0;
  price := {| g_currentPrice := 0; g_priceChange24h := Fin 0;
              g_hasValidData := false; g_dataStale := false;
              g_lastPollTime := 0; g_lastSuccessTime := 0;
              g_currentProvider := 0; g_consecutiveFailures := 0 |};
  weather := {| g_weather := no_weather; g_hasWeatherData := false;
                g_weatherStale := false; g_lastWeatherPoll := 0;
                g_lastWeatherSuccess := 0 |};
  screen := {| g_currentScreen := 0; g_lastScreenSwitch := 0;
               screenBtnPressStart := 0; screenBtnHandled := false |};
  d5 := {| btnPressStart := 0; d5WeatherShowing := false;
           d5BtcShowing := false; d5BtcReleaseTime := 0;
           d5WeatherReleaseTime := 0 |};
  alert := {| g_alertStartTime := 0; lastBlinkTime := 0; blinkState := true;
              ledCleanedUp := true; sosStep := 0 |} |}.

(** ** Outputs of an iteration *)

Inductive Event :=
| ApiTrying (provider : Z)       (* "[API] Trying ..." at the top of a fetcher *)
| WeatherTrying (provider : Z)   (* "[Weather] Trying ..." *)
| UpdateDisplay                  (* updateDisplay(): the BTC screen *)
| DrawWeatherScreen              (* drawWeatherScreen() *)
| DrawWiFiIcon (connected : bool)
| BlankDisplay                   (* clearDisplay(); display() *)
| CountdownScreen (n : Z)        (* the FACTORY RESET??? screen *)
| ResettingScreen                (* the RESETTING! screen *)
| FormatFS                       (* LittleFS.format() *)
| WiFiDisconnect                 (* WiFi.disconnect(true) *)
| EspRestart                     (* ESP.restart() *)
| WiFiReconnect                  (* WiFi.reconnect() *)
| DigitalWrite (pin : Z) (high : bool)
| SaveConfig (saved : Config).   (* saveConfig() with [config] as it is then *)

Definition Config_eq_dec (a b : Config) : {a = b} + {a <> b}.
Proof. decide equality; (apply Z.eq_dec || apply bool_dec). Defined.

Definition Event_eq_dec (a b : Event) : {a = b} + {a <> b}.
Proof.
  decide equality; (apply Z.eq_dec || apply bool_dec || apply Config_eq_dec).
Defined.

(** ** A state-and-output monad for the sketch's procedures *)

Definition M (A : Type) : Type := State -> A * State * list Event.

Definition value {A} (r : A * State * list Event) : A := fst (fst r).
Definition state {A} (r : A * State * list Event) : State := snd (fst r).
Definition output {A} (r : A * State * list Event) : list Event := snd r.

Definition ret {A} (a : A) : M A := fun s => (a, s, []).

Definition bind {A B} (m : M A) (f : A -> M B) : M B :=
  fun s =>
    let r1 := m s in
    let r2 := f (value r1) (state r1) in
    (value r2, state r2, output r1 ++ output r2).

Definition get : M State := fun s => (s, s, []).
Definition modify (f : State -> State) : M unit := fun s => (tt, f s, []).
Definition emit (e : Event) : M unit := fun s => (tt, s, [e]).
Definition when (b : bool) (m : M unit) : M unit := if b then m else ret tt.

Declare Scope sketch_scope.
Delimit Scope sketch_scope with sketch.
Notation "x <- m ;; k" := (bind m (fun x => k))
  (at level 61, m at next level, right associativity) : sketch_scope.
Notation "m ;; k" := (bind m (fun _ => k))
  (at level 61, right associativity) : sketch_scope.
Local Open Scope sketch_scope.

(** ** What one iteration reads from the outside *)

(** The answers of the four price providers to one call of [fetchPrice]:
    [None] is any failure (HTTP error, timeout, JSON error, missing key),
    [Some] carries the decoded fields the fetcher stores. *)
Record PriceFeed := {
  binance : option (Q * Q);         (* lastPrice, priceChangePercent *)
  coingecko : option (Q * Q);       (* price, 24h change *)
  coinbase : option Q;              (* data.amount *)
  kraken : option (Q * option Q);   (* c[0], o *)
  fetched_at : Z                    (* millis() read by the fetcher that stores *)
}.

Record OpenMeteoAnswer := {
  om_temperature : Q; om_humidity : Z; om_precipitation : list Z;
  om_wind_speed : Q; om_wind_gusts : Q
}.

Record BrightSkyAnswer := {
  bs_temperature : Q; bs_humidity : Z; bs_wind_speed : Q; bs_wind_gust : Q
}.

Record WeatherFeed := {
  open_meteo : option OpenMeteoAnswer;
  brightsky : option BrightSkyAnswer;
  weather_fetched_at : Z
}.

(** What [server.handleClient()] serves in one iteration: nothing, or a
    page that only reads ("/", "/logs", the captive-portal redirect), or
    the settings request "/save" with its form; [authorised] says that no
    web password is set or that the request carries the right one. *)
Inductive Request :=
| NoRequest
| SaveRequest (authorised : bool) (f : Form).

Record Inputs := {
  client_request : Request;      (* what server.handleClient() serves *)
  currentMillis : Z;             (* millis() at the top of the iteration *)
  wifi_status_connected : bool;  (* WiFi.status() == WL_CONNECTED *)
  reconnect_feed : PriceFeed;    (* answers to fetchPrice() after a reconnect *)
  poll_feed : PriceFeed;         (* answers to fetchPrice() of the poll *)
  millis_after_fetch : Z;        (* millis() at the price staleness check *)
  weather_feed : WeatherFeed;
  millis_after_weather : Z;      (* millis() at the weather staleness check *)
  screen_btn_low : bool;         (* digitalRead(SCREEN_BTN_PIN) == LOW *)
  reset_btn_high : bool;         (* digitalRead(RESET_BTN_PIN) == HIGH *)
  btn_a_high : bool;
  btn_b_high : bool;
  btn_c_high : bool
}.

(** ** Price acquisition *)

Definition fetchPriceBinance (f : PriceFeed) : M bool :=
  emit (ApiTrying 0) ;;
  match binance f with
  | Some (p, c) => modify (store_price p (Fin c) (fetched_at f)) ;; ret true
  | None => ret false
  end.

Definition fetchPriceCoinGecko (f : PriceFeed) : M bool :=
  emit (ApiTrying 1) ;;
  match coingecko f with
  | Some (p, c) => modify (store_price p (Fin c) (fetched_at f)) ;; ret true
  | None => ret false
  end.

Definition fetchPriceCoinbase (f : PriceFeed) : M bool :=
  emit (ApiTrying 2) ;;
  match coinbase f with
  | Some p => modify (store_price p (Fin 0) (fetched_at f)) ;; ret true
  | None => ret false
  end.

Definition fetchPriceKraken (f : PriceFeed) : M bool :=
  emit (ApiTrying 3) ;;
  match kraken f with
  | Some (p, o) =>
      let change :=
        match o with
        | Some open =>
            if fltb (float_of_int 0) (Fin p)
            then fmul (fdiv (fsub (Fin p) (Fin open)) (Fin open)) (Fin 100)
            else Fin 0
        | None => Fin 0
        end in
      modify (store_price p change (fetched_at f)) ;; ret true
  | None => ret false
  end.

(** [if (!success) { g_currentProvider = id; success = fetcher(); }] *)
Definition fallback (success : bool) (id : Z) (fetcher : M bool) : M bool :=
  if negb success
  then modify (set_g_currentProvider id) ;; fetcher
  else ret success.

Definition fetchPrice (cfg : Config) (f : PriceFeed) : M unit :=
  s <- get ;;
  if negb (g_wifiConnected s) then ret tt
  else
    success <-
      match api_source cfg with
      | 1 =>                                   (* Binance only *)
          modify (set_g_currentProvider 0) ;;
          fetchPriceBinance f
      | 2 =>                                   (* CoinGecko first *)
          modify (set_g_currentProvider 1) ;;
          success <- fetchPriceCoinGecko f ;;
          success <- fallback success 0 (fetchPriceBinance f) ;;
          success <- fallback success 2 (fetchPriceCoinbase f) ;;
          fallback success 3 (fetchPriceKraken f)
      | 3 =>                                   (* Coinbase first *)
          modify (set_g_currentProvider 2) ;;
          success <- fetchPriceCoinbase f ;;
          success <- fallback success 0 (fetchPriceBinance f) ;;
          success <- fallback success 1 (fetchPriceCoinGecko f) ;;
          fallback success 3 (fetchPriceKraken f)
      | 4 =>                                   (* Kraken first *)
          modify (set_g_currentProvider 3) ;;
          success <- fetchPriceKraken f ;;
          success <- fallback success 0 (fetchPriceBinance f) ;;
          success <- fallback success 1 (fetchPriceCoinGecko f) ;;
          fallback success 2 (fetchPriceCoinbase f)
      | _ =>                                   (* Auto (0) *)
          modify (set_g_currentProvider 0) ;;
          success <- fetchPriceBinance f ;;
          success <- fallback success 1 (fetchPriceCoinGecko f) ;;
          success <- fallback success 2 (fetchPriceCoinbase f) ;;
          fallback success 3 (fetchPriceKraken f)
      end ;;
    if negb success
    then modify (fun s =>
           set_g_consecutiveFailures
             (wrap8 (g_consecutiveFailures (price s) + 1)) s)
    else modify (set_g_consecutiveFailures 0).

(** ** Weather acquisition *)

(** The maximum of the first three precipitation probabilities, from 0. *)
Definition max_rain (precip : list Z) : Z :=
  fold_left (fun acc prob => if acc <? prob then prob else acc)
            (firstn 3 precip) 0.

Definition fetchWeatherOpenMeteo (f : WeatherFeed) : M bool :=
  emit (WeatherTrying 0) ;;
  match open_meteo f with
  | Some a =>
      modify (store_weather
                {| temperature := om_temperature a; humidity := om_humidity a;
                   rainChance := max_rain (om_precipitation a);
                   windSpeed := om_wind_speed a; windGusts := om_wind_gusts a |}
                (weather_fetched_at f)) ;;
      ret true
  | None => ret false
  end.

Definition fetchWeatherBrightSky (f : WeatherFeed) : M bool :=
  emit (WeatherTrying 1) ;;
  match brightsky f with
  | Some a =>
      modify (store_weather
                {| temperature := bs_temperature a; humidity := bs_humidity a;
                   rainChance := 0;
                   windSpeed := bs_wind_speed a; windGusts := bs_wind_gust a |}
                (weather_fetched_at f)) ;;
      ret true
  | None => ret false
  end.

Definition fetchWeather (cfg : Config) (f : WeatherFeed) : M unit :=
  s <- get ;;
  if negb (g_wifiConnected s) || negb (weather_enabled cfg) then ret tt
  else
    success <- fetchWeatherOpenMeteo f ;;
    success <- (if negb success then fetchWeatherBrightSky f else ret success) ;;
    when (negb success)
      (s <- get ;;
       when (g_hasWeatherData (weather s)) (modify (set_g_weatherStale true))).

(** ** Display helper *)

Definition refreshCurrentScreen : M unit :=
  s <- get ;;
  if g_currentScreen (screen s) =? 0
  then emit UpdateDisplay
  else emit DrawWeatherScreen.

(** ** The stages of [loop()], in source order *)

(** Check WiFi and reconnect if necessary (every 30 s). *)
Definition wifi_check (cfg : Config) (i : Inputs) : M unit :=
  s <- get ;;
  when (30000 <? sub32 (currentMillis i) (lastWiFiCheck s))
    (modify (set_lastWiFiCheck (currentMillis i)) ;;
     if negb (wifi_status_connected i)
     then
       emit WiFiReconnect ;;
       modify (set_g_wifiConnected false) ;;
       emit (DrawWiFiIcon false)
     else
       s <- get ;;
       when (negb (g_wifiConnected s))
         (modify (set_g_wifiConnected true) ;;
          fetchPrice cfg (reconnect_feed i) ;;
          emit UpdateDisplay)).

(** Poll BTC price, then the staleness check. *)
Definition poll_price (cfg : Config) (i : Inputs) : M unit :=
  s <- get ;;
  when (poll_interval cfg <=? sub32 (currentMillis i) (g_lastPollTime (price s)))
    (fetchPrice cfg (poll_feed i) ;;
     s <- get ;;
     when (mul32 (poll_interval cfg) 3
             <? sub32 (millis_after_fetch i) (g_lastSuccessTime (price s)))
       (modify (set_g_dataStale true)) ;;
     s <- get ;;
     when (g_currentScreen (screen s) =? 0) (emit UpdateDisplay) ;;
     modify (set_g_lastPollTime (currentMillis i))).

(** Poll weather (if enabled). *)
Definition poll_weather (cfg : Config) (i : Inputs) : M unit :=
  s <- get ;;
  when (weather_enabled cfg
        && (weather_poll cfg
              <=? sub32 (currentMillis i) (g_lastWeatherPoll (weather s))))
    (fetchWeather cfg (weather_feed i) ;;
     s <- get ;;
     when (mul32 (weather_poll cfg) 3
             <? sub32 (millis_after_weather i) (g_lastWeatherSuccess (weather s)))
       (modify (set_g_weatherStale true)) ;;
     s <- get ;;
     when (g_currentScreen (screen s) =? 1) (emit DrawWeatherScreen) ;;
     modify (set_g_lastWeatherPoll (currentMillis i))).

(** Screen cycling (only in Auto Cycle mode, button_mode == 0). *)
Definition auto_cycle (cfg : Config) (i : Inputs) : M unit :=
  when (weather_enabled cfg && (button_mode cfg =? 0))
    (s <- get ;;
     let currentCycle :=
       if g_currentScreen (screen s) =? 0
       then btc_cycle cfg else weather_cycle cfg in
     when (currentCycle <=? sub32 (currentMillis i) (g_lastScreenSwitch (screen s)))
       (modify (set_g_currentScreen ((g_currentScreen (screen s) + 1) mod 2)) ;;
        modify (set_g_lastScreenSwitch (currentMillis i)) ;;
        refreshCurrentScreen)).

(** On-Demand mode: auto-return to BTC after weather_cycle. *)
Definition on_demand_return (cfg : Config) (i : Inputs) : M unit :=
  s <- get ;;
  when (weather_enabled cfg && (button_mode cfg =? 2)
        && (g_currentScreen (screen s) =? 1)
        && (weather_cycle cfg
              <=? sub32 (currentMillis i) (g_lastScreenSwitch (screen s))))
    (modify (set_g_currentScreen 0) ;;
     modify (set_g_lastScreenSwitch (currentMillis i)) ;;
     emit UpdateDisplay).

(** Screen toggle button (D6): short press, handled on release. *)
Definition screen_button (cfg : Config) (i : Inputs) : M unit :=
  s <- get ;;
  if screen_btn_low i
  then
    when (screenBtnPressStart (screen s) =? 0)
      (modify (set_screenBtnPressStart (currentMillis i)) ;;
       modify (set_screenBtnHandled false))
  else
    when ((0 <? screenBtnPressStart (screen s))
          && negb (screenBtnHandled (screen s)))
      (let pressDuration :=
         sub32 (currentMillis i) (screenBtnPressStart (screen s)) in
       when ((50 <? pressDuration) && (pressDuration <? 1000))
         (when (weather_enabled cfg)
            ((if button_mode cfg =? 0
              then modify (set_g_currentScreen
                             ((g_currentScreen (screen s) + 1) mod 2))
              else if button_mode cfg =? 1
              then modify (set_g_currentScreen 1)
              else if button_mode cfg =? 2
              then modify (set_g_currentScreen 1)
              else ret tt) ;;
             modify (set_g_lastScreenSwitch (currentMillis i)) ;;
             refreshCurrentScreen) ;;
          modify (set_screenBtnHandled true))) ;;
    modify (set_screenBtnPressStart 0).

(** TTP223 touch button polling: only the debounce stamp changes. *)
Definition touch_polling (cfg : Config) (i : Inputs) : M unit :=
  when (touch_enabled cfg)
    (s <- get ;;
     when (200 <? sub32 (currentMillis i) (lastTouchTime s))
       (if btn_a_high i then modify (set_lastTouchTime (currentMillis i))
        else if btn_b_high i then modify (set_lastTouchTime (currentMillis i))
        else if btn_c_high i then modify (set_lastTouchTime (currentMillis i))
        else ret tt)).

(** [unsigned long] to [int]. *)
Definition int_of_u32 (x : Z) : Z := if x <? 2147483648 then x else x - two32.

(** D5 = BTC button (weather is the default screen). *)
Definition d5_btc_button (cfg : Config) (i : Inputs) : M unit :=
  s <- get ;;
  if reset_btn_high i
  then
    when (negb (d5BtcShowing (d5 s)))
      (modify (set_g_currentScreen 0) ;;
       emit UpdateDisplay ;;
       modify (set_d5BtcShowing true) ;;
       modify (set_d5BtcReleaseTime 0))
  else
    when (d5BtcShowing (d5 s))
      (if d5_timeout cfg =? 0
       then
         modify (set_g_currentScreen 1) ;;
         emit DrawWeatherScreen ;;
         modify (set_d5BtcShowing false)
       else if d5BtcReleaseTime (d5 s) =? 0
       then modify (set_d5BtcReleaseTime (currentMillis i))
       else if d5_timeout cfg
                 <=? sub32 (currentMillis i) (d5BtcReleaseTime (d5 s))
       then
         modify (set_g_currentScreen 1) ;;
         emit DrawWeatherScreen ;;
         modify (set_d5BtcShowing false) ;;
         modify (set_d5BtcReleaseTime 0)
       else ret tt).

(** D5 = weather button (BTC is the default screen). *)
Definition d5_weather_button (cfg : Config) (i : Inputs) : M unit :=
  s <- get ;;
  if reset_btn_high i
  then
    when (negb (d5WeatherShowing (d5 s)))
      (modify (set_g_currentScreen 1) ;;
       emit DrawWeatherScreen ;;
       modify (set_d5WeatherShowing true) ;;
       modify (set_d5WeatherReleaseTime 0))
  else
    when (d5WeatherShowing (d5 s))
      (if d5_timeout cfg =? 0
       then
         modify (set_g_currentScreen 0) ;;
         emit UpdateDisplay ;;
         modify (set_d5WeatherShowing false)
       else if d5WeatherReleaseTime (d5 s) =? 0
       then modify (set_d5WeatherReleaseTime (currentMillis i))
       else if d5_timeout cfg
                 <=? sub32 (currentMillis i) (d5WeatherReleaseTime (d5 s))
       then
         modify (set_g_currentScreen 0) ;;
         emit UpdateDisplay ;;
         modify (set_d5WeatherShowing false) ;;
         modify (set_d5WeatherReleaseTime 0)
       else ret tt).

(** D5 = factory reset (original behaviour).  The result is [true] when
    [ESP.restart()] was reached: nothing of the iteration runs after it. *)
Definition factory_reset_button (cfg : Config) (i : Inputs) : M bool :=
  if reset_btn_high i
  then
    s <- get ;;
    when (btnPressStart (d5 s) =? 0)
      (modify (set_btnPressStart (currentMillis i))) ;;
    s <- get ;;
    let duration := sub32 (currentMillis i) (btnPressStart (d5 s)) in
    if 10000 <? duration
    then
      emit ResettingScreen ;;
      emit FormatFS ;;
      emit WiFiDisconnect ;;
      emit EspRestart ;;
      ret true
    else if 2000 <? duration
    then
      let countdown := int_of_u32 (sub32 10 (duration / 1000)) in
      emit (CountdownScreen countdown) ;;
      modify (set_lastWiFiCheck (currentMillis i)) ;;
      ret false
    else ret false
  else
    modify (set_btnPressStart 0) ;;
    ret false.

(** Check the D5 button: factory reset or weather/BTC toggle by config. *)
Definition d5_button (cfg : Config) (i : Inputs) : M bool :=
  if d5_btc_mode cfg
  then d5_btc_button cfg i ;; ret false
  else if d5_weather_mode cfg
  then d5_weather_button cfg i ;; ret false
  else factory_reset_button cfg i.

(** ** Alert logic (display + LED) *)

(** The low and the high breach tests, as the source writes them. *)
Definition low_breach (cfg : Config) (s : State) : bool :=
  (0 <? alert_low cfg) && price_lt (g_currentPrice (price s)) (alert_low cfg).

Definition high_breach (cfg : Config) (s : State) : bool :=
  (0 <? alert_high cfg) && price_gt (g_currentPrice (price s)) (alert_high cfg).

(** The first assignment of [alertTriggered]. *)
Definition alert_condition (cfg : Config) (s : State) : bool :=
  if g_hasValidData (price s)
  then if low_breach cfg s || high_breach cfg s then true else false
  else false.

(** "Determine active pattern". *)
Definition active_pattern (cfg : Config) (s : State) : Z :=
  if low_breach cfg s then blink_pattern_low cfg
  else if high_breach cfg s then blink_pattern_high cfg
  else 0.

(** "Handle Alert Duration": stamps or clears [g_alertStartTime] and
    returns the final value of [alertTriggered]. *)
Definition alert_duration_gate (cfg : Config) (i : Inputs) : M bool :=
  s <- get ;;
  if alert_condition cfg s
  then
    when (g_alertStartTime (alert s) =? 0)
      (modify (set_g_alertStartTime (currentMillis i))) ;;
    s <- get ;;
    if (0 <? alert_duration cfg)
       && (mul32 (alert_duration cfg) 1000
             <? sub32 (currentMillis i) (g_alertStartTime (alert s)))
    then ret false
    else ret true
  else
    modify (set_g_alertStartTime 0) ;;
    ret false.

(** The hold time of an SOS step. *)
Definition sos_duration (step : Z) : Z :=
  let duration := 200 in
  let duration :=
    if step =? 5 then 600
    else if step =? 11 then 600
    else if step =? 17 then 2000
    else duration in
  if (6 <=? step) && (step <=? 10)
  then (if step mod 2 =? 0 then 600 else duration)
  else duration.

(** [sosStep++; if (sosStep > 17) sosStep = 0;] on a [uint8_t]. *)
Definition sos_next (step : Z) : Z :=
  let step := wrap8 (step + 1) in
  if 17 <? step then 0 else step.

(** SOS pattern logic (pattern 3). *)
Definition sos_blink (i : Inputs) : M unit :=
  s <- get ;;
  when (5000 <? sub32 (currentMillis i) (lastBlinkTime (alert s)))
    (modify (set_sosStep 0)) ;;
  s <- get ;;
  let duration := sos_duration (sosStep (alert s)) in
  when (duration <=? sub32 (currentMillis i) (lastBlinkTime (alert s)))
    (modify (set_sosStep (sos_next (sosStep (alert s)))) ;;
     s <- get ;;
     modify (set_blinkState (sosStep (alert s) mod 2 =? 0)) ;;
     modify (set_lastBlinkTime (currentMillis i))) ;;
  s <- get ;;
  modify (set_blinkState (sosStep (alert s) mod 2 =? 0)).

(** Standard patterns (0=Slow, 1=Fast, 2=Strobe). *)
Definition blink_interval (pattern : Z) : Z :=
  if pattern =? 1 then 250
  else if pattern =? 2 then 50
  else 1000.

Definition standard_blink (pattern : Z) (i : Inputs) : M unit :=
  s <- get ;;
  when (blink_interval pattern
          <=? sub32 (currentMillis i) (lastBlinkTime (alert s)))
    (modify (set_blinkState (negb (blinkState (alert s)))) ;;
     modify (set_lastBlinkTime (currentMillis i))).

Definition drives_display (cfg : Config) : bool :=
  (alert_mode cfg =? 0) || (alert_mode cfg =? 2).

Definition drives_led (cfg : Config) : bool :=
  (alert_mode cfg =? 1) || (alert_mode cfg =? 2).

(** The pin level for a logical LED state ([true] is HIGH). *)
Definition pinLevel (cfg : Config) (on : bool) : bool :=
  if on
  then (if led_inverted cfg then false else true)
  else (if led_inverted cfg then true else false).

Definition alert_logic (cfg : Config) (i : Inputs) : M unit :=
  alertTriggered <- alert_duration_gate cfg i ;;
  if alertTriggered
  then
    modify (set_ledCleanedUp false) ;;
    s <- get ;;
    let pattern := active_pattern cfg s in
    (if pattern =? 3 then sos_blink i else standard_blink pattern i) ;;
    s <- get ;;
    when (drives_display cfg)
      (if blinkState (alert s) then emit UpdateDisplay else emit BlankDisplay) ;;
    when (drives_led cfg)
      (emit (DigitalWrite (led_pin cfg) (pinLevel cfg (blinkState (alert s)))))
  else
    s <- get ;;
    when (negb (blinkState (alert s)))
      (modify (set_blinkState true) ;; refreshCurrentScreen) ;;
    s <- get ;;
    when (negb (ledCleanedUp (alert s)))
      (when (drives_led cfg)
         (emit (DigitalWrite (led_pin cfg) (pinLevel cfg false))) ;;
       modify (set_ledCleanedUp true)).

(** ** The web server *)

(** [requireAuth()]: always granted in configuration mode. *)
Definition requireAuth (authorised : bool) : M bool :=
  s <- get ;;
  if g_isInConfigMode s then ret true else ret authorised.

(** [handleSave()]: refused, or the assignments to [config],
    [saveConfig()] and [ESP.restart()].  The result is [true] when the
    restart was reached. *)
Definition handleSave (cfg : Config) (authorised : bool) (f : Form) : M bool :=
  allowed <- requireAuth authorised ;;
  if negb allowed then ret false
  else
    emit (SaveConfig (handleSave_config f cfg)) ;;
    emit EspRestart ;;
    ret true.

(** [server.handleClient()]. *)
Definition handleClient (cfg : Config) (i : Inputs) : M bool :=
  match client_request i with
  | NoRequest => ret false
  | SaveRequest authorised f => handleSave cfg authorised f
  end.

(** ** One iteration of [loop()], and runs of it *)

Inductive Outcome :=
| Running (s : State) (out : list Event)
| Restarted (out : list Event).     (* ESP.restart() was called *)

(** Everything of the normal-mode body before the alert logic; the value is
    [true] when the factory reset restarted the chip. *)
Definition before_alert (cfg : Config) (i : Inputs) : M bool :=
  wifi_check cfg i ;;
  poll_price cfg i ;;
  poll_weather cfg i ;;
  auto_cycle cfg i ;;
  on_demand_return cfg i ;;
  screen_button cfg i ;;
  touch_polling cfg i ;;
  d5_button cfg i.

Definition loop (cfg : Config) (i : Inputs) (s : State) : Outcome :=
  if g_isInConfigMode s
  then                       (* captive portal: the servers only *)
    let c := handleClient cfg i s in
    if value c then Restarted (output c) else Running (state c) (output c)
  else
    let c := handleClient cfg i s in
    if value c
    then Restarted (output c)
    else
      let r := before_alert cfg i (state c) in
      if value r
      then Restarted (output c ++ output r)
      else
        let r' := alert_logic cfg i (state r) in
        Running (state r') (output c ++ output r ++ output r').

(** Successive iterations, one [Inputs] each, until a restart. *)
Fixpoint run (cfg : Config) (ins : list Inputs) (s : State) : Outcome :=
  match ins with
  | [] => Running s []
  | i :: rest =>
      match loop cfg i s with
      | Running s' out =>
          match run cfg rest s' with
          | Running s'' out' => Running s'' (out ++ out')
          | Restarted out' => Restarted (out ++ out')
          end
      | Restarted out => Restarted out
      end
  end.

Definition final_state (o : Outcome) : option State :=
  match o with Running s _ => Some s | Restarted _ => None end.

Definition events (o : Outcome) : list Event :=
  match o with Running _ out => out | Restarted out => out end.

(** The states after each iteration of a run (it ends at a restart). *)
Fixpoint states_along (cfg : Config) (ins : list Inputs) (s : State)
  : list State :=
  match ins with
  | [] => []
  | i :: rest =>
      match loop cfg i s with
      | Running s' _ => s' :: states_along cfg rest s'
      | Restarted _ => []
      end
  end.

(** The final value of [alertTriggered] in an iteration from [s]. *)
Definition alert_active (cfg : Config) (i : Inputs) (s : State) : bool :=
  value (alert_duration_gate cfg i (state (before_alert cfg i s))).

Fixpoint alerting_along (cfg : Config) (ins : list Inputs) (s : State)
  : list bool :=
  match ins with
  | [] => []
  | i :: rest =>
      match loop cfg i s with
      | Running s' _ => alert_active cfg i s :: alerting_along cfg rest s'
      | Restarted _ => []
      end
  end.

(** ** The end of [setup()] once WiFi is connected

    Initial fetches, the screen timer, and the initial screen.  The two
    clock readings are those of [g_lastWeatherPoll = millis()] and
    [g_lastScreenSwitch = millis()]. *)
Definition setup_connected (cfg : Config) (f : PriceFeed) (w : WeatherFeed)
    (millis_weather millis_switch : Z) : M unit :=
  modify (set_g_wifiConnected true) ;;
  fetchPrice cfg f ;;
  when (weather_enabled cfg)
    (fetchWeather cfg w ;;
     modify (set_g_lastWeatherPoll millis_weather)) ;;
  modify (set_g_lastScreenSwitch millis_switch) ;;
  if d5_btc_mode cfg && weather_enabled cfg
  then modify (set_g_currentScreen 1) ;; emit DrawWeatherScreen
  else modify (set_g_currentScreen 0) ;; emit UpdateDisplay.

(** ** Vocabulary of the properties *)

(** The providers a call of [fetchPrice] tried, in order. *)
Definition attempts (out : list Event) : list Z :=
  flat_map (fun e => match e with ApiTrying p => [p] | _ => [] end) out.

(** Does provider [p] answer in feed [f]? *)
Definition answers (f : PriceFeed) (p : Z) : bool :=
  match p with
  | 0 => match binance f with Some _ => true | None => false end
  | 1 => match coingecko f with Some _ => true | None => false end
  | 2 => match coinbase f with Some _ => true | None => false end
  | 3 => match kraken f with Some _ => true | None => false end
  | _ => false
  end.

(** The provider named by the configured preference. *)
Definition preferred (api : Z) : Z :=
  if api =? 2 then 1 else if api =? 3 then 2 else if api =? 4 then 3 else 0.

(** Preferred provider first, then the others in the fixed order
    Binance, CoinGecko, Coinbase, Kraken; Binance alone for source 1. *)
Definition provider_order (api : Z) : list Z :=
  if api =? 1 then [0]
  else preferred api
         :: filter (fun p => negb (p =? preferred api)) [0; 1; 2; 3].

(** The ring Binance -> CoinGecko -> Coinbase -> Kraken -> Binance, read
    from [start]. *)
Definition ring_order (start : Z) : list Z :=
  map (fun k => (start + k) mod 4) [0; 1; 2; 3].

(** Walk [order] and stop after the first provider that answers. *)
Fixpoint until_success (f : PriceFeed) (order : list Z) : list Z :=
  match order with
  | [] => []
  | p :: rest => p :: (if answers f p then [] else until_success f rest)
  end.

(** The staleness invariant as the data model words it. *)
Definition stale_invariant (cfg : Config) (now : Z) (s : State) : Prop :=
  g_dataStale (price s) = true <->
  (g_hasValidData (price s) = true /\
   3 * poll_interval cfg < sub32 now (g_lastSuccessTime (price s))).

(** A step from [s] to [s'] that neither raises the stale flag nor moves
    the poll timer. *)
Definition no_stale_raise (s s' : State) : Prop :=
  (g_dataStale (price s') = true -> g_dataStale (price s) = true) /\
  g_lastPollTime (price s') = g_lastPollTime (price s).

(** The poll branch of the iteration is taken. *)
Definition poll_due (cfg : Config) (i : Inputs) (s : State) : bool :=
  poll_interval cfg <=? sub32 (currentMillis i) (g_lastPollTime (price s)).

(** The trigger formula as the alert engine's contract words it. *)
Definition spec_triggered (has_value : bool) (v : Q) (low high : Z) : bool :=
  has_value
  && (((0 <? low) && Qltb v (inject_Z low))
      || ((0 <? high) && Qltb (inject_Z high) v)).

(** The press stamp the factory-reset branch measures from: the stored
    one, or the current time when none is stored. *)
Definition press_stamp (i : Inputs) (s : State) : Z :=
  if btnPressStart (d5 s) =? 0 then currentMillis i else btnPressStart (d5 s).

Definition held_for (i : Inputs) (s : State) : Z :=
  sub32 (currentMillis i) (press_stamp i s).

(** The D6 button is up in this iteration and completes a short press. *)
Definition short_press_released (i : Inputs) (s : State) : bool :=
  negb (screen_btn_low i)
  && (0 <? screenBtnPressStart (screen s))
  && negb (screenBtnHandled (screen s))
  && (50 <? sub32 (currentMillis i) (screenBtnPressStart (screen s)))
  && (sub32 (currentMillis i) (screenBtnPressStart (screen s)) <? 1000).

(** [server.handleClient()] serves a settings request that is granted. *)
Definition save_served (i : Inputs) (s : State) : bool :=
  match client_request i with
  | NoRequest => false
  | SaveRequest authorised _ => g_isInConfigMode s || authorised
  end.

(** What [handleSave] outputs when it is granted. *)
Definition save_sequence (cfg : Config) (i : Inputs) : list Event :=
  match client_request i with
  | NoRequest => []
  | SaveRequest _ f => [SaveConfig (handleSave_config f cfg); EspRestart]
  end.

(** ** Sample feeds, inputs and configurations *)

Definition no_answer : PriceFeed :=
  {| binance := None; coingecko := None; coinbase := None; kraken := None;
     fetched_at := 0 |}.

Definition binance_answers (p : Q) (at_ms : Z) : PriceFeed :=
  {| binance := Some (p, 0%Q); coingecko := None; coinbase := None;
     kraken := None; fetched_at := at_ms |}.

Definition no_weather_answer : WeatherFeed :=
  {| open_meteo := None; brightsky := None; weather_fetched_at := 0 |}.

(** An iteration at time [t] with WiFi up, every provider failing, and the
    given levels of the D6 and D5 inputs. *)
Definition sample (t : Z) (d6_low d5_high : bool) : Inputs :=
  {| client_request := NoRequest;
     currentMillis := t; wifi_status_connected := true;
     reconnect_feed := no_answer; poll_feed := no_answer;
     millis_after_fetch := t; weather_feed := no_weather_answer;
     millis_after_weather := t;
     screen_btn_low := d6_low; reset_btn_high := d5_high;
     btn_a_high := false; btn_b_high := false; btn_c_high := false |}.

Definition idle (t : Z) : Inputs := sample t false false.

(** The inputs [i] with another request for the web server. *)
Definition sample_request (q : Request) (i : Inputs) : Inputs :=
  {| client_request := q;
     currentMillis := currentMillis i;
     wifi_status_connected := wifi_status_connected i;
     reconnect_feed := reconnect_feed i; poll_feed := poll_feed i;
     millis_after_fetch := millis_after_fetch i;
     weather_feed := weather_feed i;
     millis_after_weather := millis_after_weather i;
     screen_btn_low := screen_btn_low i; reset_btn_high := reset_btn_high i;
     btn_a_high := btn_a_high i; btn_b_high := btn_b_high i;
     btn_c_high := btn_c_high i |}.

(** The same with Binance answering price [p] at every fetch. *)
Definition sample_priced (t : Z) (p : Q) : Inputs :=
  {| client_request := NoRequest;
     currentMillis := t; wifi_status_connected := true;
     reconnect_feed := binance_answers p t; poll_feed := binance_answers p t;
     millis_after_fetch := t; weather_feed := no_weather_answer;
     millis_after_weather := t;
     screen_btn_low := false; reset_btn_high := false;
     btn_a_high := false; btn_b_high := false; btn_c_high := false |}.

(** The defaults with the listed knobs changed. *)
Definition configure (api : Z) (wx : bool) (mode : Z) (d5w d5b : bool)
    (timeout low high duration : Z) : Config :=
  {| api_source := api; poll_interval := 60000;
     alert_low := low; alert_high := high;
     blink_pattern_low := 0; blink_pattern_high := 1;
     weather_enabled := wx; weather_poll := 1800000;
     btc_cycle := 120000; weather_cycle := 10000; button_mode := mode;
     alert_mode := 0; led_pin := 2; led_inverted := true;
     alert_duration := duration; touch_enabled := false;
     d5_weather_mode := d5w; d5_btc_mode := d5b; d5_timeout := timeout |}.

(** The state [setup()] leaves when WiFi connects at boot and the first
    fetch finds no provider. *)
Definition booted (cfg : Config) (t : Z) : State :=
  state (setup_connected cfg no_answer no_weather_answer t t boot_state).

(** The same when Binance answers price [p] to the first fetch. *)
Definition booted_priced (cfg : Config) (t : Z) (p : Q) : State :=
  state (setup_connected cfg (binance_answers p t) no_weather_answer t t
           boot_state).

(** ** Frame vocabulary *)

(** [preserves R m]: running [m] relates the state before to the state
    after. *)
Definition preserves {A} (R : State -> State -> Prop) (m : M A) : Prop :=
  forall s, R s (state (m s)).

(** [keeps proj]: the part [proj] of the state is left as it was. *)
Definition keeps {A} (proj : State -> A) : State -> State -> Prop :=
  fun s s' => proj s' = proj s.

(** The state after the WiFi check and the two polls. *)
Definition after_polls (cfg : Config) (i : Inputs) (s : State) : State :=
  state (poll_weather cfg i (state (poll_price cfg i
          (state (wifi_check cfg i s))))).

(** ** Alert vocabulary *)

(** The start stamp the duration test reads: the stored one, or the
    current time when none is stored. *)
Definition alert_stamp (i : Inputs) (s : State) : Z :=
  if g_alertStartTime (alert s) =? 0
  then currentMillis i else g_alertStartTime (alert s).

(** The duration cutoff applies in this iteration. *)
Definition duration_exceeded (cfg : Config) (i : Inputs) (s : State) : bool :=
  (0 <? alert_duration cfg)
  && (mul32 (alert_duration cfg) 1000
        <? sub32 (currentMillis i) (alert_stamp i s)).

(** The blink stage the alert logic runs for a pattern. *)
Definition blink_stage (pattern : Z) (i : Inputs) : M unit :=
  if pattern =? 3 then sos_blink i else standard_blink pattern i.


(** The SOS stage at successive clock readings: the step and the
    visibility after each. *)
Fixpoint sos_run (times : list Z) (s : State) : list (Z * bool) :=
  match times with
  | [] => []
  | t :: rest =>
      let s' := state (sos_blink (idle t) s) in
      (sosStep (alert s'), blinkState (alert s')) :: sos_run rest s'
  end.

(** ** Output vocabulary *)

(** [emits P m]: every event [m] outputs satisfies [P]. *)
Definition emits {A} (P : Event -> Prop) (m : M A) : Prop :=
  forall s e, In e (output (m s)) -> P e.

(** Events of a restart: the two screens of the factory reset, the wipe,
    the saved settings, the restart itself. *)
Definition reset_event (e : Event) : bool :=
  match e with
  | CountdownScreen _ | ResettingScreen | FormatFS | WiFiDisconnect
  | EspRestart | SaveConfig _ => true
  | _ => false
  end.

Definition is_save (e : Event) : bool :=
  match e with SaveConfig _ => true | _ => false end.

(** How many times [saveConfig()] ran. *)
Definition saves (out : list Event) : nat := length (filter is_save out).

Definition quiet (e : Event) : Prop := reset_event e = false.

(** What the factory reset outputs when it fires. *)
Definition wipe_sequence : list Event :=
  [ResettingScreen; FormatFS; WiFiDisconnect; EspRestart].

(** The stages of the iteration before the D5 button. *)
Definition before_d5 (cfg : Config) (i : Inputs) : M unit :=
  wifi_check cfg i ;;
  poll_price cfg i ;;
  poll_weather cfg i ;;
  auto_cycle cfg i ;;
  on_demand_return cfg i ;;
  screen_button cfg i ;;
  touch_polling cfg i.

(** ** State invariants *)

(** The active screen is BTC (0) or Weather (1). *)
Definition screen_valid (s : State) : Prop :=
  g_currentScreen (screen s) = 0 \/ g_currentScreen (screen s) = 1.

(** The SOS step is an index of the 18-step pattern. *)
Definition sos_valid (s : State) : Prop := 0 <= sosStep (alert s) <= 17.

(** [carries P]: a step that leaves [P] true when it was. *)
Definition carries (P : State -> Prop) : State -> State -> Prop :=
  fun s s' => P s -> P s'.

(** ** Screen timing vocabulary *)

(** The visible time of the active screen has passed. *)
Definition cycle_due (cfg : Config) (i : Inputs) (s : State) : bool :=
  (if g_currentScreen (screen s) =? 0 then btc_cycle cfg else weather_cycle cfg)
  <=? sub32 (currentMillis i) (g_lastScreenSwitch (screen s)).

(** The weather screen is up and its visible time has passed. *)
Definition demand_over (cfg : Config) (i : Inputs) (s : State) : bool :=
  (g_currentScreen (screen s) =? 1)
  && (weather_cycle cfg <=? sub32 (currentMillis i) (g_lastScreenSwitch (screen s))).

(** What [refreshCurrentScreen] draws in state [s]. *)
Definition refresh_event (s : State) : Event :=
  if g_currentScreen (screen s) =? 0 then UpdateDisplay else DrawWeatherScreen.

(** The WiFi check branch of the iteration is taken. *)
Definition wifi_check_due (i : Inputs) (s : State) : bool :=
  30000 <? sub32 (currentMillis i) (lastWiFiCheck s).

(** ** Fetch vocabulary *)

(** A call of [fetchPrice] with the answers [f] finds a provider. *)
Definition fetch_succeeds (cfg : Config) (f : PriceFeed) : bool :=
  existsb (answers f) (provider_order (api_source cfg)).

(** The WiFi check finds the connection back and fetches. *)
Definition reconnect_fetch (i : Inputs) (s : State) : bool :=
  wifi_check_due i s && wifi_status_connected i && negb (g_wifiConnected s).

(** [g_wifiConnected] after the WiFi check. *)
Definition online_at_poll (i : Inputs) (s : State) : bool :=
  if wifi_check_due i s then wifi_status_connected i else g_wifiConnected s.

(** A fetch of the iteration stores a price: the one after a reconnect
    or the one of the poll. *)
Definition price_fetched (cfg : Config) (i : Inputs) (s : State) : bool :=
  (reconnect_fetch i s && fetch_succeeds cfg (reconnect_feed i))
  || (poll_due cfg i s && online_at_poll i s
      && fetch_succeeds cfg (poll_feed i)).

(** ** Display helpers: texts and their placement *)

(** A text is [None] where the source casts a [float] that is no [int]
    (undefined behaviour). *)

Module Display.
Import String Ascii.
Local Open Scope string_scope.
Local Open Scope Z_scope.

(** The conversion [%d] (and [%ld]: [long] is [int] on this chip). *)
Definition dec (z : Z) : string :=
  DecimalString.NilZero.string_of_int (Z.to_int z).

Fixpoint zeros (n : nat) : string :=
  match n with O => "" | S k => "0" ++ zeros k end.

(** The conversion [%0<width>d]: zeros after the sign up to the width. *)
Definition zero_pad (width : nat) (z : Z) : string :=
  if z <? 0
  then "-" ++ zeros (width - 1 - String.length (dec (- z)))%nat ++ dec (- z)
  else zeros (width - String.length (dec z))%nat ++ dec z.

(** [snprintf(buffer, bufferSize, ...)] keeps [bufferSize - 1] characters. *)
Definition snprintf (bufferSize : nat) (text : string) : string :=
  substring 0 (bufferSize - 1)%nat text.

(** [(long)(price + 0.5f)]. *)
Definition rounded_price (price : Q) : option Z :=
  int_of_float (fadd (Fin price) (Fin (1 # 2))).

Definition formatPrice (price : Q) (currency : string) (bufferSize : nat)
  : option string :=
  match rounded_price price with
  | None => None
  | Some intPart =>
      Some
        (if 100000 <=? intPart
         then snprintf bufferSize
                (dec (Z.quot intPart 1000) ++ "."
                 ++ zero_pad 3 (Z.rem intPart 1000) ++ " " ++ currency)
         else if 1000 <=? intPart
         then snprintf bufferSize
                (dec (Z.quot intPart 1000) ++ "."
                 ++ zero_pad 3 (Z.rem intPart 1000) ++ " " ++ currency)
         else snprintf bufferSize (dec intPart ++ " " ++ currency))
  end.

(** [(int)((absChange - intPart) * 100 + 0.5f)]. *)
Definition hundredths (absChange : f32) (intPart : Z) : option Z :=
  int_of_float
    (fadd (fmul (fsub absChange (float_of_int intPart)) (float_of_int 100))
          (Fin (1 # 2))).

Definition formatChange (change : f32) (bufferSize : nat) : option string :=
  let nonneg := fleb (float_of_int 0) change in
  let sign := if nonneg then "+" else "-" in
  let absChange := if nonneg then change else fneg change in
  match int_of_float absChange with
  | None => None
  | Some intPart =>
      match hundredths absChange intPart with
      | None => None
      | Some decPart =>
          Some (snprintf bufferSize
                  (sign ++ dec intPart ++ "." ++ zero_pad 2 decPart ++ "%"))
      end
  end.

(** The fields of [struct tm] the sketch reads. *)
Record tm := { tm_year : Z; tm_hour : Z; tm_min : Z }.

Definition getCurrentTimeStr (time_format : string) (timeinfo : tm)
    (bufferSize : nat) : string :=
  if 100 <? tm_year timeinfo
  then
    if String.eqb time_format "US"
    then
      let hour12 := Z.rem (tm_hour timeinfo) 12 in
      let hour12 := if hour12 =? 0 then 12 else hour12 in
      let ampm := if 12 <=? tm_hour timeinfo then "PM" else "AM" in
      snprintf bufferSize
        (dec hour12 ++ ":" ++ zero_pad 2 (tm_min timeinfo) ++ " " ++ ampm)
    else
      snprintf bufferSize
        (zero_pad 2 (tm_hour timeinfo) ++ ":"
         ++ zero_pad 2 (tm_min timeinfo) ++ " Uhr")
  else snprintf bufferSize "--:--".

(** The size, the character width and the cursor column
    [updateDisplay] chooses for a price text of [priceLen] characters. *)
Definition price_layout (priceLen : Z) : Z * Z * Z :=
  let textSize := if priceLen <=? 12 then 2 else 1 in
  let charWidth := if textSize =? 2 then 12 else 6 in
  let priceX := Z.max 0 (Z.quot (128 - priceLen * charWidth) 2) in
  (textSize, charWidth, priceX).

(** The price line of [updateDisplay]: the text in [g_priceBuffer]
    (20 bytes) and its placement. *)
Definition price_line (price : Q) (currency : string)
  : option (string * (Z * Z * Z)) :=
  match formatPrice price currency 20 with
  | None => None
  | Some text => Some (text, price_layout (Z.of_nat (String.length text)))
  end.

(** The right edge of the price text, in pixels. *)
Definition right_edge (layout : Z * Z * Z) (priceLen : Z) : Z :=
  let '(_, charWidth, priceX) := layout in priceX + priceLen * charWidth.

(** The cursor column of the right-aligned clock in the compact
    header of [drawWeatherScreen]. *)
Definition time_cursor (text : string) : Z :=
  128 - Z.of_nat (String.length text) * 6.

(** The footer of [updateDisplay], in the small font (6 pixels a
    character), and its width. *)
Definition footer (text : string) : string := "Updated: " ++ text.

Definition footer_width (text : string) : Z :=
  Z.of_nat (String.length (footer text)) * 6.

End Display.

(** ** The log ring buffer and its web view *)

Module Web.
Import String Ascii.
Local Open Scope string_scope.
Local Open Scope Z_scope.

Definition LOG_BUFFER_SIZE : Z := 20.
Definition LOG_LINE_LENGTH : nat := 100.

Record LogState := {
  g_logBuffer : list string;
  g_logHead : Z;
  g_logCount : Z
}.

(** The zero-initialised globals. *)
Definition log_boot : LogState :=
  {| g_logBuffer := repeat "" 20; g_logHead := 0; g_logCount := 0 |}.

(** The assignment [a[n] = v] inside the array. *)
Fixpoint store {A : Type} (n : nat) (v : A) (a : list A) : list A :=
  match a, n with
  | nil, _ => nil
  | _ :: rest, O => v :: rest
  | x :: rest, S k => x :: store k v rest
  end.

(** [strncpy(dst, msg, n)] followed by [dst[n] = 0]: the first [n]
    characters of the message. *)
Definition strncpy (n : nat) (msg : string) : string := substring 0 n msg.

(** [addLogEntry(msg)]; [None] is the null pointer. *)
Definition addLogEntry (msg : option string) (st : LogState) : LogState :=
  match msg with
  | None => st
  | Some m =>
      {| g_logBuffer :=
           store (Z.to_nat (g_logHead st))
                 (strncpy (LOG_LINE_LENGTH - 1) m) (g_logBuffer st);
         g_logHead := wrap8 (Z.rem (g_logHead st + 1) LOG_BUFFER_SIZE);
         g_logCount :=
           if g_logCount st <? LOG_BUFFER_SIZE
           then wrap8 (g_logCount st + 1) else g_logCount st |}
  end.

(** The log after the messages [msgs], oldest first. *)
Definition logged (msgs : list string) : LogState :=
  fold_left (fun st m => addLogEntry (Some m) st) msgs log_boot.

Definition backslash : ascii := "092"%char.
Definition quote : ascii := "034"%char.
Definition newline : ascii := "010"%char.
Definition carriage_return : ascii := "013"%char.
Definition tab : ascii := "009"%char.

(** The [switch] of [handleLogs] on one character. *)
Definition escape_char (c : ascii) : string :=
  if Ascii.eqb c backslash then String backslash (String backslash "")
  else if Ascii.eqb c quote then String backslash (String quote "")
  else if Ascii.eqb c newline then String backslash "n"
  else if Ascii.eqb c carriage_return then String backslash "r"
  else if Ascii.eqb c tab then String backslash "t"
  else String c "".

Fixpoint escape (src : string) : string :=
  match src with
  | EmptyString => ""
  | String c rest => escape_char c ++ escape rest
  end.

Definition json_entry (line : string) : string :=
  String quote (escape line ++ String quote "").

(** The buffer slot of the [i]-th entry sent. *)
Definition log_index (st : LogState) (i : Z) : Z :=
  Z.rem (g_logHead st - g_logCount st + i + LOG_BUFFER_SIZE) LOG_BUFFER_SIZE.

(** The lines [handleLogs] reads, in the order it sends them. *)
Definition log_lines (st : LogState) : list string :=
  map (fun i => nth (Z.to_nat (log_index st i)) (g_logBuffer st) "")
      (map Z.of_nat (seq 0 (Z.to_nat (g_logCount st)))).

(** The body [handleLogs] streams, or nothing when access is refused
    ([allowed] is the answer of [requireAuth()]). *)
Definition handleLogs (allowed : bool) (st : LogState) : option string :=
  if allowed
  then Some ("[" ++ String.concat "," (map json_entry (log_lines st)) ++ "]")
  else None.

(** A reader of the escapes of a JSON string, to compare with [escape]. *)
Fixpoint json_unescape (text : string) : string :=
  match text with
  | EmptyString => ""
  | String c rest =>
      if Ascii.eqb c backslash
      then match rest with
           | EmptyString => ""
           | String e rest' =>
               String (if Ascii.eqb e "n"%char then newline
                       else if Ascii.eqb e "r"%char then carriage_return
                       else if Ascii.eqb e "t"%char then tab
                       else e)
                      (json_unescape rest')
           end
      else String c (json_unescape rest)
  end.

End Web.

(** ** Bounded checks *)

Module DisplayCheck.
Import String Ascii.
Local Open Scope string_scope.
Local Open Scope Z_scope.

(** The integers [0 .. n]. *)
Definition upto (n : nat) : list Z := map Z.of_nat (seq 0 (S n)).

(** The decimal text of [z] has at most three characters, three when
    [z] is at least 100, and its zero-padded forms have their width. *)
Definition digits_ok (z : Z) : bool :=
  (String.length (Display.dec z) <=? 3)%nat
  && ((z <? 100) || (String.length (Display.dec z) =? 3)%nat)
  && ((100 <=? z) || (String.length (Display.dec z) <=? 2)%nat)
  && (String.length (Display.zero_pad 3 z) =? 3)%nat
  && ((100 <=? z) || (String.length (Display.zero_pad 2 z) =? 2)%nat).

(** The 12-hour form of an hour of the day. *)
Definition hour12_of (hour : Z) : Z :=
  if Z.rem hour 12 =? 0 then 12 else Z.rem hour 12.

(** The clock text is the expected one, untruncated. *)
Definition clock_ok (us : bool) (hour minute : Z) : bool :=
  let t := {| Display.tm_year := 126; Display.tm_hour := hour;
              Display.tm_min := minute |} in
  if us
  then
    String.eqb (Display.getCurrentTimeStr "US" t 20)
      (String.append (Display.dec (hour12_of hour))
         (String.append ":"
            (String.append (Display.zero_pad 2 minute)
               (if 12 <=? hour then " PM" else " AM"))))
    && (1 <=? hour12_of hour) && (hour12_of hour <=? 12)
    && (hour =? hour12_of hour mod 12 + (if 12 <=? hour then 12 else 0))
    && (String.length (Display.getCurrentTimeStr "US" t 20) <=? 8)%nat
  else
    String.eqb (Display.getCurrentTimeStr "DE" t 20)
      (String.append (Display.zero_pad 2 hour)
         (String.append ":"
            (String.append (Display.zero_pad 2 minute) " Uhr")))
    && (String.length (Display.getCurrentTimeStr "DE" t 20) =? 9)%nat.

End DisplayCheck.

(** * Properties *)

(** ** The monad's equations *)

Lemma value_bind {A B} (m : M A) (f : A -> M B) (s : State) :
  value (bind m f s) = value (f (value (m s)) (state (m s))).
Proof. reflexivity. Qed.

Lemma state_bind {A B} (m : M A) (f : A -> M B) (s : State) :
  state (bind m f s) = state (f (value (m s)) (state (m s))).
Proof. reflexivity. Qed.

Lemma output_bind {A B} (m : M A) (f : A -> M B) (s : State) :
  output (bind m f s) = output (m s) ++ output (f (value (m s)) (state (m s))).
Proof. reflexivity. Qed.

Lemma result_eta {A} (r : A * State * list Event) :
  r = (value r, state r, output r).
Proof. destruct r as [[a s] o]. reflexivity. Qed.

Lemma bind_get {B} (f : State -> M B) (s : State) : bind get f s = f s s.
Proof. unfold bind, get. cbn. symmetry. apply result_eta. Qed.

Lemma bind_modify {B} (g : State -> State) (f : unit -> M B) (s : State) :
  bind (modify g) f s = f tt (g s).
Proof. unfold bind, modify. cbn. symmetry. apply result_eta. Qed.

Lemma bind_ret {A B} (a : A) (f : A -> M B) (s : State) :
  bind (ret a) f s = f a s.
Proof. unfold bind, ret. cbn. symmetry. apply result_eta. Qed.

Lemma bind_emit {B} (e : Event) (f : unit -> M B) (s : State) :
  bind (emit e) f s
  = (value (f tt s), state (f tt s), e :: output (f tt s)).
Proof. reflexivity. Qed.

Lemma bind_assoc {A B C} (m : M A) (f : A -> M B) (g : B -> M C) (s : State) :
  bind (bind m f) g s = bind m (fun a => bind (f a) g) s.
Proof. unfold bind. cbn. rewrite app_assoc. reflexivity. Qed.

Lemma when_true (m : M unit) : when true m = m.
Proof. reflexivity. Qed.

Lemma when_false (m : M unit) : when false m = ret tt.
Proof. reflexivity. Qed.

(** Run the head of a procedure by the monad's equations. *)
Ltac mstep :=
  repeat first
    [ rewrite bind_assoc | rewrite bind_get | rewrite bind_modify
    | rewrite bind_ret | rewrite when_true | rewrite when_false ].

(** ** Single-precision floats *)

Lemma round_half_even_1 n : round_half_even n 1 = n.
Proof.
  unfold round_half_even. rewrite Z.div_1_r, Z.mod_1_r. reflexivity.
Qed.

Lemma ilog2_int z : 0 < z -> ilog2 z 1 = Z.log2 z.
Proof.
  intro H. unfold ilog2. change (Z.log2 1) with 0. rewrite Z.sub_0_r.
  pose proof (Z.log2_nonneg z) as N.
  replace (0 <=? Z.log2 z) with true by (symmetry; apply Z.leb_le; exact N).
  pose proof (Z.log2_spec z H) as [L _].
  replace (1 * 2 ^ Z.log2 z <=? z) with true
    by (symmetry; apply Z.leb_le; lia).
  reflexivity.
Qed.

Lemma Qred_int z : Qred (inject_Z z) = inject_Z z.
Proof.
  unfold Qred, inject_Z.
  pose proof (Z.ggcd_gcd z 1) as G. pose proof (Z.ggcd_correct_divisors z 1) as D.
  change (Zpos 1) with 1.
  destruct (Z.ggcd z 1) as [g [r1 r2]]. cbn [fst snd] in *.
  rewrite Z.gcd_1_r in G. subst g. destruct D as [D1 D2].
  rewrite Z.mul_1_l in D1, D2. subst r1 r2. reflexivity.
Qed.

Lemma Qred_int_scaled z k :
  0 < k -> Qred (z * k # Z.to_pos k) = inject_Z z.
Proof.
  intro H. transitivity (Qred (inject_Z z)).
  - apply Qred_complete. unfold Qeq, inject_Z. cbn [Qnum Qden].
    rewrite Z2Pos.id by exact H. lia.
  - apply Qred_int.
Qed.

(** An [int] of at most 24 bits is converted exactly. *)
Lemma float_of_int_exact z :
  0 <= z <= 16777216 -> float_of_int z = Fin (inject_Z z).
Proof.
  intro H.
  destruct (Z.eq_dec z 0) as [->|N0]; [reflexivity|].
  destruct (Z.eq_dec z 16777216) as [->|N1]; [vm_compute; reflexivity|].
  assert (P : 0 < z) by lia.
  assert (E : 0 <= Z.log2 z <= 23).
  { split; [apply Z.log2_nonneg|].
    assert (Z.log2 z < 24); [|lia].
    apply Z.log2_lt_pow2; [exact P|]. change (2 ^ 24) with 16777216. lia. }
  unfold float_of_int, round32. cbn [Qnum Qden inject_Z].
  rewrite Z.abs_eq by lia.
  replace (z =? 0) with false by (symmetry; apply Z.eqb_neq; exact N0).
  replace (z <? 0) with false by (symmetry; apply Z.ltb_ge; lia).
  rewrite (ilog2_int z P), Z.max_l by lia.
  destruct (0 <=? Z.log2 z - 23) eqn:X;
    [apply Z.leb_le in X | apply Z.leb_gt in X].
  - replace (Z.log2 z - 23) with 0 by lia.
    change (2 ^ 0) with 1. rewrite !Z.mul_1_r, round_half_even_1.
    replace (2 ^ 128 <=? z) with false
      by (symmetry; apply Z.leb_gt;
          change (2 ^ 128) with 340282366920938463463374607431768211456; lia).
    cbn [andb]. f_equal. apply Qred_int.
  - cbn [andb]. rewrite round_half_even_1. f_equal.
    apply Qred_int_scaled. apply Z.pow_pos_nonneg; lia.
Qed.

Lemma round_half_even_near num den :
  0 < den -> 0 <= num ->
  0 <= round_half_even num den /\
  - den <= 2 * (round_half_even num den * den - num) <= den.
Proof.
  intros Hd Hn. unfold round_half_even.
  pose proof (Z.div_mod num den ltac:(lia)) as E.
  pose proof (Z.mod_pos_bound num den Hd) as B.
  pose proof (Z.div_pos num den Hn Hd) as P.
  set (q := num / den) in *. set (r := num mod den) in *.
  destruct (2 * r <? den) eqn:C1; [apply Z.ltb_lt in C1; nia|].
  apply Z.ltb_ge in C1.
  destruct (den <? 2 * r) eqn:C2; [apply Z.ltb_lt in C2; nia|].
  apply Z.ltb_ge in C2.
  destruct (Z.even q); nia.
Qed.

Lemma ilog2_upper n d k :
  0 < n -> 0 <= k -> n <= 2 ^ k * Zpos d -> ilog2 n d <= k.
Proof.
  intros Hn Hk H. unfold ilog2.
  pose proof (Z.log2_spec n Hn) as [Ln _].
  pose proof (Z.log2_spec (Zpos d) ltac:(lia)) as [_ Ld].
  pose proof (Z.log2_nonneg n) as Nn.
  pose proof (Z.log2_nonneg (Zpos d)) as Nd.
  set (e0 := Z.log2 n - Z.log2 (Zpos d)).
  assert (U : e0 <= k + 1).
  { destruct (Z_le_gt_dec e0 (k + 1)) as [|G]; [assumption|exfalso].
    assert (Z.log2 n = (Z.log2 (Zpos d) + 1) + (e0 - 1)) as E by (subst e0; lia).
    rewrite E, Z.pow_add_r in Ln by lia.
    assert (2 ^ (k + 1) <= 2 ^ (e0 - 1)) by (apply Z.pow_le_mono_r; lia).
    rewrite Z.pow_add_r in H0 by lia. change (2 ^ 1) with 2 in H0.
    assert (0 < 2 ^ k) by (apply Z.pow_pos_nonneg; lia).
    nia. }
  destruct (if 0 <=? e0 then _ else _) eqn:C; [|lia].
  destruct (0 <=? e0) eqn:S; [apply Z.leb_le in S | apply Z.leb_gt in S; lia].
  apply Z.leb_le in C.
  destruct (Z_le_gt_dec e0 k) as [|G]; [assumption|exfalso].
  assert (2 ^ (k + 1) <= 2 ^ e0) by (apply Z.pow_le_mono_r; lia).
  rewrite Z.pow_add_r in H0 by lia. change (2 ^ 1) with 2 in H0.
  assert (0 < 2 ^ k) by (apply Z.pow_pos_nonneg; lia).
  nia.
Qed.

(** Rounding a real of [[0, 2^k]] moves it by at most [2^(k-24)]. *)
Lemma round32_near k (a : Q) :
  0 <= k <= 22 -> (0 <= a)%Q -> (a <= inject_Z (2 ^ k))%Q ->
  exists v, round32 a = Fin v /\ (0 <= v)%Q /\
            (a - (1 # Z.to_pos (2 ^ (24 - k))) <= v)%Q /\
            (v <= a + (1 # Z.to_pos (2 ^ (24 - k))))%Q.
Proof.
  intros Hk H0 H1. destruct a as [n d].
  assert (Hn : 0 <= n) by (unfold Qle in H0; cbn in H0; lia).
  assert (Hu : n <= 2 ^ k * Zpos d)
    by (unfold Qle, inject_Z in H1; cbn [Qnum Qden] in H1; lia).
  assert (Pe : 0 < 2 ^ (24 - k)) by (apply Z.pow_pos_nonneg; lia).
  unfold round32. cbn [Qnum Qden]. rewrite Z.abs_eq by exact Hn.
  destruct (n =? 0) eqn:N0; [apply Z.eqb_eq in N0 | apply Z.eqb_neq in N0].
  - subst n. exists 0%Q. split; [reflexivity|]. split; [apply Qle_refl|].
    unfold Qle, Qminus, Qplus, Qopp. cbn [Qnum Qden].
    rewrite !Z2Pos.id by exact Pe. split; nia.
  - replace (n <? 0) with false by (symmetry; apply Z.ltb_ge; exact Hn).
    pose proof (ilog2_upper n d k ltac:(lia) ltac:(lia) Hu) as Ue.
    set (x := Z.max (ilog2 n d) (-126) - 23).
    assert (Hx : x <= k - 23) by (subst x; lia).
    replace (0 <=? x) with false by (symmetry; apply Z.leb_gt; lia).
    cbn [andb].
    set (P := 2 ^ (- x)).
    assert (PP : 0 < P) by (apply Z.pow_pos_nonneg; lia).
    assert (PL : 2 ^ (23 - k) <= P)
      by (apply Z.pow_le_mono_r; lia).
    destruct (round_half_even_near (n * P) (Zpos d) ltac:(lia) ltac:(nia))
      as (M0 & ML & MU).
    set (m := round_half_even (n * P) (Zpos d)) in *.
    exists (Qred (m # Z.to_pos P)). split; [reflexivity|].
    assert (E24 : 2 ^ (24 - k) = 2 * 2 ^ (23 - k)).
    { replace (24 - k) with (1 + (23 - k)) by lia.
      rewrite Z.pow_add_r by lia. reflexivity. }
    assert (P23 : 0 < 2 ^ (23 - k)) by (apply Z.pow_pos_nonneg; lia).
    rewrite !(Qred_correct (m # Z.to_pos P)).
    unfold Qle, Qminus, Qplus, Qopp. cbn [Qnum Qden].
    rewrite !Pos2Z.inj_mul, !Z2Pos.id by assumption.
    rewrite E24. set (T := 2 ^ (23 - k)) in *.
    split; [nia|]. split; nia.
Qed.

(** The cast toward zero of a rational that is not negative is its floor. *)
Lemma Qtrunc_floor (q : Q) :
  (0 <= q)%Q ->
  0 <= Qtrunc q /\ (inject_Z (Qtrunc q) <= q)%Q /\ (q < inject_Z (Qtrunc q) + 1)%Q.
Proof.
  destruct q as [n d]. intro H.
  assert (Hn : 0 <= n) by (unfold Qle in H; cbn in H; lia).
  unfold Qtrunc. cbn [Qnum Qden]. rewrite Z.quot_div_nonneg by lia.
  pose proof (Z.div_mod n (Zpos d) ltac:(lia)) as E.
  pose proof (Z.mod_pos_bound n (Zpos d) ltac:(lia)) as B.
  pose proof (Z.div_pos n (Zpos d) Hn ltac:(lia)) as P.
  split; [exact P|].
  unfold Qle, Qlt, Qplus, inject_Z. cbn [Qnum Qden]. split; nia.
Qed.

Lemma int_of_float_small (v : Q) :
  (0 <= v)%Q -> (v <= 2147483647)%Q -> int_of_float (Fin v) = Some (Qtrunc v).
Proof.
  intros H0 H1. destruct (Qtrunc_floor v H0) as (P & L & _).
  unfold int_of_float.
  assert (Qtrunc v <= 2147483647).
  { rewrite Zle_Qle. eapply Qle_trans; [exact L | exact H1]. }
  replace (-2147483648 <=? Qtrunc v) with true by (symmetry; apply Z.leb_le; lia).
  replace (Qtrunc v <=? 2147483647) with true by (symmetry; apply Z.leb_le; lia).
  reflexivity.
Qed.

Lemma Qtrunc_proper (p q : Q) : (p == q)%Q -> Qtrunc p = Qtrunc q.
Proof.
  destruct p as [a b], q as [c d]. unfold Qeq, Qtrunc. cbn [Qnum Qden]. intro E.
  rewrite <- (Z.quot_mul_cancel_r a (Zpos b) (Zpos d)) by lia.
  rewrite E, (Z.mul_comm (Zpos b)).
  apply Z.quot_mul_cancel_r; lia.
Qed.

Lemma Qleb_le (x y : Q) : Qleb x y = true <-> (x <= y)%Q.
Proof. unfold Qleb, Qle. apply Z.leb_le. Qed.

Lemma Qleb_gt (x y : Q) : Qleb x y = false <-> (y < x)%Q.
Proof. unfold Qleb, Qlt. apply Z.leb_gt. Qed.

(** ** A frame rule for the monad

    For a reflexive and transitive [R], [preserves R] is closed under the
    monad's operations, so a frame property of a procedure follows the
    procedure's syntax. *)

Section Frame.
Variable R : State -> State -> Prop.
Hypothesis R_refl : forall s, R s s.
Hypothesis R_trans : forall a b c, R a b -> R b c -> R a c.

Lemma preserves_ret {A} (a : A) : preserves R (ret a).
Proof. intro s. apply R_refl. Qed.

Lemma preserves_get : preserves R get.
Proof. intro s. apply R_refl. Qed.

Lemma preserves_emit (e : Event) : preserves R (emit e).
Proof. intro s. apply R_refl. Qed.

Lemma preserves_modify (f : State -> State) :
  (forall s, R s (f s)) -> preserves R (modify f).
Proof. intros H s. apply H. Qed.

Lemma preserves_bind {A B} (m : M A) (f : A -> M B) :
  preserves R m -> (forall a, preserves R (f a)) -> preserves R (bind m f).
Proof.
  intros Hm Hf s. rewrite state_bind.
  eapply R_trans; [apply Hm | apply Hf].
Qed.

Lemma preserves_when (b : bool) (m : M unit) :
  preserves R m -> preserves R (when b m).
Proof. intro Hm. destruct b; [exact Hm | apply preserves_ret]. Qed.
End Frame.

Lemma keeps_refl {A} (proj : State -> A) s : keeps proj s s.
Proof. reflexivity. Qed.

Lemma keeps_trans {A} (proj : State -> A) a b c :
  keeps proj a b -> keeps proj b c -> keeps proj a c.
Proof. unfold keeps. congruence. Qed.

(** Follow the syntax of a procedure; [leaf] closes the [modify] steps. *)
Ltac frame_with refl trans leaf :=
  repeat match goal with
    | |- preserves _ (ret _) => apply (preserves_ret _ refl)
    | |- preserves _ get => apply (preserves_get _ refl)
    | |- preserves _ (emit _) => apply (preserves_emit _ refl)
    | |- preserves _ (when _ _) => apply (preserves_when _ refl)
    | |- preserves _ (bind _ _) =>
        apply (preserves_bind _ trans); [| intro; cbv beta zeta]
    | |- preserves _ (modify _) => apply preserves_modify; intro; solve [leaf]
    | |- preserves _ (if ?b then _ else _) => destruct b
    | |- preserves _ (match ?o with Some _ => _ | None => _ end) => destruct o
    | |- preserves _ (let '(_, _) := ?p in _) => destruct p
    end.

(** ** [switch (config.api_source)] as a cascade of tests *)

Lemma api_source_switch (A : Type) (a b c d e : A) (z : Z) :
  match z with 1 => a | 2 => b | 3 => c | 4 => d | _ => e end
  = if z =? 1 then a
    else if z =? 2 then b
    else if z =? 3 then c
    else if z =? 4 then d
    else e.
Proof.
  destruct z as [|p|p]; try reflexivity.
  destruct p as [[[q|q|]|[q|q|]|]|[[q|q|]|[q|q|]|]|]; reflexivity.
Qed.

(** ** Which part of the state each stage can change *)

Section FetchPriceFrame.
Variable R : State -> State -> Prop.
Hypothesis R_refl : forall s, R s s.
Hypothesis R_trans : forall a b c, R a b -> R b c -> R a c.
Hypothesis R_provider : forall v s, R s (set_g_currentProvider v s).
Hypothesis R_failures : forall v s, R s (set_g_consecutiveFailures v s).
Hypothesis R_store : forall p c t s, R s (store_price p c t s).

Lemma fetchPrice_preserves cfg f : preserves R (fetchPrice cfg f).
Proof.
  unfold fetchPrice, fallback, fetchPriceBinance, fetchPriceCoinGecko,
    fetchPriceCoinbase, fetchPriceKraken.
  rewrite api_source_switch.
  frame_with R_refl R_trans ltac:(auto).
Qed.
End FetchPriceFrame.

Section FetchWeatherFrame.
Variable R : State -> State -> Prop.
Hypothesis R_refl : forall s, R s s.
Hypothesis R_trans : forall a b c, R a b -> R b c -> R a c.
Hypothesis R_stale : forall v s, R s (set_g_weatherStale v s).
Hypothesis R_store : forall w t s, R s (store_weather w t s).

Lemma fetchWeather_preserves cfg f : preserves R (fetchWeather cfg f).
Proof.
  unfold fetchWeather, fetchWeatherOpenMeteo, fetchWeatherBrightSky.
  frame_with R_refl R_trans ltac:(auto).
Qed.
End FetchWeatherFrame.

(** The frame tactic through the stages and the fetchers: [do_refl] and
    [do_trans] prove the relation a preorder, [leaf] closes a field write. *)
Ltac stage_frame do_refl do_trans leaf :=
  unfold wifi_check, poll_price, poll_weather, auto_cycle, on_demand_return,
    screen_button, touch_polling, d5_button, d5_btc_button, d5_weather_button,
    factory_reset_button, alert_logic, alert_duration_gate, sos_blink,
    standard_blink, refreshCurrentScreen;
  repeat match goal with
    | |- preserves _ (fetchPrice _ _) =>
        apply fetchPrice_preserves;
        [ do_refl | do_trans | intros; leaf | intros; leaf | intros; leaf ]
    | |- preserves _ (fetchWeather _ _) =>
        apply fetchWeather_preserves;
        [ do_refl | do_trans | intros; leaf | intros; leaf ]
    | |- preserves _ (ret _) => apply preserves_ret; do_refl
    | |- preserves _ get => apply preserves_get; do_refl
    | |- preserves _ (emit _) => apply preserves_emit; do_refl
    | |- preserves _ (when _ _) => apply preserves_when; [ do_refl | ]
    | |- preserves _ (bind _ _) =>
        apply preserves_bind; [ do_trans | | intro; cbv beta zeta ]
    | |- preserves _ (modify _) => apply preserves_modify; intro; leaf
    | |- preserves _ (if ?b then _ else _) => destruct b
    end.

Ltac keeps_stage :=
  stage_frame ltac:(intro; apply keeps_refl) ltac:(apply keeps_trans)
              ltac:(reflexivity).

(** The price state is written by the WiFi check and the price poll only. *)
Lemma poll_weather_keeps_price cfg i : preserves (keeps price) (poll_weather cfg i).
Proof. keeps_stage. Qed.

Lemma auto_cycle_keeps_price cfg i : preserves (keeps price) (auto_cycle cfg i).
Proof. keeps_stage. Qed.

Lemma on_demand_return_keeps_price cfg i :
  preserves (keeps price) (on_demand_return cfg i).
Proof. keeps_stage. Qed.

Lemma screen_button_keeps_price cfg i :
  preserves (keeps price) (screen_button cfg i).
Proof. keeps_stage. Qed.

Lemma touch_polling_keeps_price cfg i :
  preserves (keeps price) (touch_polling cfg i).
Proof. keeps_stage. Qed.

Lemma d5_button_keeps_price cfg i : preserves (keeps price) (d5_button cfg i).
Proof. keeps_stage. Qed.

Lemma alert_logic_keeps_price cfg i : preserves (keeps price) (alert_logic cfg i).
Proof. keeps_stage. Qed.

(** The screen state is written by the cycling stages and the buttons only. *)
Lemma wifi_check_keeps_screen cfg i : preserves (keeps screen) (wifi_check cfg i).
Proof. keeps_stage. Qed.

Lemma poll_price_keeps_screen cfg i : preserves (keeps screen) (poll_price cfg i).
Proof. keeps_stage. Qed.

Lemma poll_weather_keeps_screen cfg i :
  preserves (keeps screen) (poll_weather cfg i).
Proof. keeps_stage. Qed.

Lemma touch_polling_keeps_screen cfg i :
  preserves (keeps screen) (touch_polling cfg i).
Proof. keeps_stage. Qed.

Lemma factory_reset_button_keeps_screen cfg i :
  preserves (keeps screen) (factory_reset_button cfg i).
Proof. keeps_stage. Qed.

Lemma alert_logic_keeps_screen cfg i :
  preserves (keeps screen) (alert_logic cfg i).
Proof. keeps_stage. Qed.

(** The D5 statics are written by the D5 stage only. *)
Lemma wifi_check_keeps_d5 cfg i : preserves (keeps d5) (wifi_check cfg i).
Proof. keeps_stage. Qed.

Lemma poll_price_keeps_d5 cfg i : preserves (keeps d5) (poll_price cfg i).
Proof. keeps_stage. Qed.

Lemma poll_weather_keeps_d5 cfg i : preserves (keeps d5) (poll_weather cfg i).
Proof. keeps_stage. Qed.

Lemma auto_cycle_keeps_d5 cfg i : preserves (keeps d5) (auto_cycle cfg i).
Proof. keeps_stage. Qed.

Lemma on_demand_return_keeps_d5 cfg i :
  preserves (keeps d5) (on_demand_return cfg i).
Proof. keeps_stage. Qed.

Lemma screen_button_keeps_d5 cfg i : preserves (keeps d5) (screen_button cfg i).
Proof. keeps_stage. Qed.

Lemma touch_polling_keeps_d5 cfg i : preserves (keeps d5) (touch_polling cfg i).
Proof. keeps_stage. Qed.

(** The alert statics are written by the alert logic only. *)
Lemma before_alert_keeps_alert cfg i : preserves (keeps alert) (before_alert cfg i).
Proof. unfold before_alert. keeps_stage. Qed.

(** The configuration-mode flag is never written by the loop. *)
Lemma before_alert_keeps_mode cfg i :
  preserves (keeps g_isInConfigMode) (before_alert cfg i).
Proof. unfold before_alert. keeps_stage. Qed.

(** ** Price acquisition: the order of the attempts *)

Lemma until_success_stops f order pre p post :
  until_success f order = pre ++ p :: post -> post <> [] -> answers f p = false.
Proof.
  revert pre. induction order as [|q rest IH]; intros pre H Hpost.
  - destruct pre; discriminate.
  - cbn in H. destruct pre as [|x pre]; cbn in H.
    + injection H as -> H. destruct (answers f p); [|reflexivity].
      symmetry in H. contradiction.
    + injection H as -> H. destruct (answers f x).
      * destruct pre; discriminate.
      * eapply IH; eassumption.
Qed.

Lemma until_success_prefix f order :
  exists rest, order = until_success f order ++ rest.
Proof.
  induction order as [|q tl [rest IH]]; [exists []; reflexivity|].
  cbn. destruct (answers f q).
  - exists tl. reflexivity.
  - exists rest. cbn. congruence.
Qed.

Lemma provider_order_cases api :
  (api = 1 /\ provider_order api = [0]) \/
  (api <> 1 /\
   (provider_order api = [1; 0; 2; 3] \/ provider_order api = [2; 0; 1; 3] \/
    provider_order api = [3; 0; 1; 2] \/ provider_order api = [0; 1; 2; 3])).
Proof.
  unfold provider_order, preferred.
  destruct (api =? 1) eqn:E1; [left; split; [lia | reflexivity]|].
  right. split; [lia|].
  destruct (api =? 2); [left; reflexivity|].
  destruct (api =? 3); [right; left; reflexivity|].
  destruct (api =? 4); [right; right; left; reflexivity|].
  right; right; right; reflexivity.
Qed.

Lemma provider_order_NoDup api : NoDup (provider_order api).
Proof.
  destruct (provider_order_cases api) as [[_ ->] | [_ [-> | [-> | [-> | ->]]]]];
    repeat constructor; cbn; intuition discriminate.
Qed.

Lemma fetchPrice_attempts cfg f s :
  g_wifiConnected s = true ->
  attempts (output (fetchPrice cfg f s))
  = until_success f (provider_order (api_source cfg)).
Proof.
  intro H.
  unfold fetchPrice, provider_order, preferred. rewrite api_source_switch.
  unfold bind at 1. unfold get. cbn [value state output fst snd app].
  rewrite H. cbn [negb].
  destruct f as [b c cb k t].
  destruct b as [[? ?]|], c as [[? ?]|], cb as [?|], k as [[? ?]|];
  destruct (api_source cfg =? 1); try reflexivity;
  destruct (api_source cfg =? 2); try reflexivity;
  destruct (api_source cfg =? 3); try reflexivity;
  destruct (api_source cfg =? 4); reflexivity.
Qed.

(** C2 (amended).  With WiFi up, one call of [fetchPrice] tries the
    providers in the order [provider_order (api_source cfg)]: Binance
    alone for source 1, otherwise the preferred provider first and then
    the remaining ones in the fixed order Binance, CoinGecko, Coinbase,
    Kraken.  It stops at the first provider that answers: a provider that
    is followed by another attempt has failed, and no provider is tried
    twice. *)
Theorem fetchPrice_tries_preferred_then_fixed_order cfg f s :
  g_wifiConnected s = true ->
  let order := provider_order (api_source cfg) in
  let tried := attempts (output (fetchPrice cfg f s)) in
  tried = until_success f order /\
  (api_source cfg = 1 -> order = [0]) /\
  (api_source cfg <> 1 ->
   order = preferred (api_source cfg)
             :: filter (fun p => negb (p =? preferred (api_source cfg)))
                       [0; 1; 2; 3]) /\
  (forall pre p post,
     tried = pre ++ p :: post -> post <> [] -> answers f p = false) /\
  NoDup tried.
Proof.
  intros H order tried.
  assert (Ht : tried = until_success f order) by (apply fetchPrice_attempts; exact H).
  split; [exact Ht|].
  split; [intro E; subst order; unfold provider_order; rewrite E; reflexivity|].
  split.
  { intro E. subst order. unfold provider_order.
    destruct (api_source cfg =? 1) eqn:E1; [lia | reflexivity]. }
  split.
  { intros pre p post E. rewrite Ht in E. eapply until_success_stops; eassumption. }
  rewrite Ht. destruct (until_success_prefix f order) as [rest E].
  pose proof (provider_order_NoDup (api_source cfg)) as ND. fold order in ND.
  rewrite E in ND. eapply NoDup_app_remove_r. exact ND.
Qed.

(** C2 (as stated) fails.  With CoinGecko preferred and no provider
    answering, the attempts are CoinGecko, Binance, Coinbase, Kraken; the
    ring read from CoinGecko is CoinGecko, Coinbase, Kraken, Binance. *)
Lemma fetchPrice_coingecko_first_is_not_a_ring :
  let cfg := configure 2 false 0 false false 5000 0 0 0 in
  let s := set_g_wifiConnected true boot_state in
  let tried := attempts (output (fetchPrice cfg no_answer s)) in
  tried = [1; 0; 2; 3] /\
  until_success no_answer (ring_order (preferred (api_source cfg)))
    = [1; 2; 3; 0] /\
  tried <> until_success no_answer (ring_order (preferred (api_source cfg))).
Proof. cbv zeta. repeat split. discriminate. Qed.

(** The order theorem at Coinbase-first with only Binance answering. *)
Lemma fetchPrice_order_witness :
  g_wifiConnected (set_g_wifiConnected true boot_state) = true /\
  attempts (output (fetchPrice (configure 3 false 0 false false 5000 0 0 0)
                      (binance_answers 50000 7) (set_g_wifiConnected true boot_state)))
  = [2; 0].
Proof.
  split; [reflexivity|].
  exact (proj1 (fetchPrice_tries_preferred_then_fixed_order
                  (configure 3 false 0 false false 5000 0 0 0)
                  (binance_answers 50000 7)
                  (set_g_wifiConnected true boot_state) eq_refl)).
Defined.

(** ** Polling without WiFi *)

(** C10.  With [g_wifiConnected] false, [fetchPrice] returns at once:
    the whole state is as before (price, change, valid flag, provider,
    success stamp, and the failure counter is not incremented) and no
    provider is tried.  The poll branch of the loop still runs its
    staleness check and moves the poll timer. *)
Theorem fetchPrice_offline_leaves_state cfg f i s :
  g_wifiConnected s = false ->
  fetchPrice cfg f s = (tt, s, []) /\
  (poll_due cfg i s = true ->
   state (poll_price cfg i s)
   = set_g_lastPollTime (currentMillis i)
       (if mul32 (poll_interval cfg) 3
             <? sub32 (millis_after_fetch i) (g_lastSuccessTime (price s))
        then set_g_dataStale true s else s) /\
   attempts (output (poll_price cfg i s)) = []).
Proof.
  intro H.
  assert (E : forall g, fetchPrice cfg g s = (tt, s, [])).
  { intro g. unfold fetchPrice. rewrite bind_get, H. reflexivity. }
  split; [apply E|].
  intro Hd. unfold poll_due in Hd.
  unfold poll_price. rewrite bind_get, Hd.
  unfold when, bind. rewrite E. unfold get, modify, emit, ret.
  cbn [value state output fst snd].
  destruct (mul32 (poll_interval cfg) 3 <?
            sub32 (millis_after_fetch i) (g_lastSuccessTime (price s)));
    cbn [value state output fst snd];
    destruct (g_currentScreen (screen _) =? 0); split; reflexivity.
Qed.

(** The offline theorem at the boot state, polled at 200 s. *)
Lemma fetchPrice_offline_witness :
  g_wifiConnected boot_state = false /\
  fetchPrice default_config (binance_answers 50000 7) boot_state
  = (tt, boot_state, []) /\
  g_dataStale (price (state (poll_price default_config (idle 200000) boot_state)))
  = true.
Proof.
  split; [reflexivity|].
  pose proof (fetchPrice_offline_leaves_state default_config
                (binance_answers 50000 7) (idle 200000) boot_state eq_refl)
    as [E P].
  split; [exact E|].
  destruct (P eq_refl) as [-> _]. reflexivity.
Defined.

(** ** The stale flag *)

Lemma no_stale_raise_refl s : no_stale_raise s s.
Proof. split; [exact (fun H => H) | reflexivity]. Qed.

Lemma no_stale_raise_trans a b c :
  no_stale_raise a b -> no_stale_raise b c -> no_stale_raise a c.
Proof.
  unfold no_stale_raise. intros [H1 E1] [H2 E2]. split; [auto | congruence].
Qed.

Ltac no_raise_leaf :=
  split; cbn; [ intro; (assumption || discriminate) | reflexivity ].

Lemma fetchPrice_no_stale_raise cfg f :
  preserves no_stale_raise (fetchPrice cfg f).
Proof.
  apply fetchPrice_preserves;
    [ exact no_stale_raise_refl | exact no_stale_raise_trans
    | intros; no_raise_leaf | intros; no_raise_leaf | intros; no_raise_leaf ].
Qed.

Lemma wifi_check_no_stale_raise cfg i :
  preserves no_stale_raise (wifi_check cfg i).
Proof.
  stage_frame ltac:(exact no_stale_raise_refl) ltac:(exact no_stale_raise_trans)
              ltac:(no_raise_leaf).
Qed.

Lemma before_alert_price cfg i s :
  price (state (before_alert cfg i s))
  = price (state (poll_price cfg i (state (wifi_check cfg i s)))).
Proof.
  unfold before_alert. rewrite !state_bind.
  etransitivity; [apply (d5_button_keeps_price cfg i)|].
  etransitivity; [apply (touch_polling_keeps_price cfg i)|].
  etransitivity; [apply (screen_button_keeps_price cfg i)|].
  etransitivity; [apply (on_demand_return_keeps_price cfg i)|].
  etransitivity; [apply (auto_cycle_keeps_price cfg i)|].
  apply (poll_weather_keeps_price cfg i).
Qed.

Lemma Running_inj a b c d : Running a b = Running c d -> a = c /\ b = d.
Proof. intro H. injection H as -> ->. split; reflexivity. Qed.

(** The web server never writes the state; it outputs the save sequence
    when it restarts and nothing otherwise. *)
Lemma handleClient_spec cfg i s :
  value (handleClient cfg i s) = save_served i s /\
  state (handleClient cfg i s) = s /\
  output (handleClient cfg i s)
  = (if save_served i s then save_sequence cfg i else []).
Proof.
  unfold handleClient, save_served, save_sequence, handleSave, requireAuth.
  destruct (client_request i) as [|authorised f]; [repeat split|].
  rewrite bind_assoc, bind_get.
  destruct (g_isInConfigMode s); [repeat split|].
  destruct authorised; repeat split.
Qed.

Lemma loop_served cfg i s :
  save_served i s = true -> loop cfg i s = Restarted (save_sequence cfg i).
Proof.
  intro H. destruct (handleClient_spec cfg i s) as (V & _ & O).
  unfold loop. cbv zeta. rewrite V, O, H.
  destruct (g_isInConfigMode s); reflexivity.
Qed.

Lemma loop_not_served cfg i s :
  save_served i s = false ->
  loop cfg i s
  = (if g_isInConfigMode s then Running s []
     else if value (before_alert cfg i s)
          then Restarted (output (before_alert cfg i s))
          else Running (state (alert_logic cfg i (state (before_alert cfg i s))))
                       (output (before_alert cfg i s)
                        ++ output (alert_logic cfg i
                                     (state (before_alert cfg i s))))).
Proof.
  intro H. destruct (handleClient_spec cfg i s) as (V & S & O).
  unfold loop. cbv zeta. rewrite V, S, O, H.
  destruct (g_isInConfigMode s); reflexivity.
Qed.

Lemma loop_running_not_served cfg i s s' out :
  loop cfg i s = Running s' out -> save_served i s = false.
Proof.
  intro H. destruct (save_served i s) eqn:E; [|reflexivity].
  rewrite (loop_served cfg i s E) in H. discriminate H.
Qed.

Lemma loop_config_mode cfg i s s' out :
  loop cfg i s = Running s' out ->
  g_isInConfigMode s = true -> s' = s /\ out = [].
Proof.
  intros H Hm.
  rewrite (loop_not_served cfg i s (loop_running_not_served _ _ _ _ _ H)) in H.
  rewrite Hm in H. apply Running_inj in H. destruct H as [<- <-].
  split; reflexivity.
Qed.

Lemma loop_running cfg i s s' out :
  loop cfg i s = Running s' out ->
  g_isInConfigMode s = false ->
  value (before_alert cfg i s) = false /\
  s' = state (alert_logic cfg i (state (before_alert cfg i s))) /\
  out = output (before_alert cfg i s)
        ++ output (alert_logic cfg i (state (before_alert cfg i s))).
Proof.
  intros H Hm.
  rewrite (loop_not_served cfg i s (loop_running_not_served _ _ _ _ _ H)) in H.
  rewrite Hm in H.
  destruct (value (before_alert cfg i s)) eqn:V; [discriminate H|].
  apply Running_inj in H. destruct H as [E1 E2]. subst s' out.
  split; [reflexivity|]. split; reflexivity.
Qed.

Lemma loop_price cfg i s s' out :
  loop cfg i s = Running s' out ->
  g_isInConfigMode s = false ->
  price s' = price (state (poll_price cfg i (state (wifi_check cfg i s)))).
Proof.
  intros H Hm. destruct (loop_running _ _ _ _ _ H Hm) as (_ & -> & _).
  etransitivity; [apply (alert_logic_keeps_price cfg i)|].
  apply before_alert_price.
Qed.

Lemma poll_price_skipped cfg i s :
  poll_due cfg i s = false -> state (poll_price cfg i s) = s.
Proof.
  unfold poll_due, poll_price. rewrite bind_get. intros ->. reflexivity.
Qed.

Lemma poll_price_taken cfg i s :
  poll_due cfg i s = true ->
  let fetched := state (fetchPrice cfg (poll_feed i) s) in
  state (poll_price cfg i s)
  = set_g_lastPollTime (currentMillis i)
      (if mul32 (poll_interval cfg) 3
            <? sub32 (millis_after_fetch i) (g_lastSuccessTime (price fetched))
       then set_g_dataStale true fetched else fetched).
Proof.
  unfold poll_due, poll_price. rewrite bind_get. intros ->.
  unfold when. rewrite state_bind, bind_get.
  generalize (state (fetchPrice cfg (poll_feed i) s)). intro t. cbv zeta.
  destruct (mul32 (poll_interval cfg) 3 <? _).
  - rewrite state_bind. unfold modify at 1. cbn [value state fst snd].
    rewrite bind_get. destruct (g_currentScreen _ =? 0); reflexivity.
  - rewrite bind_ret, bind_get. destruct (g_currentScreen _ =? 0); reflexivity.
Qed.

(** The flags a call of [fetchPrice] writes: it clears the stale flag and
    sets the data flag exactly when it is online and a provider answers. *)
Lemma fetchPrice_flags cfg f s :
  let s' := state (fetchPrice cfg f s) in
  let stored := g_wifiConnected s && fetch_succeeds cfg f in
  g_dataStale (price s') = g_dataStale (price s) && negb stored /\
  g_hasValidData (price s') = g_hasValidData (price s) || stored /\
  g_wifiConnected s' = g_wifiConnected s /\
  g_lastPollTime (price s') = g_lastPollTime (price s).
Proof.
  cbv zeta. destruct (g_wifiConnected s) eqn:H.
  - unfold fetch_succeeds, fetchPrice, provider_order, preferred.
    rewrite api_source_switch. rewrite bind_get, H. cbn [negb andb].
    destruct f as [b c cb k t].
    destruct b as [[? ?]|], c as [[? ?]|], cb as [?|], k as [[? ?]|];
    destruct (api_source cfg =? 1);
      try (cbn; rewrite ?andb_true_r, ?andb_false_r, ?orb_true_r, ?orb_false_r;
           repeat split; first [reflexivity | exact H]);
    destruct (api_source cfg =? 2);
      try (cbn; rewrite ?andb_true_r, ?andb_false_r, ?orb_true_r, ?orb_false_r;
           repeat split; first [reflexivity | exact H]);
    destruct (api_source cfg =? 3);
      try (cbn; rewrite ?andb_true_r, ?andb_false_r, ?orb_true_r, ?orb_false_r;
           repeat split; first [reflexivity | exact H]);
    destruct (api_source cfg =? 4);
      cbn; rewrite ?andb_true_r, ?andb_false_r, ?orb_true_r, ?orb_false_r;
      repeat split; first [reflexivity | exact H].
  - unfold fetchPrice. rewrite bind_get, H. cbn [negb andb state fst snd ret].
    rewrite andb_true_r, orb_false_r, H. repeat split.
Qed.

(** The same flags after the WiFi check. *)
Lemma wifi_check_flags cfg i s :
  let s1 := state (wifi_check cfg i s) in
  let stored := reconnect_fetch i s && fetch_succeeds cfg (reconnect_feed i) in
  g_dataStale (price s1) = g_dataStale (price s) && negb stored /\
  g_hasValidData (price s1) = g_hasValidData (price s) || stored /\
  g_wifiConnected s1 = online_at_poll i s /\
  g_lastPollTime (price s1) = g_lastPollTime (price s).
Proof.
  cbv zeta. unfold reconnect_fetch, online_at_poll, wifi_check_due, wifi_check.
  rewrite bind_get.
  destruct (30000 <? sub32 (currentMillis i) (lastWiFiCheck s));
    cbn [when andb negb];
    [|cbn; rewrite andb_true_r, orb_false_r; repeat split].
  rewrite bind_modify.
  destruct (wifi_status_connected i); cbn [negb andb].
  - rewrite bind_get.
    cbn [g_wifiConnected set_lastWiFiCheck].
    destruct (g_wifiConnected s) eqn:W; cbn [negb when andb].
    + cbn. rewrite andb_true_r, orb_false_r, W. repeat split.
    + rewrite bind_modify, state_bind.
      destruct (fetchPrice_flags cfg (reconnect_feed i)
                  (set_g_wifiConnected true
                     (set_lastWiFiCheck (currentMillis i) s)))
        as (A & B & C & D).
      cbv zeta in A, B, C, D. cbn [emit state fst snd].
      rewrite A, B, C, D. cbn. repeat split.
  - cbn. rewrite andb_true_r, orb_false_r. repeat split.
Qed.

(** C1 (amended).  In an iteration of normal mode that runs to its end,
    the stale flag afterwards is up exactly when the poll branch ran and,
    after its [fetchPrice], [millis() - g_lastSuccessTime] exceeds
    [poll_interval * 3] (both in 32-bit unsigned arithmetic), or when it
    was up before and no fetch of the iteration stored a price.  So the
    flag is raised only by the overdue test of a poll, which does not
    read [g_hasValidData], and a failed poll inside the window leaves it
    down; it is cleared only by a fetch that stores a price, which also
    sets [g_hasValidData]. *)
Theorem stale_flag_after_iteration cfg i s s' out :
  loop cfg i s = Running s' out ->
  g_isInConfigMode s = false ->
  let overdue :=
    poll_due cfg i s
    && (mul32 (poll_interval cfg) 3
          <? sub32 (millis_after_fetch i) (g_lastSuccessTime (price s'))) in
  g_dataStale (price s')
  = overdue || (g_dataStale (price s) && negb (price_fetched cfg i s)) /\
  (g_dataStale (price s) = false ->
   (g_dataStale (price s') = true <->
    poll_due cfg i s = true /\
    mul32 (poll_interval cfg) 3
      < sub32 (millis_after_fetch i) (g_lastSuccessTime (price s')))) /\
  (g_dataStale (price s) = true -> g_dataStale (price s') = false ->
   price_fetched cfg i s = true) /\
  (price_fetched cfg i s = true -> g_hasValidData (price s') = true).
Proof.
  intros H Hm. cbv zeta.
  assert (Main :
    g_dataStale (price s')
    = poll_due cfg i s
      && (mul32 (poll_interval cfg) 3
            <? sub32 (millis_after_fetch i) (g_lastSuccessTime (price s')))
      || (g_dataStale (price s) && negb (price_fetched cfg i s)) /\
    (price_fetched cfg i s = true -> g_hasValidData (price s') = true)).
  { rewrite (loop_price _ _ _ _ _ H Hm).
    destruct (wifi_check_flags cfg i s) as (A1 & B1 & C1 & D1).
    cbv zeta in A1, B1, C1, D1. unfold price_fetched.
    set (s1 := state (wifi_check cfg i s)) in *.
    assert (Ed : poll_due cfg i s1 = poll_due cfg i s).
    { unfold poll_due. rewrite D1. reflexivity. }
    rewrite <- Ed.
    destruct (poll_due cfg i s1) eqn:D.
    - rewrite (poll_price_taken _ _ _ D). cbv zeta.
      destruct (fetchPrice_flags cfg (poll_feed i) s1) as (A2 & B2 & _).
      cbv zeta in A2, B2. rewrite C1 in A2, B2.
      set (s2 := state (fetchPrice cfg (poll_feed i) s1)) in *.
      destruct (mul32 (poll_interval cfg) 3
                  <? sub32 (millis_after_fetch i) (g_lastSuccessTime (price s2)))
        eqn:T;
        cbn [price set_g_lastPollTime set_g_dataStale upd_price
             g_dataStale g_hasValidData g_lastSuccessTime andb orb];
        rewrite ?T, ?A2, ?B2, ?A1, ?B1;
        destruct (g_dataStale (price s)), (g_hasValidData (price s)),
          (reconnect_fetch i s && fetch_succeeds cfg (reconnect_feed i)),
          (online_at_poll i s && fetch_succeeds cfg (poll_feed i));
        cbn; (split; [reflexivity | intro X; first [reflexivity | discriminate X]]).
    - rewrite (poll_price_skipped _ _ _ D). cbn [andb orb].
      rewrite ?A1, ?B1.
      destruct (g_dataStale (price s)), (g_hasValidData (price s)),
        (reconnect_fetch i s && fetch_succeeds cfg (reconnect_feed i));
        cbn; (split; [reflexivity | intro X; first [reflexivity | discriminate X]]). }
  destruct Main as [M F]. split; [exact M|]. split; [|split; [|exact F]].
  - intro Hs. rewrite M, Hs. cbn [andb]. rewrite orb_false_r.
    rewrite andb_true_iff, Z.ltb_lt. reflexivity.
  - intros Hs Hc. rewrite M, Hs in Hc. cbn [andb] in Hc.
    apply orb_false_iff in Hc. destruct Hc as [_ Hc].
    apply negb_false_iff in Hc. exact Hc.
Qed.

(** C1 (as stated) fails.  Boot with WiFi and no provider answering, then
    poll at 200 s with the default 60 s interval: the flag is up although
    no value was ever acquired, so "stale iff has value and overdue" does
    not hold of the state. *)
Lemma stale_flag_without_a_value :
  exists s',
    states_along default_config [idle 200000] (booted default_config 6000) = [s'] /\
    g_dataStale (price s') = true /\
    g_hasValidData (price s') = false /\
    ~ stale_invariant default_config 200000 s'.
Proof.
  eexists. split; [cbv; reflexivity|].
  split; [reflexivity|]. split; [reflexivity|].
  unfold stale_invariant. intros [Hi _].
  destruct (Hi eq_refl) as [Hv _]. discriminate Hv.
Qed.

(** The stale-flag theorem at that same iteration. *)
Lemma stale_raise_witness :
  g_isInConfigMode (booted default_config 6000) = false /\
  g_dataStale (price (booted default_config 6000)) = false /\
  poll_due default_config (idle 200000) (booted default_config 6000) = true.
Proof.
  split; [reflexivity|]. split; [reflexivity|].
  refine (proj1 (proj1 (proj1 (proj2 (stale_flag_after_iteration default_config
            (idle 200000) (booted default_config 6000) _ _ _ eq_refl))
            eq_refl) _)).
  - cbv. reflexivity.
  - reflexivity.
Defined.

(** ** The active screen *)

Lemma auto_cycle_off cfg i s :
  weather_enabled cfg && (button_mode cfg =? 0) = false ->
  auto_cycle cfg i s = (tt, s, []).
Proof. unfold auto_cycle. intros ->. reflexivity. Qed.

Lemma on_demand_return_off cfg i s :
  weather_enabled cfg && (button_mode cfg =? 2) = false ->
  on_demand_return cfg i s = (tt, s, []).
Proof. unfold on_demand_return. rewrite bind_get. intros ->. reflexivity. Qed.

Lemma d5_button_is_factory_reset cfg i :
  d5_weather_mode cfg = false -> d5_btc_mode cfg = false ->
  d5_button cfg i = factory_reset_button cfg i.
Proof. unfold d5_button. intros -> ->. reflexivity. Qed.

Lemma after_polls_screen cfg i s : screen (after_polls cfg i s) = screen s.
Proof.
  unfold after_polls.
  etransitivity; [apply (poll_weather_keeps_screen cfg i)|].
  etransitivity; [apply (poll_price_keeps_screen cfg i)|].
  apply (wifi_check_keeps_screen cfg i).
Qed.

(** With no D5 role, the screen state after the stages before the alert
    logic is the one the cycling stages and the D6 button leave. *)
Lemma before_alert_screen cfg i s :
  d5_weather_mode cfg = false -> d5_btc_mode cfg = false ->
  screen (state (before_alert cfg i s))
  = screen (state (screen_button cfg i
             (state (on_demand_return cfg i
                (state (auto_cycle cfg i (after_polls cfg i s))))))).
Proof.
  intros Hw Hb. unfold before_alert, after_polls. rewrite !state_bind.
  rewrite (d5_button_is_factory_reset _ _ Hw Hb).
  etransitivity; [apply (factory_reset_button_keeps_screen cfg i)|].
  apply (touch_polling_keeps_screen cfg i).
Qed.

Lemma short_press_released_screen i s1 s :
  screen s1 = screen s -> short_press_released i s1 = short_press_released i s.
Proof. unfold short_press_released. intros ->. reflexivity. Qed.

(** The D6 stage with the weather feature off: the active screen and its
    timer are not written. *)
Lemma screen_button_weather_off cfg i s :
  weather_enabled cfg = false ->
  g_currentScreen (screen (state (screen_button cfg i s)))
  = g_currentScreen (screen s) /\
  g_lastScreenSwitch (screen (state (screen_button cfg i s)))
  = g_lastScreenSwitch (screen s).
Proof.
  intro Hw. unfold screen_button. rewrite bind_get, Hw.
  destruct (screen_btn_low i), (screenBtnPressStart (screen s) =? 0),
    (0 <? screenBtnPressStart (screen s)), (screenBtnHandled (screen s)),
    (50 <? sub32 (currentMillis i) (screenBtnPressStart (screen s))),
    (sub32 (currentMillis i) (screenBtnPressStart (screen s)) <? 1000);
    split; reflexivity.
Qed.

(** With the weather feature off and no D5 role configured, no iteration
    changes the active screen: cycling, on-demand return and the D6
    button are all gated by [weather_enabled]. *)
Theorem screen_fixed_without_weather_and_d5 cfg i s s' out :
  weather_enabled cfg = false ->
  d5_weather_mode cfg = false -> d5_btc_mode cfg = false ->
  loop cfg i s = Running s' out ->
  g_currentScreen (screen s') = g_currentScreen (screen s).
Proof.
  intros Hx Hw Hb H.
  destruct (g_isInConfigMode s) eqn:Hm.
  - apply loop_config_mode in H; [|exact Hm].
    destruct H as [-> _]. reflexivity.
  - destruct (loop_running _ _ _ _ _ H Hm) as (_ & -> & _).
    rewrite (alert_logic_keeps_screen cfg i).
    rewrite (before_alert_screen cfg i s Hw Hb).
    rewrite auto_cycle_off by (rewrite Hx; reflexivity).
    cbn [state fst snd].
    rewrite on_demand_return_off by (rewrite Hx; reflexivity).
    cbn [state fst snd].
    rewrite (proj1 (screen_button_weather_off cfg i _ Hx)).
    rewrite after_polls_screen. reflexivity.
Qed.

(** C3 (the code diverges).  The D5 weather role is not gated by
    [weather_enabled]: with the weather feature off and
    [d5_weather_mode] on, an iteration that reads D5 high sets
    [g_currentScreen] to 1 and draws the weather screen. *)
Lemma d5_press_shows_weather_although_disabled :
  let cfg := configure 0 false 0 true false 5000 0 0 0 in
  weather_enabled cfg = false /\
  map (fun s => g_currentScreen (screen s))
      (states_along cfg [sample 7000 false true] (booted cfg 6000)) = [1] /\
  events (run cfg [sample 7000 false true] (booted cfg 6000))
  = [DrawWeatherScreen].
Proof. cbv. repeat split. Qed.

(** The D6 stage in Always Weather mode. *)
Lemma screen_button_always_weather cfg i s :
  weather_enabled cfg = true -> button_mode cfg = 1 ->
  (short_press_released i s = true ->
   g_currentScreen (screen (state (screen_button cfg i s))) = 1 /\
   g_lastScreenSwitch (screen (state (screen_button cfg i s))) = currentMillis i /\
   output (screen_button cfg i s) = [DrawWeatherScreen]) /\
  (short_press_released i s = false ->
   g_currentScreen (screen (state (screen_button cfg i s)))
   = g_currentScreen (screen s) /\
   g_lastScreenSwitch (screen (state (screen_button cfg i s)))
   = g_lastScreenSwitch (screen s) /\
   output (screen_button cfg i s) = []).
Proof.
  intros Hw Hm. unfold screen_button, short_press_released.
  rewrite bind_get, Hw, Hm.
  destruct (screen_btn_low i), (screenBtnPressStart (screen s) =? 0),
    (0 <? screenBtnPressStart (screen s)), (screenBtnHandled (screen s)),
    (50 <? sub32 (currentMillis i) (screenBtnPressStart (screen s))),
    (sub32 (currentMillis i) (screenBtnPressStart (screen s)) <? 1000);
    cbn; split; intro H; try discriminate H; repeat split.
Qed.

(** C8 (amended).  In Always Weather mode (weather on, no D5 role) no
    timer moves the active screen: an iteration leaves [g_currentScreen]
    and [g_lastScreenSwitch] as they were unless it completes a short D6
    press (released, held more than 50 ms and less than 1000 ms); that
    press sets the active screen to Weather, restarts the screen timer
    and draws the weather screen. *)
Theorem always_weather_mode_button cfg i s s' out :
  weather_enabled cfg = true -> button_mode cfg = 1 ->
  d5_weather_mode cfg = false -> d5_btc_mode cfg = false ->
  g_isInConfigMode s = false ->
  loop cfg i s = Running s' out ->
  (short_press_released i s = true ->
   g_currentScreen (screen s') = 1 /\
   g_lastScreenSwitch (screen s') = currentMillis i /\
   In DrawWeatherScreen out) /\
  (short_press_released i s = false ->
   g_currentScreen (screen s') = g_currentScreen (screen s) /\
   g_lastScreenSwitch (screen s') = g_lastScreenSwitch (screen s)).
Proof.
  intros Hx Hmode Hw Hb Hm H.
  destruct (loop_running _ _ _ _ _ H Hm) as (_ & -> & ->).
  rewrite (alert_logic_keeps_screen cfg i).
  rewrite (before_alert_screen cfg i s Hw Hb).
  assert (Ea : forall t, auto_cycle cfg i t = (tt, t, [])).
  { intro t. apply auto_cycle_off. rewrite Hmode. apply andb_false_r. }
  assert (Eo : forall t, on_demand_return cfg i t = (tt, t, [])).
  { intro t. apply on_demand_return_off. rewrite Hmode. apply andb_false_r. }
  rewrite Ea. cbn [state fst snd]. rewrite Eo. cbn [state fst snd].
  destruct (screen_button_always_weather cfg i (after_polls cfg i s) Hx Hmode)
    as [Hp Hn].
  rewrite (short_press_released_screen i _ s (after_polls_screen cfg i s))
    in Hp, Hn.
  split; intro P.
  - destruct (Hp P) as (E1 & E2 & E3). split; [exact E1|]. split; [exact E2|].
    apply in_or_app. left.
    unfold before_alert. rewrite !output_bind, ?state_bind.
    rewrite Ea. cbn [state output fst snd]. rewrite Eo. cbn [state output fst snd].
    apply in_or_app. right. apply in_or_app. right. apply in_or_app. right.
    cbn [app]. apply in_or_app. left.
    fold (after_polls cfg i s). rewrite E3. left. reflexivity.
  - destruct (Hn P) as (E1 & E2 & _).
    rewrite E1, E2, after_polls_screen. split; reflexivity.
Qed.

(** C8 (as stated) fails.  In Always Weather mode the sketch boots on the
    BTC screen and stays there while the button is idle; the first short
    press moves the active screen to Weather for good; a short press on
    the Weather screen redraws Weather, and [updateDisplay] (the BTC
    screen) is never called by these presses. *)
Lemma always_weather_short_press_shows_weather :
  let cfg := configure 0 true 1 false false 5000 0 0 0 in
  let presses :=
    [idle 7000; sample 8000 true false; sample 8200 false false; idle 9000;
     sample 9500 true false; sample 9700 false false; idle 10000] in
  g_currentScreen (screen (booted cfg 6000)) = 0 /\
  map (fun s => g_currentScreen (screen s))
      (states_along cfg presses (booted cfg 6000)) = [0; 0; 1; 1; 1; 1; 1] /\
  events (run cfg presses (booted cfg 6000))
  = [DrawWeatherScreen; DrawWeatherScreen].
Proof. cbv. repeat split. Qed.

(** The Always Weather theorem at a 200 ms press. *)
Lemma always_weather_mode_button_witness :
  let cfg := configure 0 true 1 false false 5000 0 0 0 in
  let s := set_screenBtnPressStart 8000 (booted cfg 6000) in
  let i := sample 8200 false false in
  short_press_released i s = true /\
  exists s' out, loop cfg i s = Running s' out /\ g_currentScreen (screen s') = 1.
Proof.
  intros cfg s i. split; [reflexivity|]. eexists. eexists.
  refine (let L := _ in
          conj L (proj1 (proj1 (always_weather_mode_button cfg i s _ _
                    eq_refl eq_refl eq_refl eq_refl eq_refl L) eq_refl))).
  cbv. reflexivity.
Defined.

(** The fixed-screen theorem at a D6 press with the weather feature off. *)
Lemma screen_fixed_witness :
  let cfg := configure 0 false 0 false false 5000 0 0 0 in
  let s := set_screenBtnPressStart 8000 (booted cfg 6000) in
  let i := sample 8200 false false in
  short_press_released i s = true /\
  exists s' out, loop cfg i s = Running s' out /\ g_currentScreen (screen s') = 0.
Proof.
  intros cfg s i. split; [reflexivity|]. eexists. eexists.
  refine (let L := _ in
          conj L (screen_fixed_without_weather_and_d5 cfg i s _ _
                    eq_refl eq_refl eq_refl L)).
  cbv. reflexivity.
Defined.

(** ** The D5 weather button *)

(** A press while the weather screen is already showing writes nothing:
    in particular a release stamp that is pending stays. *)
Lemma d5_weather_button_held cfg i s :
  reset_btn_high i = true -> d5WeatherShowing (d5 s) = true ->
  d5_weather_button cfg i s = (tt, s, []).
Proof.
  intros Hh Hs. unfold d5_weather_button. rewrite bind_get, Hh, Hs. reflexivity.
Qed.

(** The rising edge: weather at once. *)
Lemma d5_weather_button_pressed cfg i s :
  reset_btn_high i = true -> d5WeatherShowing (d5 s) = false ->
  let r := d5_weather_button cfg i s in
  g_currentScreen (screen (state r)) = 1 /\
  d5WeatherShowing (d5 (state r)) = true /\
  d5WeatherReleaseTime (d5 (state r)) = 0 /\
  output r = [DrawWeatherScreen].
Proof.
  intros Hh Hs. unfold d5_weather_button. rewrite bind_get, Hh, Hs.
  repeat split.
Qed.

(** The input low while weather is showing: instant return for timeout 0,
    otherwise the first low iteration stamps the release and a later one
    returns to BTC once [d5_timeout] has passed since the stamp. *)
Lemma d5_weather_button_released cfg i s :
  reset_btn_high i = false -> d5WeatherShowing (d5 s) = true ->
  let r := d5_weather_button cfg i s in
  let stamp := d5WeatherReleaseTime (d5 s) in
  (d5_timeout cfg = 0 ->
   g_currentScreen (screen (state r)) = 0 /\
   d5WeatherShowing (d5 (state r)) = false /\ output r = [UpdateDisplay]) /\
  (d5_timeout cfg <> 0 -> stamp = 0 ->
   state r = set_d5WeatherReleaseTime (currentMillis i) s /\ output r = []) /\
  (d5_timeout cfg <> 0 -> stamp <> 0 ->
   d5_timeout cfg <= sub32 (currentMillis i) stamp ->
   g_currentScreen (screen (state r)) = 0 /\
   d5WeatherShowing (d5 (state r)) = false /\
   d5WeatherReleaseTime (d5 (state r)) = 0 /\ output r = [UpdateDisplay]) /\
  (d5_timeout cfg <> 0 -> stamp <> 0 ->
   sub32 (currentMillis i) stamp < d5_timeout cfg ->
   r = (tt, s, [])).
Proof.
  intros Hh Hs. unfold d5_weather_button. rewrite bind_get, Hh, Hs.
  cbv zeta. cbn [when negb].
  destruct (d5_timeout cfg =? 0) eqn:T;
    [apply Z.eqb_eq in T | apply Z.eqb_neq in T];
  (destruct (d5WeatherReleaseTime (d5 s) =? 0) eqn:S0;
    [apply Z.eqb_eq in S0 | apply Z.eqb_neq in S0]);
  (destruct (d5_timeout cfg <=? sub32 (currentMillis i)
                                  (d5WeatherReleaseTime (d5 s))) eqn:D;
    [apply Z.leb_le in D | apply Z.leb_gt in D]);
  repeat split; intros; try reflexivity; try contradiction; try lia.
Qed.

(** The release with timeout 5 s: weather showing, D5 low, no stamp yet. *)
Lemma d5_weather_button_released_witness :
  let cfg := configure 0 true 3 true false 5000 0 0 0 in
  let s := set_d5WeatherShowing true
             (set_g_currentScreen 1 (booted cfg 500)) in
  state (d5_weather_button cfg (idle 6000) s)
  = set_d5WeatherReleaseTime 6000 s.
Proof.
  intros cfg s.
  destruct (d5_weather_button_released cfg (idle 6000) s eq_refl eq_refl)
    as (_ & stamped & _).
  refine (proj1 (stamped _ eq_refl)). discriminate.
Defined.

(** C4 (the code diverges).  Timeout 5000 ms, D5 weather role.  First
    run: press at 0, release at 1000, a 500 ms re-press at 3000: the
    release stamp stays 1000 through the re-press and the screen returns
    to BTC at 6000, the deadline of the first release.  Second run: the
    re-press is held over that deadline, and the release at 7000 returns
    to BTC at once, with no countdown.  Third run: the parts of the claim
    that hold (weather on the rising edge, countdown from the release,
    BTC again at 1000 + 5000). *)
Lemma d5_repress_keeps_the_old_deadline :
  let cfg := configure 0 true 3 true false 5000 0 0 0 in
  let view := map (fun s => (g_currentScreen (screen s),
                             d5WeatherReleaseTime (d5 s))) in
  view (states_along cfg
          [sample 0 false true; sample 1000 false false;
           sample 3000 false true; sample 3500 false false;
           sample 5999 false false; sample 6000 false false]
          (booted cfg 0))
  = [(1, 0); (1, 1000); (1, 1000); (1, 1000); (1, 1000); (0, 0)] /\
  view (states_along cfg
          [sample 0 false true; sample 1000 false false;
           sample 3000 false true; sample 6500 false true;
           sample 7000 false false]
          (booted cfg 0))
  = [(1, 0); (1, 1000); (1, 1000); (1, 1000); (0, 0)] /\
  view (states_along cfg
          [sample 0 false true; sample 1000 false false;
           sample 5999 false false; sample 6000 false false]
          (booted cfg 0))
  = [(1, 0); (1, 1000); (1, 1000); (0, 0)].
Proof. cbv. repeat split. Qed.

(** ** The alert logic *)

Lemma alert_duration_gate_spec cfg i s :
  let r := alert_duration_gate cfg i s in
  value r = alert_condition cfg s && negb (duration_exceeded cfg i s) /\
  g_alertStartTime (alert (state r))
  = (if alert_condition cfg s then alert_stamp i s else 0) /\
  lastBlinkTime (alert (state r)) = lastBlinkTime (alert s) /\
  blinkState (alert (state r)) = blinkState (alert s) /\
  ledCleanedUp (alert (state r)) = ledCleanedUp (alert s) /\
  sosStep (alert (state r)) = sosStep (alert s) /\
  price (state r) = price s /\ screen (state r) = screen s /\
  output r = [].
Proof.
  unfold alert_duration_gate, duration_exceeded, alert_stamp.
  rewrite bind_get. cbv zeta.
  destruct (alert_condition cfg s).
  - destruct (g_alertStartTime (alert s) =? 0) eqn:Z0; cbn [when].
    + rewrite bind_modify, bind_get. cbn [g_alertStartTime alert set_g_alertStartTime upd_alert].
      destruct ((0 <? alert_duration cfg) && _); repeat split.
    + rewrite bind_ret, bind_get.
      destruct ((0 <? alert_duration cfg) && _); repeat split.
  - repeat split.
Qed.

Lemma alert_logic_step cfg i s :
  value (alert_duration_gate cfg i s) = false ->
  forall t, t = state (alert_duration_gate cfg i s) ->
  alert_logic cfg i s
  = ((s0 <- get ;;
      when (negb (blinkState (alert s0)))
        (modify (set_blinkState true) ;; refreshCurrentScreen) ;;
      s1 <- get ;;
      when (negb (ledCleanedUp (alert s1)))
        (when (drives_led cfg)
           (emit (DigitalWrite (led_pin cfg) (pinLevel cfg false))) ;;
         modify (set_ledCleanedUp true))) t).
Proof.
  intros V t ->. unfold alert_logic at 1.
  destruct (alert_duration_gate_spec cfg i s) as (_ & _ & _ & _ & _ & _ & _ & _ & O).
  rewrite (result_eta (bind _ _ s)).
  rewrite value_bind, state_bind, output_bind, V, O. cbn [app].
  symmetry. apply result_eta.
Qed.

Lemma alert_logic_active_step cfg i s :
  value (alert_duration_gate cfg i s) = true ->
  forall t, t = state (alert_duration_gate cfg i s) ->
  alert_logic cfg i s
  = ((modify (set_ledCleanedUp false) ;;
      s0 <- get ;;
      (if active_pattern cfg s0 =? 3
       then sos_blink i else standard_blink (active_pattern cfg s0) i) ;;
      s1 <- get ;;
      when (drives_display cfg)
        (if blinkState (alert s1) then emit UpdateDisplay
         else emit BlankDisplay) ;;
      when (drives_led cfg)
        (emit (DigitalWrite (led_pin cfg)
                 (pinLevel cfg (blinkState (alert s1)))))) t).
Proof.
  intros V t ->. unfold alert_logic at 1.
  destruct (alert_duration_gate_spec cfg i s)
    as (_ & _ & _ & _ & _ & _ & _ & _ & O).
  rewrite (result_eta (bind _ _ s)).
  rewrite value_bind, state_bind, output_bind, V, O. cbn [app].
  symmetry. apply result_eta.
Qed.

Lemma active_pattern_price cfg s1 s :
  price s1 = price s -> active_pattern cfg s1 = active_pattern cfg s.
Proof.
  unfold active_pattern, low_breach, high_breach. intros ->. reflexivity.
Qed.

Lemma blink_stage_keeps_latch pattern i :
  preserves (keeps (fun s => ledCleanedUp (alert s))) (blink_stage pattern i).
Proof.
  unfold blink_stage, sos_blink, standard_blink.
  destruct (pattern =? 3); keeps_stage.
Qed.

(** The state the alert branch leaves is the one of its blink stage. *)
Lemma alert_logic_active_state cfg i s :
  value (alert_duration_gate cfg i s) = true ->
  state (alert_logic cfg i s)
  = state (blink_stage (active_pattern cfg s) i
             (set_ledCleanedUp false (state (alert_duration_gate cfg i s)))).
Proof.
  intro V. rewrite (alert_logic_active_step cfg i s V _ eq_refl).
  destruct (alert_duration_gate_spec cfg i s)
    as (_ & _ & _ & _ & _ & _ & Pr & _ & _).
  set (t := state (alert_duration_gate cfg i s)) in *.
  rewrite bind_modify, bind_get.
  rewrite (active_pattern_price cfg (set_ledCleanedUp false t) s Pr).
  unfold blink_stage. rewrite state_bind, bind_get.
  set (u := state ((if active_pattern cfg s =? 3 then sos_blink i
                    else standard_blink (active_pattern cfg s) i)
                   (set_ledCleanedUp false t))).
  destruct (drives_display cfg), (drives_led cfg), (blinkState (alert u));
    reflexivity.
Qed.

(** The LED latch after the alert logic tells which branch ran. *)
Lemma alert_logic_latch cfg i s :
  ledCleanedUp (alert (state (alert_logic cfg i s)))
  = negb (value (alert_duration_gate cfg i s)).
Proof.
  destruct (value (alert_duration_gate cfg i s)) eqn:V.
  - rewrite (alert_logic_active_state cfg i s V).
    rewrite (blink_stage_keeps_latch _ i). reflexivity.
  - rewrite (alert_logic_step cfg i s V _ eq_refl).
    set (t := state (alert_duration_gate cfg i s)). clearbody t.
    rewrite bind_get, state_bind.
    match goal with
    | |- context [state (when ?b ?m t)] => set (u := state (when b m t))
    end.
    rewrite bind_get.
    destruct (ledCleanedUp (alert u)) eqn:El; cbn [negb when].
    + exact El.
    + destruct (drives_led cfg); reflexivity.
Qed.

(** The trigger formula of the code on thresholds a [float] holds
    exactly is the exact one. *)
Lemma exact_thresholds has v low high :
  low <= 16777216 -> high <= 16777216 ->
  has && (((0 <? low) && fltb (Fin v) (float_of_int low))
          || ((0 <? high) && fltb (float_of_int high) (Fin v)))
  = spec_triggered has v low high.
Proof.
  intros Hl Hh. unfold spec_triggered. f_equal. f_equal.
  - destruct (0 <? low) eqn:E; [|reflexivity]. apply Z.ltb_lt in E.
    rewrite float_of_int_exact by lia. reflexivity.
  - destruct (0 <? high) eqn:E; [|reflexivity]. apply Z.ltb_lt in E.
    rewrite float_of_int_exact by lia. reflexivity.
Qed.

(** C9 (amended).  In an iteration of normal mode that runs to its end,
    with the price state the earlier stages leave: [alertTriggered] is
    first [has value && ((low > 0 && price < (float) low) || (high > 0 &&
    price > (float) high))], each threshold converted to [float]; the
    alert branch runs (it opens the LED latch, the idle branch closes it)
    exactly when that holds and the duration cutoff does not apply.  For
    thresholds up to 16777216 the conversion is exact and the formula is
    the one of the exact comparison.  When the alert branch runs, the
    blink stage is the one of the low pattern whenever the low threshold
    is breached, of the high pattern otherwise. *)
Theorem alert_trigger_evaluation cfg i s s' out :
  loop cfg i s = Running s' out ->
  g_isInConfigMode s = false ->
  let s1 := state (before_alert cfg i s) in
  let has := g_hasValidData (price s1) in
  let v := g_currentPrice (price s1) in
  let low := alert_low cfg in
  let high := alert_high cfg in
  let breach_low := (0 <? low) && fltb (Fin v) (float_of_int low) in
  let breach_high := (0 <? high) && fltb (float_of_int high) (Fin v) in
  let triggered := has && (breach_low || breach_high) in
  let pattern :=
    if breach_low then blink_pattern_low cfg else blink_pattern_high cfg in
  alert_active cfg i s = triggered && negb (duration_exceeded cfg i s1) /\
  (ledCleanedUp (alert s') = false <->
   triggered = true /\ duration_exceeded cfg i s1 = false) /\
  (low <= 16777216 -> high <= 16777216 ->
   triggered = spec_triggered has v low high) /\
  (alert_active cfg i s = true ->
   alert s'
   = alert (state (blink_stage pattern i
                     (set_ledCleanedUp false
                        (state (alert_duration_gate cfg i s1)))))).
Proof.
  intros H Hm. cbv zeta.
  destruct (loop_running _ _ _ _ _ H Hm) as (_ & -> & _).
  set (s1 := state (before_alert cfg i s)).
  destruct (alert_duration_gate_spec cfg i s1) as (V & _).
  assert (C : alert_condition cfg s1
              = g_hasValidData (price s1)
                && ((0 <? alert_low cfg)
                    && fltb (Fin (g_currentPrice (price s1)))
                            (float_of_int (alert_low cfg))
                    || (0 <? alert_high cfg)
                       && fltb (float_of_int (alert_high cfg))
                               (Fin (g_currentPrice (price s1))))).
  { unfold alert_condition, low_breach, high_breach, price_lt, price_gt.
    destruct (g_hasValidData (price s1)); [|reflexivity].
    destruct (_ || _); reflexivity. }
  assert (A : alert_active cfg i s
              = alert_condition cfg s1 && negb (duration_exceeded cfg i s1)).
  { unfold alert_active. fold s1. exact V. }
  split; [rewrite A, C; reflexivity|]. split; [|split].
  - rewrite alert_logic_latch, V, C.
    destruct (_ && (_ || _)), (duration_exceeded cfg i s1); cbn;
      split; try discriminate; try (intros [? ?]; discriminate);
      try (intros _; split; reflexivity).
  - intros Hl Hh. apply exact_thresholds; assumption.
  - intro Act. rewrite A, V in Act || rewrite A in Act.
    assert (V1 : value (alert_duration_gate cfg i s1) = true)
      by (rewrite V; exact Act).
    rewrite (alert_logic_active_state cfg i s1 V1).
    replace (active_pattern cfg s1)
      with (if (0 <? alert_low cfg)
                && fltb (Fin (g_currentPrice (price s1)))
                        (float_of_int (alert_low cfg))
            then blink_pattern_low cfg else blink_pattern_high cfg);
      [reflexivity|].
    apply andb_true_iff in Act. destruct Act as [Act _].
    rewrite C in Act. apply andb_true_iff in Act. destruct Act as [_ Act].
    unfold active_pattern, low_breach, high_breach, price_lt, price_gt.
    destruct ((0 <? alert_low cfg) && _); [reflexivity|].
    cbn [orb] in Act. rewrite Act. reflexivity.
Qed.

(** The evaluation theorem where both thresholds are breached at once. *)
Lemma alert_trigger_evaluation_witness :
  let cfg := configure 0 false 0 false false 5000 100 50 0 in
  let s := booted_priced cfg 6000 75 in
  let i := sample_priced 7000 75 in
  exists s' out,
    loop cfg i s = Running s' out /\
    alert_active cfg i s = true /\ ledCleanedUp (alert s') = false.
Proof.
  intros cfg s i. eexists. eexists.
  refine (let L := _ in
          let T := alert_trigger_evaluation cfg i s _ _ L eq_refl in
          conj L (conj (proj1 T) (proj2 (proj1 (proj2 T)) (conj eq_refl eq_refl)))).
  cbv. reflexivity.
Defined.

(** C9 (as stated) fails in two ways.  With the low threshold 16777217
    and the price 16777216 the formula of the claim holds, but the
    threshold is 16777216 as a [float] and no alert runs.  With a
    duration of 10 s and a breach that lasts, the formula still holds at
    17001 ms but the cutoff has ended the alert. *)
Lemma alert_not_exactly_the_formula :
  (let cfg := configure 0 false 0 false false 5000 16777217 0 0 in
   let s := booted_priced cfg 6000 16777216 in
   let i := sample_priced 7000 16777216 in
   spec_triggered true 16777216 (alert_low cfg) (alert_high cfg) = true /\
   alert_active cfg i s = false /\
   map (fun s' => (g_hasValidData (price s'), g_currentPrice (price s'),
                   ledCleanedUp (alert s')))
       (states_along cfg [i] s)
   = [(true, 16777216%Q, true)]) /\
  (let cfg := configure 0 false 0 false false 5000 50000 0 10 in
   let s := set_g_alertStartTime 7000 (booted_priced cfg 6000 40000) in
   let i := sample_priced 17001 40000 in
   spec_triggered true 40000 (alert_low cfg) (alert_high cfg) = true /\
   alert_active cfg i s = false /\
   map (fun s' => (g_hasValidData (price s'), g_currentPrice (price s'),
                   ledCleanedUp (alert s')))
       (states_along cfg [i] s)
   = [(true, 40000%Q, true)]).
Proof. vm_compute. repeat split. Qed.

(** Once the duration is exceeded the alert is off and the start stamp
    stays; only a cleared condition resets the stamp. *)
Lemma alert_cutoff_latches cfg i s :
  alert_condition cfg s = true ->
  g_alertStartTime (alert s) <> 0 ->
  0 < alert_duration cfg ->
  mul32 (alert_duration cfg) 1000
    < sub32 (currentMillis i) (g_alertStartTime (alert s)) ->
  value (alert_duration_gate cfg i s) = false /\
  g_alertStartTime (alert (state (alert_duration_gate cfg i s)))
  = g_alertStartTime (alert s).
Proof.
  intros C S0 D E.
  destruct (alert_duration_gate_spec cfg i s) as (V & T & _).
  rewrite V, T, C. unfold duration_exceeded, alert_stamp.
  apply Z.eqb_neq in S0. rewrite S0.
  apply Z.ltb_lt in D, E. rewrite D, E. split; reflexivity.
Qed.

(** The cutoff with duration 10 s, the alert started at 7000, at 17001. *)
Lemma alert_cutoff_latches_witness :
  let cfg := configure 0 false 0 false false 5000 50000 0 10 in
  let s := set_g_alertStartTime 7000 (booted_priced cfg 500 40000) in
  alert_condition cfg s = true /\
  value (alert_duration_gate cfg (idle 17001) s) = false /\
  g_alertStartTime (alert (state (alert_duration_gate cfg (idle 17001) s)))
  = 7000.
Proof.
  intros cfg s.
  assert (C : alert_condition cfg s = true) by (vm_compute; reflexivity).
  refine (conj C (alert_cutoff_latches cfg (idle 17001) s C _ _ _)).
  - discriminate.
  - reflexivity.
  - reflexivity.
Defined.

Lemma alert_cleared_resets_stamp cfg i s :
  alert_condition cfg s = false ->
  value (alert_duration_gate cfg i s) = false /\
  g_alertStartTime (alert (state (alert_duration_gate cfg i s))) = 0.
Proof.
  intro C. destruct (alert_duration_gate_spec cfg i s) as (V & T & _).
  rewrite V, T, C. split; reflexivity.
Qed.

(** C5 (the code diverges).  Duration 10 s, low threshold 50000, price
    40000 throughout.  The alert starts at 7000 and is cut off after
    17000; the start stamp stays 7000 and the condition never clears.
    When the 32-bit clock has wrapped and passes 7000 again, the elapsed
    time [millis - g_alertStartTime] is 0 again and the alert is active
    once more, although the breach never cleared. *)
Lemma alert_rearms_when_the_clock_wraps :
  let cfg := configure 0 false 0 false false 5000 50000 0 10 in
  let ticks :=
    [sample_priced 7000 40000; sample_priced 17000 40000;
     sample_priced 17001 40000; sample_priced 4294967295 40000;
     sample_priced 500 40000; sample_priced 7000 40000;
     sample_priced 7010 40000] in
  alerting_along cfg ticks (booted_priced cfg 6000 40000)
  = [true; true; false; false; false; true; true] /\
  map (fun s => (alert_condition cfg s, g_alertStartTime (alert s)))
      (states_along cfg ticks (booted_priced cfg 6000 40000))
  = [(true, 7000); (true, 7000); (true, 7000); (true, 7000);
     (true, 7000); (true, 7000); (true, 7000)].
Proof. cbv. repeat split. Qed.

(** ** The SOS pattern *)








(** One full cycle from step 0, sampled at the end of every hold. *)
Lemma sos_full_cycle :
  sos_run [1200; 1400; 1600; 1800; 2000; 2600;
           3200; 3400; 4000; 4200; 4800; 5400;
           5600; 5800; 6000; 6200; 6400; 8400]
          (set_lastBlinkTime 1000 boot_state)
  = [(1, false); (2, true); (3, false); (4, true); (5, false); (6, true);
     (7, false); (8, true); (9, false); (10, true); (11, false); (12, true);
     (13, false); (14, true); (15, false); (16, true); (17, false); (0, true)].
Proof. cbv. reflexivity. Qed.

(** ** What the stages output *)

Section Emits.
Variable P : Event -> Prop.

Lemma emits_ret {A} (a : A) : emits P (ret a).
Proof. intros s e []. Qed.

Lemma emits_get : emits P get.
Proof. intros s e []. Qed.

Lemma emits_modify (f : State -> State) : emits P (modify f).
Proof. intros s e []. Qed.

Lemma emits_emit (e : Event) : P e -> emits P (emit e).
Proof. intros H s e' [<-|[]]. exact H. Qed.

Lemma emits_bind {A B} (m : M A) (f : A -> M B) :
  emits P m -> (forall a, emits P (f a)) -> emits P (bind m f).
Proof.
  intros Hm Hf s e. rewrite output_bind. intro H.
  apply in_app_or in H. destruct H as [H|H]; [eapply Hm | eapply Hf]; exact H.
Qed.

Lemma emits_when (b : bool) (m : M unit) : emits P m -> emits P (when b m).
Proof. intro Hm. destruct b; [exact Hm | apply emits_ret]. Qed.

Hypothesis P_api : forall p, P (ApiTrying p).
Hypothesis P_weather : forall p, P (WeatherTrying p).

Ltac emits_basic :=
  repeat match goal with
    | |- emits _ (ret _) => apply emits_ret
    | |- emits _ get => apply emits_get
    | |- emits _ (modify _) => apply emits_modify
    | |- emits _ (emit _) => apply emits_emit; auto
    | |- emits _ (when _ _) => apply emits_when
    | |- emits _ (bind _ _) => apply emits_bind; [| intro; cbv beta zeta]
    | |- emits _ (if ?b then _ else _) => destruct b
    | |- emits _ (match ?o with Some _ => _ | None => _ end) => destruct o
    | |- emits _ (let '(_, _) := ?p in _) => destruct p
    end.

Lemma fetchPrice_emits cfg f : emits P (fetchPrice cfg f).
Proof.
  unfold fetchPrice, fallback, fetchPriceBinance, fetchPriceCoinGecko,
    fetchPriceCoinbase, fetchPriceKraken.
  rewrite api_source_switch. emits_basic.
Qed.

Lemma fetchWeather_emits cfg f : emits P (fetchWeather cfg f).
Proof.
  unfold fetchWeather, fetchWeatherOpenMeteo, fetchWeatherBrightSky.
  emits_basic.
Qed.
End Emits.

Ltac emits_stage leaf :=
  unfold wifi_check, poll_price, poll_weather, auto_cycle, on_demand_return,
    screen_button, touch_polling, d5_btc_button, d5_weather_button,
    alert_logic, alert_duration_gate, sos_blink,
    standard_blink, refreshCurrentScreen;
  repeat match goal with
    | |- emits _ (fetchPrice _ _) => apply fetchPrice_emits; intro; leaf
    | |- emits _ (fetchWeather _ _) => apply fetchWeather_emits; intro; leaf
    | |- emits _ (ret _) => apply emits_ret
    | |- emits _ get => apply emits_get
    | |- emits _ (modify _) => apply emits_modify
    | |- emits _ (emit _) => apply emits_emit; leaf
    | |- emits _ (when _ _) => apply emits_when
    | |- emits _ (bind _ _) => apply emits_bind; [| intro; cbv beta zeta]
    | |- emits _ (if ?b then _ else _) => destruct b
    end.

(** The stages before the D5 button, and the alert logic, output no event
    of the factory reset. *)
Lemma wifi_check_quiet cfg i : emits quiet (wifi_check cfg i).
Proof. emits_stage ltac:(reflexivity). Qed.

Lemma poll_price_quiet cfg i : emits quiet (poll_price cfg i).
Proof. emits_stage ltac:(reflexivity). Qed.

Lemma poll_weather_quiet cfg i : emits quiet (poll_weather cfg i).
Proof. emits_stage ltac:(reflexivity). Qed.

Lemma auto_cycle_quiet cfg i : emits quiet (auto_cycle cfg i).
Proof. emits_stage ltac:(reflexivity). Qed.

Lemma on_demand_return_quiet cfg i : emits quiet (on_demand_return cfg i).
Proof. emits_stage ltac:(reflexivity). Qed.

Lemma screen_button_quiet cfg i : emits quiet (screen_button cfg i).
Proof. emits_stage ltac:(reflexivity). Qed.

Lemma touch_polling_quiet cfg i : emits quiet (touch_polling cfg i).
Proof. emits_stage ltac:(reflexivity). Qed.

Lemma d5_btc_button_quiet cfg i : emits quiet (d5_btc_button cfg i).
Proof. emits_stage ltac:(reflexivity). Qed.

Lemma d5_weather_button_quiet cfg i : emits quiet (d5_weather_button cfg i).
Proof. emits_stage ltac:(reflexivity). Qed.

Lemma alert_logic_quiet cfg i : emits quiet (alert_logic cfg i).
Proof. emits_stage ltac:(reflexivity). Qed.

(** ** The factory reset *)

Lemma before_alert_split cfg i s :
  value (before_alert cfg i s)
  = value (d5_button cfg i (state (before_d5 cfg i s))) /\
  state (before_alert cfg i s)
  = state (d5_button cfg i (state (before_d5 cfg i s))) /\
  output (before_alert cfg i s)
  = output (before_d5 cfg i s)
    ++ output (d5_button cfg i (state (before_d5 cfg i s))).
Proof.
  split; [reflexivity|]. split; [reflexivity|].
  unfold before_alert, before_d5. rewrite !output_bind, ?state_bind.
  rewrite <- !app_assoc. reflexivity.
Qed.

Lemma before_d5_keeps_d5 cfg i : preserves (keeps d5) (before_d5 cfg i).
Proof. unfold before_d5. keeps_stage. Qed.

Lemma before_d5_quiet cfg i : emits quiet (before_d5 cfg i).
Proof. unfold before_d5. emits_stage ltac:(reflexivity). Qed.

Lemma countdown_value d :
  2000 < d <= 10000 -> int_of_u32 (sub32 10 (d / 1000)) = 10 - d / 1000.
Proof.
  intro H.
  assert (2 <= d / 1000 <= 10).
  { split; [apply Z.div_le_lower_bound | apply Z.div_le_upper_bound]; lia. }
  unfold int_of_u32, sub32, wrap32, two32.
  rewrite Z.mod_small by lia.
  destruct (10 - d / 1000 <? 2147483648) eqn:E; [reflexivity|].
  apply Z.ltb_ge in E. lia.
Qed.

(** The factory-reset branch, case by case on the hold time. *)
Lemma factory_reset_button_spec cfg i s :
  let r := factory_reset_button cfg i s in
  let held := held_for i s in
  (reset_btn_high i = true -> 10000 < held ->
   value r = true /\ output r = wipe_sequence) /\
  (reset_btn_high i = true -> 2000 < held <= 10000 ->
   value r = false /\ output r = [CountdownScreen (10 - held / 1000)] /\
   btnPressStart (d5 (state r)) = press_stamp i s /\
   lastWiFiCheck (state r) = currentMillis i) /\
  (reset_btn_high i = true -> held <= 2000 ->
   value r = false /\ output r = [] /\
   btnPressStart (d5 (state r)) = press_stamp i s) /\
  (reset_btn_high i = false ->
   value r = false /\ output r = [] /\ btnPressStart (d5 (state r)) = 0).
Proof.
  cbv zeta. unfold factory_reset_button, held_for, press_stamp.
  destruct (reset_btn_high i).
  2:{ repeat split; intros; try discriminate; reflexivity. }
  rewrite bind_get.
  destruct (btnPressStart (d5 s) =? 0) eqn:Z0; mstep;
    cbn [d5 set_btnPressStart upd_d5 btnPressStart];
    match goal with
    | |- context [sub32 (currentMillis i) ?b] =>
        set (d := sub32 (currentMillis i) b)
    end;
    (destruct (10000 <? d) eqn:E10;
      [apply Z.ltb_lt in E10 | apply Z.ltb_ge in E10]);
    (destruct (2000 <? d) eqn:E2;
      [apply Z.ltb_lt in E2 | apply Z.ltb_ge in E2]);
    repeat split; intros; try discriminate; try lia;
    try reflexivity;
    try (cbn; rewrite countdown_value by lia; reflexivity).
Qed.

Lemma quiet_not_wipe e : quiet e -> e <> FormatFS /\ e <> EspRestart.
Proof. unfold quiet. intro H. split; intros ->; discriminate H. Qed.

Lemma quiet_not_countdown e n : quiet e -> e <> CountdownScreen n.
Proof. unfold quiet. intros H ->. discriminate H. Qed.

Lemma held_trichotomy d : 10000 < d \/ 2000 < d <= 10000 \/ d <= 2000.
Proof. lia. Qed.

(** The D5 stage in any role: the wipe sequence when it restarts, and
    neither the wipe nor the restart otherwise. *)
Lemma quiet_not_restart e :
  quiet e -> e <> FormatFS /\ e <> EspRestart /\ forall c, e <> SaveConfig c.
Proof.
  unfold quiet. intro H.
  split; [|split]; [intros -> | intros -> | intros c ->]; discriminate H.
Qed.

Lemma d5_button_outputs cfg i s :
  (value (d5_button cfg i s) = true ->
   output (d5_button cfg i s) = wipe_sequence) /\
  (value (d5_button cfg i s) = false ->
   forall e, In e (output (d5_button cfg i s)) ->
             e <> FormatFS /\ e <> EspRestart /\ forall c, e <> SaveConfig c).
Proof.
  unfold d5_button.
  destruct (d5_btc_mode cfg); [|destruct (d5_weather_mode cfg)].
  - split; [intro H; discriminate H|]. intros _ e H.
    rewrite output_bind in H. cbn in H. rewrite app_nil_r in H.
    apply quiet_not_restart. exact (d5_btc_button_quiet cfg i s e H).
  - split; [intro H; discriminate H|]. intros _ e H.
    rewrite output_bind in H. cbn in H. rewrite app_nil_r in H.
    apply quiet_not_restart. exact (d5_weather_button_quiet cfg i s e H).
  - destruct (factory_reset_button_spec cfg i s) as (A & B & C & D).
    destruct (reset_btn_high i).
    + destruct (held_trichotomy (held_for i s)) as [H|[H|H]].
      * destruct (A eq_refl H) as [V O]. rewrite V, O.
        split; [reflexivity | intro X; discriminate X].
      * destruct (B eq_refl H) as (V & O & _). rewrite V, O.
        split; [intro X; discriminate X|].
        intros _ e [<-|[]]. repeat split; discriminate.
      * destruct (C eq_refl H) as (V & O & _). rewrite V, O.
        split; [intro X; discriminate X | intros _ e []].
    + destruct (D eq_refl) as (V & O & _). rewrite V, O.
      split; [intro X; discriminate X | intros _ e []].
Qed.

Lemma quiet_not_save e c : quiet e -> e <> SaveConfig c.
Proof. unfold quiet. intros H ->. discriminate H. Qed.

(** The outputs of the stages other than the web server, in an iteration
    that takes the factory-reset branch or not. *)
Lemma ticker_outputs cfg i s :
  (value (before_alert cfg i s) = true ->
   exists pre, output (before_alert cfg i s) = pre ++ wipe_sequence /\
               forall e, In e pre -> quiet e) /\
  (value (before_alert cfg i s) = false ->
   forall e, In e (output (before_alert cfg i s)
                   ++ output (alert_logic cfg i (state (before_alert cfg i s)))) ->
             e <> FormatFS /\ e <> EspRestart /\ forall c, e <> SaveConfig c).
Proof.
  destruct (before_alert_split cfg i s) as (V & _ & O).
  destruct (d5_button_outputs cfg i (state (before_d5 cfg i s))) as [T F].
  rewrite V, O. split.
  - intro R. exists (output (before_d5 cfg i s)). rewrite (T R).
    split; [reflexivity | exact (before_d5_quiet cfg i s)].
  - intros R e H.
    apply in_app_or in H. destruct H as [H|H];
      [apply in_app_or in H; destruct H as [H|H]|].
    + exact (quiet_not_restart e (before_d5_quiet cfg i s e H)).
    + exact (F R e H).
    + exact (quiet_not_restart e (alert_logic_quiet cfg i _ e H)).
Qed.

(** One iteration: a running one neither wipes, saves nor restarts; a
    restarted one is a served settings request, which saves and restarts
    without a wipe, or ends with the wipe sequence and has neither wipe
    nor save before it. *)
Lemma loop_outputs cfg i s :
  match loop cfg i s with
  | Running _ out =>
      ~ In FormatFS out /\ ~ In EspRestart out /\ saves out = 0%nat
  | Restarted out =>
      (save_served i s = true /\ out = save_sequence cfg i)
      \/ (save_served i s = false /\
          exists pre, out = pre ++ wipe_sequence /\
                      ~ In FormatFS pre /\ ~ In EspRestart pre /\
                      saves pre = 0%nat)
  end.
Proof.
  assert (NS : forall l, (forall e, In e l -> forall c, e <> SaveConfig c) ->
                         saves l = 0%nat).
  { induction l as [|e l IH]; intro H; [reflexivity|].
    unfold saves in *. cbn [filter].
    destruct e; cbn [is_save];
      try (apply IH; intros e' H'; apply H; right; exact H').
    exfalso. exact (H _ (or_introl eq_refl) saved eq_refl). }
  destruct (save_served i s) eqn:Sv.
  - rewrite (loop_served cfg i s Sv). left. split; reflexivity.
  - rewrite (loop_not_served cfg i s Sv).
    destruct (g_isInConfigMode s); [repeat split; intros []|].
    destruct (ticker_outputs cfg i s) as [T F].
    destruct (value (before_alert cfg i s)).
    + right. split; [reflexivity|]. destruct (T eq_refl) as (pre & E & Q).
      exists pre. split; [exact E|].
      split; [|split].
      * intro H. destruct (quiet_not_wipe _ (Q _ H)). congruence.
      * intro H. destruct (quiet_not_wipe _ (Q _ H)). congruence.
      * apply NS. intros e H c. apply quiet_not_save. exact (Q e H).
    + specialize (F eq_refl). split; [|split].
      * intro H. destruct (F _ H) as (N & _). congruence.
      * intro H. destruct (F _ H) as (_ & N & _). congruence.
      * apply NS. intros e H. exact (proj2 (proj2 (F e H))).
Qed.

Lemma saves_app a b : saves (a ++ b) = (saves a + saves b)%nat.
Proof. unfold saves. rewrite filter_app, length_app. reflexivity. Qed.

(** A run restarts at most once, at its end, and then either by the
    factory reset, which wipes the flash once, or by a served settings
    request, which saves once and does not wipe; a run that does not
    restart neither wipes nor saves. *)
Theorem run_restarts_by_wipe_or_save cfg ins s :
  let out := events (run cfg ins s) in
  let restarts :=
    match final_state (run cfg ins s) with Some _ => 0%nat | None => 1%nat end in
  count_occ Event_eq_dec out EspRestart = restarts /\
  (count_occ Event_eq_dec out FormatFS + saves out)%nat = restarts.
Proof.
  cbv zeta. revert s. induction ins as [|i rest IH]; intro s;
    [split; reflexivity|].
  cbn [run]. pose proof (loop_outputs cfg i s) as L.
  destruct (loop cfg i s) as [s' out|out].
  - destruct L as (LF & LR & LS). specialize (IH s').
    destruct (run cfg rest s') as [s'' out'|out']; cbn [events final_state] in *;
      rewrite !count_occ_app, saves_app, LS;
      rewrite (proj1 (count_occ_not_In Event_eq_dec out FormatFS) LF);
      rewrite (proj1 (count_occ_not_In Event_eq_dec out EspRestart) LR);
      exact IH.
  - cbn [events final_state].
    destruct L as [[Sv ->] | (_ & pre & -> & LF & LR & LS)].
    + unfold save_served in Sv. unfold save_sequence.
      destruct (client_request i); [discriminate Sv|]. split; reflexivity.
    + rewrite !count_occ_app, saves_app, LS.
      rewrite (proj1 (count_occ_not_In Event_eq_dec pre FormatFS) LF).
      rewrite (proj1 (count_occ_not_In Event_eq_dec pre EspRestart) LR).
      split; reflexivity.
Qed.

Lemma alert_logic_keeps_d5 cfg i : preserves (keeps d5) (alert_logic cfg i).
Proof. keeps_stage. Qed.

Lemma held_for_d5 i s1 s : d5 s1 = d5 s -> held_for i s1 = held_for i s.
Proof. unfold held_for, press_stamp. intros ->. reflexivity. Qed.

Lemma press_stamp_d5 i s1 s : d5 s1 = d5 s -> press_stamp i s1 = press_stamp i s.
Proof. unfold press_stamp. intros ->. reflexivity. Qed.

(** C7 (amended).  Factory-reset role (no D5 screen role), normal mode, no
    settings request served, hold time measured from the press stamp.
    While D5 is high: held more than 10000 ms, the iteration wipes the
    flash once and restarts; held more than 2000 ms and at most 10000 ms,
    it shows the countdown [10 - held / 1000] and no other, keeps the
    press stamp and does not wipe (so at 10000 ms exactly the countdown
    shows 0); held at most 2000 ms, it shows no countdown, does not wipe
    and keeps the press stamp.  When D5 is low: no wipe, no countdown,
    and the press stamp is cleared.  So the iteration restarts exactly
    when D5 is high and held for more than 10000 ms. *)
Theorem factory_reset_hold cfg i s :
  d5_weather_mode cfg = false -> d5_btc_mode cfg = false ->
  g_isInConfigMode s = false ->
  save_served i s = false ->
  let held := held_for i s in
  (reset_btn_high i = true -> 10000 < held ->
   exists out, loop cfg i s = Restarted out /\
               count_occ Event_eq_dec out FormatFS = 1%nat) /\
  (reset_btn_high i = true -> 2000 < held <= 10000 ->
   exists s' out, loop cfg i s = Running s' out /\
                  In (CountdownScreen (10 - held / 1000)) out /\
                  (forall n, In (CountdownScreen n) out ->
                             n = 10 - held / 1000) /\
                  ~ In FormatFS out /\
                  btnPressStart (d5 s') = press_stamp i s) /\
  (reset_btn_high i = true -> held <= 2000 ->
   exists s' out, loop cfg i s = Running s' out /\
                  btnPressStart (d5 s') = press_stamp i s /\
                  ~ In FormatFS out /\
                  forall n, ~ In (CountdownScreen n) out) /\
  (reset_btn_high i = false ->
   exists s' out, loop cfg i s = Running s' out /\
                  btnPressStart (d5 s') = 0 /\
                  ~ In FormatFS out /\
                  forall n, ~ In (CountdownScreen n) out) /\
  ((exists out, loop cfg i s = Restarted out) <->
   reset_btn_high i = true /\ 10000 < held).
Proof.
  intros Hw Hb Hm Sv. cbv zeta.
  pose proof (loop_outputs cfg i s) as L.
  pose proof (before_d5_keeps_d5 cfg i s) as K. unfold keeps in K.
  destruct (before_alert_split cfg i s) as (V & S & O).
  rewrite (d5_button_is_factory_reset _ _ Hw Hb) in V, S, O.
  destruct (factory_reset_button_spec cfg i (state (before_d5 cfg i s)))
    as (A & B & C & D).
  rewrite (held_for_d5 _ _ _ K) in A, B, C.
  rewrite (press_stamp_d5 _ _ _ K) in B, C.
  rewrite (loop_not_served cfg i s Sv), Hm in *.
  assert (Quiet : forall n e,
            In e (output (before_d5 cfg i s))
            \/ In e (output (alert_logic cfg i (state (before_alert cfg i s)))) ->
            e <> CountdownScreen n).
  { intros n e [H|H].
    - exact (quiet_not_countdown _ n (before_d5_quiet cfg i s _ H)).
    - exact (quiet_not_countdown _ n (alert_logic_quiet cfg i _ _ H)). }
  assert (C1 : reset_btn_high i = true -> 10000 < held_for i s ->
               exists out, (if value (before_alert cfg i s)
                            then Restarted (output (before_alert cfg i s))
                            else Running
                                   (state (alert_logic cfg i
                                             (state (before_alert cfg i s))))
                                   (output (before_alert cfg i s)
                                    ++ output (alert_logic cfg i
                                                 (state (before_alert cfg i s)))))
                           = Restarted out /\
                           count_occ Event_eq_dec out FormatFS = 1%nat).
  { intros Hh H. destruct (A Hh H) as [V1 O1]. rewrite V, V1 in *.
    eexists. split; [reflexivity|].
    destruct L as [[X _] | (_ & pre & E & N & _)]; [congruence|].
    rewrite E, count_occ_app.
    rewrite (proj1 (count_occ_not_In Event_eq_dec pre FormatFS) N).
    reflexivity. }
  split; [exact C1|]. split; [|split; [|split]].
  - intros Hh H. destruct (B Hh H) as (V1 & O1 & P1 & _).
    rewrite V, V1 in *. eexists. eexists. split; [reflexivity|].
    split; [|split; [|split; [exact (proj1 L)|]]].
    + apply in_or_app. left. rewrite O, O1.
      apply in_or_app. right. left. reflexivity.
    + intros n H1. rewrite O, O1 in H1.
      apply in_app_or in H1. destruct H1 as [H1|H1];
        [apply in_app_or in H1; destruct H1 as [H1|H1]|].
      * exfalso. exact (Quiet n _ (or_introl H1) eq_refl).
      * destruct H1 as [E|[]]. injection E as <-. reflexivity.
      * exfalso. exact (Quiet n _ (or_intror H1) eq_refl).
    + rewrite (alert_logic_keeps_d5 cfg i), S. exact P1.
  - intros Hh H. destruct (C Hh H) as (V1 & O1 & P1).
    rewrite V, V1 in *. eexists. eexists. split; [reflexivity|].
    split; [|split; [exact (proj1 L)|]].
    + rewrite (alert_logic_keeps_d5 cfg i), S. exact P1.
    + intros n H1. rewrite O, O1, app_nil_r in H1.
      apply in_app_or in H1.
      exact (Quiet n _ H1 eq_refl).
  - intros Hh. destruct (D Hh) as (V1 & O1 & P1).
    rewrite V, V1 in *. eexists. eexists. split; [reflexivity|].
    split; [|split; [exact (proj1 L)|]].
    + rewrite (alert_logic_keeps_d5 cfg i), S. exact P1.
    + intros n H1. rewrite O, O1, app_nil_r in H1.
      apply in_app_or in H1.
      exact (Quiet n _ H1 eq_refl).
  - split.
    + intros [out R]. rewrite V in R.
      destruct (reset_btn_high i) eqn:Hh.
      * split; [reflexivity|].
        destruct (held_trichotomy (held_for i s)) as [H|[H|H]]; [exact H| |].
        -- destruct (B eq_refl H) as (V1 & _). rewrite V1 in R. discriminate R.
        -- destruct (C eq_refl H) as (V1 & _). rewrite V1 in R. discriminate R.
      * destruct (D eq_refl) as (V1 & _). rewrite V1 in R. discriminate R.
    + intros [Hh H]. destruct (C1 Hh H) as (out & R & _). exists out. exact R.
Qed.

(** The hold theorem 9 s into a hold. *)
Lemma factory_reset_hold_witness :
  let cfg := configure 0 false 0 false false 5000 0 0 0 in
  let s := set_btnPressStart 7000 (booted cfg 6000) in
  let i := sample 16000 false true in
  2000 < held_for i s <= 10000 /\
  exists s' out, loop cfg i s = Running s' out /\ In (CountdownScreen 1) out.
Proof.
  intros cfg s i. split; [cbv; split; [reflexivity | discriminate]|].
  destruct (proj1 (proj2 (factory_reset_hold cfg i s eq_refl eq_refl eq_refl
                            eq_refl))
              eq_refl) as (s' & out & L & C & _).
  - cbv. split; [reflexivity | discriminate].
  - exists s', out. split; [exact L | exact C].
Defined.

(** C7 (as stated) fails at the 10 s mark.  D5 is held from the press
    stamp 7000: at 17000, 10000 ms into the hold, the iteration shows the
    countdown 0 and does not reset; the wipe and restart come with the
    first iteration after that. *)
Lemma factory_reset_not_yet_at_ten_seconds :
  let cfg := configure 0 false 0 false false 5000 0 0 0 in
  let hold :=
    [sample 7000 false true; sample 10000 false true;
     sample 16000 false true; sample 17000 false true] in
  events (run cfg hold (booted cfg 6000))
  = [CountdownScreen 7; CountdownScreen 1; CountdownScreen 0] /\
  final_state (run cfg hold (booted cfg 6000)) <> None /\
  run cfg (hold ++ [sample 17001 false true]) (booted cfg 6000)
  = Restarted [CountdownScreen 7; CountdownScreen 1; CountdownScreen 0;
               ResettingScreen; FormatFS; WiFiDisconnect; EspRestart].
Proof. cbv. repeat split. discriminate. Qed.

(** Read the fields of a state through the field updates. *)
Ltac fields :=
  cbv [price weather screen d5 alert g_isInConfigMode g_wifiConnected
       lastWiFiCheck lastTouchTime
       g_currentPrice g_priceChange24h g_hasValidData g_dataStale
       g_lastPollTime g_lastSuccessTime g_currentProvider
       g_consecutiveFailures
       g_weather g_hasWeatherData g_weatherStale g_lastWeatherPoll
       g_lastWeatherSuccess
       temperature humidity rainChance windSpeed windGusts
       g_currentScreen g_lastScreenSwitch screenBtnPressStart screenBtnHandled
       btnPressStart d5WeatherShowing d5BtcShowing d5BtcReleaseTime
       d5WeatherReleaseTime
       g_alertStartTime lastBlinkTime blinkState ledCleanedUp sosStep
       upd_price upd_weather upd_screen upd_d5 upd_alert
       set_g_wifiConnected set_lastWiFiCheck set_lastTouchTime
       store_price set_g_dataStale set_g_lastPollTime set_g_currentProvider
       set_g_consecutiveFailures store_weather set_g_weatherStale
       set_g_lastWeatherPoll set_g_currentScreen set_g_lastScreenSwitch
       set_screenBtnPressStart set_screenBtnHandled set_btnPressStart
       set_d5WeatherShowing set_d5BtcShowing set_d5BtcReleaseTime
       set_d5WeatherReleaseTime set_g_alertStartTime set_lastBlinkTime
       set_blinkState set_ledCleanedUp set_sosStep].

(** * Further properties of the code *)

(** ** What a call of [fetchPrice] leaves *)

(** One online call of [fetchPrice]: the first provider of the order that
    answers becomes current, with the data flag set, the stale flag
    cleared, the failure counter reset and the success stamped; if none
    answers, the price, the flags and the stamp stay, the failure counter
    is incremented modulo 256 and the last provider tried is current. *)
Theorem fetchPrice_outcome cfg f s :
  g_wifiConnected s = true ->
  let p' := price (state (fetchPrice cfg f s)) in
  match find (answers f) (provider_order (api_source cfg)) with
  | Some p =>
      g_hasValidData p' = true /\ g_dataStale p' = false /\
      g_consecutiveFailures p' = 0 /\
      g_lastSuccessTime p' = fetched_at f /\
      g_currentProvider p' = p
  | None =>
      g_currentPrice p' = g_currentPrice (price s) /\
      g_priceChange24h p' = g_priceChange24h (price s) /\
      g_hasValidData p' = g_hasValidData (price s) /\
      g_dataStale p' = g_dataStale (price s) /\
      g_lastSuccessTime p' = g_lastSuccessTime (price s) /\
      g_consecutiveFailures p'
      = (g_consecutiveFailures (price s) + 1) mod 256 /\
      g_currentProvider p' = last (provider_order (api_source cfg)) 0
  end.
Proof.
  intro H. cbv zeta.
  unfold fetchPrice, provider_order, preferred. rewrite api_source_switch.
  rewrite bind_get, H. cbn [negb].
  destruct f as [b c cb k t].
  destruct b as [[? ?]|], c as [[? ?]|], cb as [?|], k as [[? ?]|];
  destruct (api_source cfg =? 1); try (cbn; repeat split; reflexivity);
  destruct (api_source cfg =? 2); try (cbn; repeat split; reflexivity);
  destruct (api_source cfg =? 3); try (cbn; repeat split; reflexivity);
  destruct (api_source cfg =? 4); cbn; repeat split; reflexivity.
Qed.

(** The fetch outcome theorem with Binance down and CoinGecko answering. *)
Lemma fetchPrice_outcome_witness :
  let f := {| binance := None; coingecko := Some (50000, 1); coinbase := None;
              kraken := None; fetched_at := 9000 |}%Q in
  let s := set_g_wifiConnected true boot_state in
  g_wifiConnected s = true /\
  g_currentProvider (price (state (fetchPrice default_config f s))) = 1 /\
  g_lastSuccessTime (price (state (fetchPrice default_config f s))) = 9000.
Proof.
  intros f s. split; [reflexivity|].
  pose proof (fetchPrice_outcome default_config f s eq_refl) as H.
  cbv zeta in H. change (find (answers f) (provider_order (api_source default_config)))
    with (Some 1) in H.
  destruct H as (_ & _ & _ & T & P). split; [exact P | exact T].
Defined.

(** ** Invariants of the iteration *)

Lemma carries_refl (P : State -> Prop) s : carries P s s.
Proof. exact (fun H => H). Qed.

Lemma carries_trans (P : State -> Prop) a b c :
  carries P a b -> carries P b c -> carries P a c.
Proof. unfold carries. auto. Qed.

Lemma sos_next_range step : 0 <= sos_next step <= 17.
Proof.
  unfold sos_next, wrap8.
  pose proof (Z.mod_pos_bound (step + 1) 256 ltac:(lia)).
  destruct (17 <? (step + 1) mod 256) eqn:E; [lia|].
  apply Z.ltb_ge in E. lia.
Qed.

Ltac screen_leaf :=
  unfold carries, screen_valid;
  cbn [screen g_currentScreen set_g_wifiConnected set_lastWiFiCheck
       set_lastTouchTime upd_price upd_weather upd_screen upd_d5 upd_alert
       store_price set_g_dataStale set_g_lastPollTime set_g_currentProvider
       set_g_consecutiveFailures store_weather set_g_weatherStale
       set_g_lastWeatherPoll set_g_currentScreen set_g_lastScreenSwitch
       set_screenBtnPressStart set_screenBtnHandled set_btnPressStart
       set_d5WeatherShowing set_d5BtcShowing set_d5BtcReleaseTime
       set_d5WeatherReleaseTime set_g_alertStartTime set_lastBlinkTime
       set_blinkState set_ledCleanedUp set_sosStep];
  intro;
  first [ assumption | left; reflexivity | right; reflexivity
        | match goal with
          | |- ?a mod 2 = 0 \/ _ =>
              pose proof (Z.mod_pos_bound a 2 ltac:(lia)); lia
          end ].

Lemma before_alert_screen_valid cfg i :
  preserves (carries screen_valid) (before_alert cfg i).
Proof.
  unfold before_alert.
  stage_frame ltac:(intro; apply carries_refl) ltac:(apply carries_trans)
              ltac:(screen_leaf).
Qed.

Ltac sos_leaf :=
  unfold carries, sos_valid;
  cbn [alert sosStep set_g_wifiConnected set_lastWiFiCheck
       set_lastTouchTime upd_price upd_weather upd_screen upd_d5 upd_alert
       store_price set_g_dataStale set_g_lastPollTime set_g_currentProvider
       set_g_consecutiveFailures store_weather set_g_weatherStale
       set_g_lastWeatherPoll set_g_currentScreen set_g_lastScreenSwitch
       set_screenBtnPressStart set_screenBtnHandled set_btnPressStart
       set_d5WeatherShowing set_d5BtcShowing set_d5BtcReleaseTime
       set_d5WeatherReleaseTime set_g_alertStartTime set_lastBlinkTime
       set_blinkState set_ledCleanedUp set_sosStep];
  intro; first [ assumption | lia | apply sos_next_range ].

Lemma alert_logic_sos_valid cfg i :
  preserves (carries sos_valid) (alert_logic cfg i).
Proof.
  stage_frame ltac:(intro; apply carries_refl) ltac:(apply carries_trans)
              ltac:(sos_leaf).
Qed.

Theorem loop_keeps_state_valid cfg i s s' out :
  loop cfg i s = Running s' out ->
  screen_valid s /\ sos_valid s -> screen_valid s' /\ sos_valid s'.
Proof.
  intros H [Hs Ha].
  destruct (g_isInConfigMode s) eqn:Hm.
  - apply loop_config_mode in H; [|exact Hm].
    destruct H as [<- _]. split; assumption.
  - destruct (loop_running _ _ _ _ _ H Hm) as (_ & -> & _). split.
    + unfold screen_valid. rewrite (alert_logic_keeps_screen cfg i).
      apply (before_alert_screen_valid cfg i s Hs).
    + apply (alert_logic_sos_valid cfg i). unfold sos_valid.
      rewrite (before_alert_keeps_alert cfg i). exact Ha.
Qed.

(** Every state of a run that starts valid is valid. *)
Theorem run_states_valid cfg ins s :
  screen_valid s /\ sos_valid s ->
  Forall (fun s' => screen_valid s' /\ sos_valid s') (states_along cfg ins s).
Proof.
  revert s. induction ins as [|i rest IH]; intros s V; [constructor|].
  cbn [states_along].
  pose proof (loop_keeps_state_valid cfg i s) as K.
  destruct (loop cfg i s) as [s' out|out]; [|constructor].
  specialize (K s' out eq_refl V). constructor; [exact K | apply IH; exact K].
Qed.

(** The run invariant from the boot state. *)
Lemma run_states_valid_witness :
  screen_valid boot_state /\ sos_valid boot_state /\
  Forall (fun s' => screen_valid s' /\ sos_valid s')
         (states_along default_config [idle 7000; sample 8000 true true]
            boot_state).
Proof.
  assert (V : screen_valid boot_state /\ sos_valid boot_state).
  { split; [left; reflexivity | cbv; split; discriminate]. }
  split; [exact (proj1 V)|]. split; [exact (proj2 V)|].
  exact (run_states_valid default_config _ boot_state V).
Defined.

(** ** Screen cycling *)

Lemma refreshCurrentScreen_state s : state (refreshCurrentScreen s) = s.
Proof.
  unfold refreshCurrentScreen. rewrite bind_get.
  destruct (g_currentScreen (screen s) =? 0); reflexivity.
Qed.

Lemma auto_cycle_spec cfg i s :
  weather_enabled cfg = true -> button_mode cfg = 0 ->
  let r := auto_cycle cfg i s in
  g_currentScreen (screen (state r))
  = (if cycle_due cfg i s then (g_currentScreen (screen s) + 1) mod 2
     else g_currentScreen (screen s)) /\
  g_lastScreenSwitch (screen (state r))
  = (if cycle_due cfg i s then currentMillis i
     else g_lastScreenSwitch (screen s)) /\
  screenBtnPressStart (screen (state r)) = screenBtnPressStart (screen s) /\
  screenBtnHandled (screen (state r)) = screenBtnHandled (screen s).
Proof.
  intros Hw Hm. cbv zeta. unfold auto_cycle, cycle_due. rewrite Hw, Hm.
  cbn [andb Z.eqb when]. rewrite bind_get.
  destruct (_ <=? _); cbn [when]; mstep;
    rewrite ?refreshCurrentScreen_state; repeat split.
Qed.

Lemma on_demand_return_spec cfg i s :
  weather_enabled cfg = true -> button_mode cfg = 2 ->
  let r := on_demand_return cfg i s in
  g_currentScreen (screen (state r))
  = (if demand_over cfg i s then 0 else g_currentScreen (screen s)) /\
  g_lastScreenSwitch (screen (state r))
  = (if demand_over cfg i s then currentMillis i
     else g_lastScreenSwitch (screen s)) /\
  screenBtnPressStart (screen (state r)) = screenBtnPressStart (screen s) /\
  screenBtnHandled (screen (state r)) = screenBtnHandled (screen s).
Proof.
  intros Hw Hm. cbv zeta. unfold on_demand_return, demand_over.
  rewrite bind_get, Hw, Hm. cbn [andb Z.eqb].
  destruct (_ && _); cbn [when]; mstep; repeat split.
Qed.

(** The D6 stage when no short press completes, in every mode: the active
    screen and its timer are not written and nothing is drawn. *)
Lemma screen_button_no_press cfg i s :
  short_press_released i s = false ->
  g_currentScreen (screen (state (screen_button cfg i s)))
  = g_currentScreen (screen s) /\
  g_lastScreenSwitch (screen (state (screen_button cfg i s)))
  = g_lastScreenSwitch (screen s) /\
  output (screen_button cfg i s) = [].
Proof.
  unfold screen_button, short_press_released. rewrite bind_get.
  destruct (screen_btn_low i), (screenBtnPressStart (screen s) =? 0),
    (0 <? screenBtnPressStart (screen s)), (screenBtnHandled (screen s)),
    (50 <? sub32 (currentMillis i) (screenBtnPressStart (screen s))),
    (sub32 (currentMillis i) (screenBtnPressStart (screen s)) <? 1000);
    cbn; intro H; try discriminate H; repeat split.
Qed.

Lemma short_press_released_fields i s1 s :
  screenBtnPressStart (screen s1) = screenBtnPressStart (screen s) ->
  screenBtnHandled (screen s1) = screenBtnHandled (screen s) ->
  short_press_released i s1 = short_press_released i s.
Proof. unfold short_press_released. intros -> ->. reflexivity. Qed.

Lemma cycle_due_screen cfg i s1 s :
  screen s1 = screen s -> cycle_due cfg i s1 = cycle_due cfg i s.
Proof. unfold cycle_due. intros ->. reflexivity. Qed.

(** Auto-cycle mode (0) without a D5 role and without a completed D6
    press: the screen flips exactly when the visible time of the active
    screen has passed, and the switch is then stamped with the current
    time. *)
Theorem auto_cycle_mode_flips cfg i s s' out :
  weather_enabled cfg = true -> button_mode cfg = 0 ->
  d5_weather_mode cfg = false -> d5_btc_mode cfg = false ->
  g_isInConfigMode s = false ->
  short_press_released i s = false ->
  loop cfg i s = Running s' out ->
  g_currentScreen (screen s')
  = (if cycle_due cfg i s then (g_currentScreen (screen s) + 1) mod 2
     else g_currentScreen (screen s)) /\
  g_lastScreenSwitch (screen s')
  = (if cycle_due cfg i s then currentMillis i
     else g_lastScreenSwitch (screen s)).
Proof.
  intros Hx Hmode Hw Hb Hm P H.
  destruct (loop_running _ _ _ _ _ H Hm) as (_ & -> & _).
  rewrite (alert_logic_keeps_screen cfg i).
  rewrite (before_alert_screen cfg i s Hw Hb).
  rewrite (on_demand_return_off cfg i) by (rewrite Hmode; apply andb_false_r).
  cbn [state fst snd].
  destruct (auto_cycle_spec cfg i (after_polls cfg i s) Hx Hmode)
    as (C1 & C2 & C3 & C4).
  rewrite (cycle_due_screen _ _ _ _ (after_polls_screen cfg i s)) in C1, C2.
  rewrite !after_polls_screen in C1, C2, C3, C4.
  destruct (screen_button_no_press cfg i
              (state (auto_cycle cfg i (after_polls cfg i s)))) as (B1 & B2 & _).
  { rewrite (short_press_released_fields _ _ s C3 C4). exact P. }
  rewrite B1, B2, C1, C2. split; reflexivity.
Qed.

(** The flip theorem on the documented defaults: BTC for 120 s, weather for
    10 s. *)
Lemma auto_cycle_mode_flips_witness :
  let cfg := configure 0 true 0 false false 5000 0 0 0 in
  map (fun s => g_currentScreen (screen s))
      (states_along cfg [idle 119990; idle 120000; idle 129990; idle 130000]
         (booted cfg 0))
  = [0; 1; 1; 0] /\
  exists s' out,
    loop cfg (idle 120000) (booted cfg 0) = Running s' out /\
    g_currentScreen (screen s') = 1 /\ g_lastScreenSwitch (screen s') = 120000.
Proof.
  intro cfg. split; [cbv; reflexivity|]. eexists. eexists.
  refine (let L := _ in
          conj L (auto_cycle_mode_flips cfg (idle 120000) (booted cfg 0) _ _
                    eq_refl eq_refl eq_refl eq_refl eq_refl eq_refl L)).
  cbv. reflexivity.
Defined.

(** The D6 stage on a completed short press in the two modes that force
    the weather screen. *)
Lemma screen_button_forces_weather cfg i s :
  weather_enabled cfg = true -> button_mode cfg = 1 \/ button_mode cfg = 2 ->
  short_press_released i s = true ->
  g_currentScreen (screen (state (screen_button cfg i s))) = 1 /\
  g_lastScreenSwitch (screen (state (screen_button cfg i s))) = currentMillis i /\
  output (screen_button cfg i s) = [DrawWeatherScreen].
Proof.
  intros Hw Hm. unfold screen_button, short_press_released.
  rewrite bind_get, Hw.
  destruct Hm as [Hm|Hm]; rewrite Hm;
  destruct (screen_btn_low i), (screenBtnPressStart (screen s) =? 0),
    (0 <? screenBtnPressStart (screen s)), (screenBtnHandled (screen s)),
    (50 <? sub32 (currentMillis i) (screenBtnPressStart (screen s))),
    (sub32 (currentMillis i) (screenBtnPressStart (screen s)) <? 1000);
    cbn; intro H; try discriminate H; repeat split.
Qed.

Lemma demand_over_screen cfg i s1 s :
  screen s1 = screen s -> demand_over cfg i s1 = demand_over cfg i s.
Proof. unfold demand_over. intros ->. reflexivity. Qed.

(** On-demand mode (2) without a D5 role: a completed short press on D6
    shows weather and stamps the switch; without one the weather screen
    returns to BTC once its visible time has passed. *)
Theorem on_demand_mode_screen cfg i s s' out :
  weather_enabled cfg = true -> button_mode cfg = 2 ->
  d5_weather_mode cfg = false -> d5_btc_mode cfg = false ->
  g_isInConfigMode s = false ->
  loop cfg i s = Running s' out ->
  (short_press_released i s = true ->
   g_currentScreen (screen s') = 1 /\
   g_lastScreenSwitch (screen s') = currentMillis i) /\
  (short_press_released i s = false ->
   g_currentScreen (screen s')
   = (if demand_over cfg i s then 0 else g_currentScreen (screen s)) /\
   g_lastScreenSwitch (screen s')
   = (if demand_over cfg i s then currentMillis i
      else g_lastScreenSwitch (screen s))).
Proof.
  intros Hx Hmode Hw Hb Hm H.
  destruct (loop_running _ _ _ _ _ H Hm) as (_ & -> & _).
  rewrite (alert_logic_keeps_screen cfg i).
  rewrite (before_alert_screen cfg i s Hw Hb).
  rewrite (auto_cycle_off cfg i) by (rewrite Hmode; apply andb_false_r).
  cbn [state fst snd].
  destruct (on_demand_return_spec cfg i (after_polls cfg i s) Hx Hmode)
    as (C1 & C2 & C3 & C4).
  rewrite (demand_over_screen _ _ _ _ (after_polls_screen cfg i s)) in C1, C2.
  rewrite !after_polls_screen in C1, C2, C3, C4.
  set (t := state (on_demand_return cfg i (after_polls cfg i s))) in *.
  assert (E : short_press_released i t = short_press_released i s)
    by (apply short_press_released_fields; assumption).
  split; intro P.
  - destruct (screen_button_forces_weather cfg i t Hx (or_intror Hmode))
      as (B1 & B2 & _); [rewrite E; exact P|].
    split; assumption.
  - destruct (screen_button_no_press cfg i t) as (B1 & B2 & _);
      [rewrite E; exact P|].
    rewrite B1, B2, C1, C2. split; reflexivity.
Qed.

(** The on-demand theorem where the weather screen has been up for its
    visible time. *)
Lemma on_demand_mode_screen_witness :
  let cfg := configure 0 true 2 false false 5000 0 0 0 in
  let s := set_g_currentScreen 1 (booted cfg 1000) in
  demand_over cfg (idle 11000) s = true /\
  exists s' out,
    loop cfg (idle 11000) s = Running s' out /\ g_currentScreen (screen s') = 0.
Proof.
  intros cfg s. split; [reflexivity|]. eexists. eexists.
  refine (let L := _ in
          conj L (proj1 (proj2 (on_demand_mode_screen cfg (idle 11000) s _ _
                    eq_refl eq_refl eq_refl eq_refl eq_refl L) eq_refl))).
  cbv. reflexivity.
Defined.

(** ** The alert outputs *)

(** An iteration in which the alert is off: the display is visible and
    the LED latch is set afterwards; the screen is redrawn only if the
    blink had left it blank, and the LED is written (to its off level)
    only if the latch was open and the mode drives the LED. *)
Theorem alert_logic_idle cfg i s :
  value (alert_duration_gate cfg i s) = false ->
  let r := alert_logic cfg i s in
  blinkState (alert (state r)) = true /\
  ledCleanedUp (alert (state r)) = true /\
  output r
  = (if blinkState (alert s) then [] else [refresh_event s])
    ++ (if ledCleanedUp (alert s) then []
        else if drives_led cfg
             then [DigitalWrite (led_pin cfg) (led_inverted cfg)] else []).
Proof.
  intro V. cbv zeta.
  rewrite (alert_logic_step cfg i s V _ eq_refl).
  destruct (alert_duration_gate_spec cfg i s)
    as (_ & _ & _ & B & L & _ & _ & Sc & _).
  set (t := state (alert_duration_gate cfg i s)) in *.
  unfold refresh_event. rewrite <- B, <- L, <- Sc. clearbody t.
  rewrite bind_get.
  unfold refreshCurrentScreen, pinLevel.
  destruct (blinkState (alert t)) eqn:Eb, (ledCleanedUp (alert t)) eqn:El,
    (drives_led cfg), (led_inverted cfg), (g_currentScreen (screen t) =? 0) eqn:Es;
    cbn [negb when]; mstep;
    cbn [alert blinkState ledCleanedUp set_blinkState set_ledCleanedUp
         upd_alert screen g_currentScreen negb when];
    rewrite ?Es, ?El; cbn [negb when]; mstep;
    cbv [when ret modify emit bind get negb value state output fst snd app];
    cbn [alert blinkState ledCleanedUp set_blinkState set_ledCleanedUp
         upd_alert screen g_currentScreen];
    rewrite ?Es, ?El, ?Eb; repeat split; cbn; rewrite ?Es, ?El, ?Eb;
    reflexivity.
Qed.

(** The idle theorem right after an alert with the LED driven. *)
Lemma alert_logic_idle_witness :
  let cfg := {| api_source := 0; poll_interval := 60000; alert_low := 0;
                alert_high := 0; blink_pattern_low := 0;
                blink_pattern_high := 1; weather_enabled := false;
                weather_poll := 1800000; btc_cycle := 120000;
                weather_cycle := 10000; button_mode := 0; alert_mode := 2;
                led_pin := 2; led_inverted := true; alert_duration := 0;
                touch_enabled := false; d5_weather_mode := false;
                d5_btc_mode := false; d5_timeout := 5000 |} in
  let s := set_ledCleanedUp false (set_blinkState false boot_state) in
  value (alert_duration_gate cfg (idle 9000) s) = false /\
  output (alert_logic cfg (idle 9000) s) = [UpdateDisplay; DigitalWrite 2 true].
Proof.
  intros cfg s. split; [reflexivity|].
  exact (proj2 (proj2 (alert_logic_idle cfg (idle 9000) s eq_refl))).
Defined.

(** An iteration in which the alert is on with one of the plain patterns:
    the visibility toggles when the pattern's interval (250 ms for Fast,
    50 ms for Strobe, 1000 ms for any other value) has passed since the
    last toggle; the display shows the BTC screen or blank by the
    visibility, whatever the active screen, and the LED pin is driven to
    the visibility corrected by the polarity; the LED latch is opened. *)
Theorem alert_logic_standard_blink cfg i s :
  value (alert_duration_gate cfg i s) = true ->
  active_pattern cfg s <> 3 ->
  let r := alert_logic cfg i s in
  let due := blink_interval (active_pattern cfg s)
               <=? sub32 (currentMillis i) (lastBlinkTime (alert s)) in
  let visible :=
    if due then negb (blinkState (alert s)) else blinkState (alert s) in
  blinkState (alert (state r)) = visible /\
  lastBlinkTime (alert (state r))
  = (if due then currentMillis i else lastBlinkTime (alert s)) /\
  ledCleanedUp (alert (state r)) = false /\
  output r
  = (if drives_display cfg
     then [if visible then UpdateDisplay else BlankDisplay] else [])
    ++ (if drives_led cfg
        then [DigitalWrite (led_pin cfg) (xorb visible (led_inverted cfg))]
        else []).
Proof.
  intros V P3. cbv zeta.
  rewrite (alert_logic_active_step cfg i s V _ eq_refl).
  destruct (alert_duration_gate_spec cfg i s)
    as (_ & _ & T & B & _ & _ & Pr & _ & _).
  set (t := state (alert_duration_gate cfg i s)) in *.
  rewrite <- (active_pattern_price cfg t s Pr) in *.
  rewrite <- T, <- B. clearbody t.
  rewrite bind_modify, bind_get.
  rewrite (active_pattern_price cfg (set_ledCleanedUp false t) t eq_refl).
  apply Z.eqb_neq in P3. rewrite P3.
  unfold standard_blink, pinLevel. rewrite bind_assoc, bind_get.
  cbn [alert lastBlinkTime blinkState set_ledCleanedUp upd_alert].
  destruct (blink_interval (active_pattern cfg t)
              <=? sub32 (currentMillis i) (lastBlinkTime (alert t)));
    destruct (blinkState (alert t)) eqn:Eb, (drives_display cfg),
      (drives_led cfg), (led_inverted cfg);
    cbv [when ret modify emit bind get negb value state output fst snd app xorb];
    cbn; rewrite ?Eb; repeat split; first [reflexivity | exact Eb].
Qed.

(** The blink theorem on the Fast pattern with display and LED driven. *)
Lemma alert_logic_standard_blink_witness :
  let cfg := {| api_source := 0; poll_interval := 60000; alert_low := 0;
                alert_high := 50; blink_pattern_low := 0;
                blink_pattern_high := 1; weather_enabled := false;
                weather_poll := 1800000; btc_cycle := 120000;
                weather_cycle := 10000; button_mode := 0; alert_mode := 2;
                led_pin := 2; led_inverted := true; alert_duration := 0;
                touch_enabled := false; d5_weather_mode := false;
                d5_btc_mode := false; d5_timeout := 5000 |} in
  let s := set_lastBlinkTime 9000 (booted_priced cfg 6000 75) in
  value (alert_duration_gate cfg (idle 9250) s) = true /\
  active_pattern cfg s <> 3 /\
  output (alert_logic cfg (idle 9250) s) = [BlankDisplay; DigitalWrite 2 true].
Proof.
  intros cfg s. split; [reflexivity|]. split; [discriminate|].
  refine (proj2 (proj2 (proj2
            (alert_logic_standard_blink cfg (idle 9250) s eq_refl _)))).
  discriminate.
Defined.

(** ** What an iteration leaves alone *)

Lemma wifi_check_skipped cfg i s :
  wifi_check_due i s = false -> wifi_check cfg i s = (tt, s, []).
Proof.
  unfold wifi_check, wifi_check_due. rewrite bind_get. intros ->. reflexivity.
Qed.

(** An iteration in which neither the 30 s WiFi check nor the price poll
    is due leaves the whole price state as it was: value, change, flags,
    provider, failure counter and both timers. *)
Theorem price_state_untouched_between_polls cfg i s s' out :
  wifi_check_due i s = false -> poll_due cfg i s = false ->
  loop cfg i s = Running s' out ->
  price s' = price s.
Proof.
  intros W P H.
  destruct (g_isInConfigMode s) eqn:Hm.
  - apply loop_config_mode in H; [|exact Hm].
    destruct H as [<- _]. reflexivity.
  - rewrite (loop_price _ _ _ _ _ H Hm).
    rewrite (wifi_check_skipped cfg i s W). cbn [state fst snd].
    rewrite (poll_price_skipped cfg i s P). reflexivity.
Qed.

Lemma price_state_untouched_witness :
  let cfg := default_config in
  let s := booted_priced cfg 6000 50000 in
  wifi_check_due (sample_priced 7000 60000) s = false /\
  poll_due cfg (sample_priced 7000 60000) s = false /\
  exists s' out,
    loop cfg (sample_priced 7000 60000) s = Running s' out /\
    g_currentPrice (price s') = 50000%Q.
Proof.
  intros cfg s. split; [reflexivity|]. split; [reflexivity|].
  eexists. eexists.
  refine (let L := _ in
          conj L (f_equal g_currentPrice
                    (price_state_untouched_between_polls cfg
                       (sample_priced 7000 60000) s _ _ eq_refl eq_refl L))).
  cbv. reflexivity.
Defined.

(** ** Weather acquisition *)

Lemma max_rain_fold acc l :
  acc <= fold_left (fun a prob => if a <? prob then prob else a) l acc /\
  (forall x, In x l ->
     x <= fold_left (fun a prob => if a <? prob then prob else a) l acc) /\
  (fold_left (fun a prob => if a <? prob then prob else a) l acc = acc \/
   In (fold_left (fun a prob => if a <? prob then prob else a) l acc) l).
Proof.
  revert acc. induction l as [|y l IH]; intro acc; cbn [fold_left].
  - split; [lia|]. split; [intros x []|left; reflexivity].
  - set (acc' := if acc <? y then y else acc).
    assert (A : acc <= acc' /\ y <= acc' /\ (acc' = acc \/ acc' = y)).
    { unfold acc'. destruct (acc <? y) eqn:E;
        [apply Z.ltb_lt in E | apply Z.ltb_ge in E]; lia. }
    destruct (IH acc') as (I1 & I2 & I3).
    split; [lia|]. split.
    + intros x [<-|Hx]; [lia | apply I2; exact Hx].
    + destruct I3 as [I3|I3]; [|right; right; exact I3].
      rewrite I3. destruct A as (_ & _ & [A|A]); [left; exact A|].
      right. left. symmetry. exact A.
Qed.

(** The rain chance is the largest of the first three hourly
    probabilities, and 0 when there are none or none is positive; later
    hours are not read. *)
Theorem max_rain_is_the_maximum precip :
  0 <= max_rain precip /\
  (forall x, In x (firstn 3 precip) -> x <= max_rain precip) /\
  (max_rain precip = 0 \/ In (max_rain precip) (firstn 3 precip)) /\
  max_rain precip = max_rain (firstn 3 precip).
Proof.
  unfold max_rain. destruct (max_rain_fold 0 (firstn 3 precip)) as (A & B & C).
  split; [exact A|]. split; [exact B|]. split; [exact C|].
  rewrite firstn_firstn. reflexivity.
Qed.

(** One call of [fetchWeather].  Offline or with the feature off it does
    nothing.  Otherwise Open-Meteo is asked first and BrightSky only when
    it fails; a success stores the whole reading: temperature, humidity,
    wind speed and gusts as answered, the rain chance as the maximum of
    the first three hourly probabilities for Open-Meteo and 0 for
    BrightSky; it sets the data flag, clears the stale flag and stamps the
    success; when both fail the reading is kept and the stale flag is
    raised only if a reading exists. *)
Theorem fetchWeather_outcome cfg f s :
  (g_wifiConnected s = false \/ weather_enabled cfg = false ->
   fetchWeather cfg f s = (tt, s, [])) /\
  (g_wifiConnected s = true -> weather_enabled cfg = true ->
   let r := fetchWeather cfg f s in
   let w' := weather (state r) in
   match open_meteo f, brightsky f with
   | Some a, _ =>
       output r = [WeatherTrying 0] /\
       g_hasWeatherData w' = true /\ g_weatherStale w' = false /\
       g_lastWeatherSuccess w' = weather_fetched_at f /\
       g_weather w'
       = {| temperature := om_temperature a; humidity := om_humidity a;
            rainChance := max_rain (om_precipitation a);
            windSpeed := om_wind_speed a; windGusts := om_wind_gusts a |}
   | None, Some b =>
       output r = [WeatherTrying 0; WeatherTrying 1] /\
       g_hasWeatherData w' = true /\ g_weatherStale w' = false /\
       g_lastWeatherSuccess w' = weather_fetched_at f /\
       g_weather w'
       = {| temperature := bs_temperature b; humidity := bs_humidity b;
            rainChance := 0;
            windSpeed := bs_wind_speed b; windGusts := bs_wind_gust b |}
   | None, None =>
       output r = [WeatherTrying 0; WeatherTrying 1] /\
       g_weather w' = g_weather (weather s) /\
       g_hasWeatherData w' = g_hasWeatherData (weather s) /\
       g_lastWeatherSuccess w' = g_lastWeatherSuccess (weather s) /\
       g_weatherStale w'
       = (g_hasWeatherData (weather s) || g_weatherStale (weather s))
   end).
Proof.
  split.
  - intro H. unfold fetchWeather. rewrite bind_get.
    destruct H as [-> | ->]; [reflexivity|].
    rewrite orb_true_r. reflexivity.
  - intros Hw He. cbv zeta. unfold fetchWeather. rewrite bind_get, Hw, He.
    cbn [negb orb].
    unfold fetchWeatherOpenMeteo, fetchWeatherBrightSky.
    destruct (open_meteo f) as [a|]; [|destruct (brightsky f) as [b|]].
    + cbv [when ret modify emit bind get negb value state output fst snd app].
      repeat split.
    + cbv [when ret modify emit bind get negb value state output fst snd app].
      repeat split.
    + destruct (g_hasWeatherData (weather s)) eqn:Eh;
      cbv [when ret modify emit bind get negb value state output fst snd app];
      repeat split; fields;
      destruct s as [? ? ? ? ? [? h ? ? ?] ? ? ?]; cbv in Eh; subst h;
      reflexivity.
Qed.

(** The weather outcome with Open-Meteo down and BrightSky answering. *)
Lemma fetchWeather_outcome_witness :
  let cfg := configure 0 true 0 false false 5000 0 0 0 in
  let f := {| open_meteo := None;
              brightsky := Some {| bs_temperature := 12; bs_humidity := 80;
                                   bs_wind_speed := 5; bs_wind_gust := 9 |};
              weather_fetched_at := 7000 |}%Q in
  let s := booted cfg 6000 in
  g_wifiConnected s = true /\ weather_enabled cfg = true /\
  output (fetchWeather cfg f s) = [WeatherTrying 0; WeatherTrying 1] /\
  g_lastWeatherSuccess (weather (state (fetchWeather cfg f s))) = 7000.
Proof.
  intros cfg f s. split; [reflexivity|]. split; [reflexivity|].
  destruct (proj2 (fetchWeather_outcome cfg f s) eq_refl eq_refl)
    as (O & _ & _ & T & _).
  split; [exact O | exact T].
Defined.



(** ** The D5 screen roles *)

Lemma screen_button_manual cfg i s :
  button_mode cfg = 3 ->
  g_currentScreen (screen (state (screen_button cfg i s)))
  = g_currentScreen (screen s).
Proof.
  intro Hm.
  assert (K : preserves (keeps (fun t => g_currentScreen (screen t)))
                        (screen_button cfg i)).
  { unfold screen_button. rewrite Hm. cbn [Z.eqb Pos.eqb]. keeps_stage. }
  exact (K s).
Qed.

Lemma before_d5_current_screen cfg i s :
  button_mode cfg = 3 ->
  g_currentScreen (screen (state (before_d5 cfg i s)))
  = g_currentScreen (screen s).
Proof.
  intro Hm. unfold before_d5. rewrite !state_bind.
  rewrite (touch_polling_keeps_screen cfg i).
  rewrite (screen_button_manual cfg i _ Hm).
  rewrite (on_demand_return_off cfg i) by (rewrite Hm; apply andb_false_r).
  cbn [state fst snd].
  rewrite (auto_cycle_off cfg i) by (rewrite Hm; apply andb_false_r).
  cbn [state fst snd].
  fold (after_polls cfg i s). rewrite after_polls_screen. reflexivity.
Qed.

(** With a D5 screen role the D5 stage never asks for the restart. *)
Lemma d5_role_keeps_running cfg i s :
  d5_weather_mode cfg = true \/ d5_btc_mode cfg = true ->
  value (before_alert cfg i s) = false.
Proof.
  intro H. rewrite (proj1 (before_alert_split cfg i s)). unfold d5_button.
  destruct (d5_btc_mode cfg); [reflexivity|].
  destruct H as [-> | H]; [reflexivity | discriminate H].
Qed.

Lemma save_sequence_no_wipe cfg i : ~ In FormatFS (save_sequence cfg i).
Proof.
  unfold save_sequence. destruct (client_request i); cbn;
    [tauto | intros [H|[H|[]]]; discriminate H].
Qed.

(** With a D5 screen role configured the factory reset is off: no
    iteration wipes the flash, however long D5 is held, and an iteration
    restarts only to apply a served settings request. *)
Theorem d5_role_disables_factory_reset cfg i s :
  d5_weather_mode cfg = true \/ d5_btc_mode cfg = true ->
  ~ In FormatFS (events (loop cfg i s)) /\
  ((exists out, loop cfg i s = Restarted out) <-> save_served i s = true).
Proof.
  intro H. destruct (save_served i s) eqn:Sv.
  - rewrite (loop_served cfg i s Sv). cbn [events].
    split; [apply save_sequence_no_wipe|].
    split; [reflexivity | intros _; eexists; reflexivity].
  - rewrite (loop_not_served cfg i s Sv).
    destruct (g_isInConfigMode s).
    + split; [intros [] | split; [intros [out X]; discriminate X|discriminate]].
    + pose proof (proj2 (ticker_outputs cfg i s)) as F.
      rewrite (d5_role_keeps_running cfg i s H) in *. cbn [events].
      split; [|split; [intros [out X]; discriminate X|discriminate]].
      intro X. destruct (F eq_refl _ X) as (N & _). congruence.
Qed.

Lemma d5_role_disables_factory_reset_witness :
  let cfg := configure 0 true 3 true false 5000 0 0 0 in
  let s := set_btnPressStart 1000 (booted cfg 500) in
  ~ In FormatFS (events (loop cfg (sample 20000 false true) s)).
Proof.
  intros cfg s.
  exact (proj1 (d5_role_disables_factory_reset cfg (sample 20000 false true) s
                  (or_introl eq_refl))).
Defined.

Lemma d5_weather_button_screen cfg i s :
  let r := d5_weather_button cfg i s in
  let cur := g_currentScreen (screen s) in
  let stamp := d5WeatherReleaseTime (d5 s) in
  g_currentScreen (screen (state r))
  = (if reset_btn_high i
     then (if d5WeatherShowing (d5 s) then cur else 1)
     else if d5WeatherShowing (d5 s)
          then (if d5_timeout cfg =? 0 then 0
                else if stamp =? 0 then cur
                else if d5_timeout cfg <=? sub32 (currentMillis i) stamp
                     then 0 else cur)
          else cur).
Proof.
  cbv zeta. unfold d5_weather_button. rewrite bind_get.
  destruct (reset_btn_high i), (d5WeatherShowing (d5 s)),
    (d5_timeout cfg =? 0), (d5WeatherReleaseTime (d5 s) =? 0),
    (d5_timeout cfg
       <=? sub32 (currentMillis i) (d5WeatherReleaseTime (d5 s)));
    reflexivity.
Qed.

Lemma d5_btc_button_screen cfg i s :
  let r := d5_btc_button cfg i s in
  let cur := g_currentScreen (screen s) in
  let stamp := d5BtcReleaseTime (d5 s) in
  g_currentScreen (screen (state r))
  = (if reset_btn_high i
     then (if d5BtcShowing (d5 s) then cur else 0)
     else if d5BtcShowing (d5 s)
          then (if d5_timeout cfg =? 0 then 1
                else if stamp =? 0 then cur
                else if d5_timeout cfg <=? sub32 (currentMillis i) stamp
                     then 1 else cur)
          else cur).
Proof.
  cbv zeta. unfold d5_btc_button. rewrite bind_get.
  destruct (reset_btn_high i), (d5BtcShowing (d5 s)),
    (d5_timeout cfg =? 0), (d5BtcReleaseTime (d5 s) =? 0),
    (d5_timeout cfg <=? sub32 (currentMillis i) (d5BtcReleaseTime (d5 s)));
    reflexivity.
Qed.

(** In manual mode with a D5 screen role, the active screen after an
    iteration depends on the D5 input and its timeout only: the cycle
    timers and the D6 button do not move it.  Weather role: weather on
    the rising edge; after the release, back to BTC at once for timeout 0,
    otherwise once the timeout has passed since the release stamp.  BTC
    role: the same with the two screens exchanged. *)
Theorem d5_role_decides_screen cfg i s s' out :
  button_mode cfg = 3 -> g_isInConfigMode s = false ->
  d5_weather_mode cfg = true \/ d5_btc_mode cfg = true ->
  loop cfg i s = Running s' out ->
  let cur := g_currentScreen (screen s) in
  let role_btc := d5_btc_mode cfg in
  let showing :=
    if role_btc then d5BtcShowing (d5 s) else d5WeatherShowing (d5 s) in
  let stamp :=
    if role_btc then d5BtcReleaseTime (d5 s)
    else d5WeatherReleaseTime (d5 s) in
  let shown := if role_btc then 0 else 1 in
  let default := if role_btc then 1 else 0 in
  g_currentScreen (screen s')
  = (if reset_btn_high i
     then (if showing then cur else shown)
     else if showing
          then (if d5_timeout cfg =? 0 then default
                else if stamp =? 0 then cur
                else if d5_timeout cfg <=? sub32 (currentMillis i) stamp
                     then default else cur)
          else cur).
Proof.
  intros Hm Hc Hr H. cbv zeta.
  destruct (loop_running _ _ _ _ _ H Hc) as (_ & -> & _).
  rewrite (alert_logic_keeps_screen cfg i).
  rewrite (proj1 (proj2 (before_alert_split cfg i s))).
  pose proof (before_d5_keeps_d5 cfg i s) as K. unfold keeps in K.
  pose proof (before_d5_current_screen cfg i s Hm) as C.
  set (t := state (before_d5 cfg i s)) in *.
  unfold d5_button. destruct (d5_btc_mode cfg).
  - rewrite state_bind. cbn [ret state fst snd].
    rewrite d5_btc_button_screen. cbv zeta. rewrite K, C. reflexivity.
  - destruct Hr as [Hr|Hr]; [|discriminate Hr]. rewrite Hr.
    rewrite state_bind. cbn [ret state fst snd].
    rewrite d5_weather_button_screen. cbv zeta. rewrite K, C. reflexivity.
Qed.

(** The D5 role theorem at the end of the timeout. *)
Lemma d5_role_decides_screen_witness :
  let cfg := configure 0 true 3 true false 5000 0 0 0 in
  let s := set_d5WeatherReleaseTime 1000
             (set_d5WeatherShowing true
                (set_g_currentScreen 1 (booted cfg 500))) in
  exists s' out,
    loop cfg (sample 6000 false false) s = Running s' out /\
    g_currentScreen (screen s') = 0.
Proof.
  intros cfg s. eexists. eexists.
  refine (let L := _ in
          conj L (d5_role_decides_screen cfg (sample 6000 false false) s _ _
                    eq_refl eq_refl (or_introl eq_refl) L)).
  cbv. reflexivity.
Defined.

(** ** Display texts *)


Lemma upto_In n z : 0 <= z <= Z.of_nat n -> In z (DisplayCheck.upto n).
Proof.
  intro H. unfold DisplayCheck.upto. apply in_map_iff. exists (Z.to_nat z).
  split; [lia|]. apply in_seq. lia.
Qed.

Lemma digits_ok_all : forallb DisplayCheck.digits_ok (DisplayCheck.upto 999) = true.
Proof. vm_compute. reflexivity. Qed.

Lemma digits_ok_at z : 0 <= z <= 999 -> DisplayCheck.digits_ok z = true.
Proof.
  intro H. apply (proj1 (forallb_forall DisplayCheck.digits_ok (DisplayCheck.upto 999)) digits_ok_all).
  apply upto_In. lia.
Qed.

Lemma clock_ok_all :
  forallb (fun h => forallb (fun m => DisplayCheck.clock_ok true h m && DisplayCheck.clock_ok false h m)
                            (DisplayCheck.upto 59)) (DisplayCheck.upto 23) = true.
Proof. vm_compute. reflexivity. Qed.

Lemma clock_ok_at us h m :
  0 <= h <= 23 -> 0 <= m <= 59 -> DisplayCheck.clock_ok us h m = true.
Proof.
  intros Hh Hm.
  pose proof (proj1 (forallb_forall _ _) clock_ok_all h
                (upto_In 23 h ltac:(lia))) as A.
  cbv beta in A.
  pose proof (proj1 (forallb_forall _ _) A m (upto_In 59 m ltac:(lia))) as B.
  cbv beta in B. apply andb_true_iff in B. destruct us; tauto.
Qed.

Section DisplayProperties.
Import String.
Local Open Scope string_scope.
Local Open Scope Z_scope.

Lemma string_length_append (a b : String.string) :
  String.length (String.append a b) = (String.length a + String.length b)%nat.
Proof. induction a as [|c a IH]; cbn; [reflexivity | now rewrite IH]. Qed.

Lemma substring_whole (s : String.string) (n : nat) :
  (String.length s <= n)%nat -> String.substring 0 n s = s.
Proof.
  revert n. induction s as [|c s IH]; intros n H.
  - destruct n; reflexivity.
  - destruct n as [|n]; cbn in H; [lia|]. cbn. rewrite IH by lia. reflexivity.
Qed.

Lemma snprintf_fits (s : String.string) :
  (String.length s <= 19)%nat -> Display.snprintf 20 s = s.
Proof. intro H. unfold Display.snprintf. apply substring_whole. cbn. lia. Qed.

(** The right edge of a text in the large font. *)
Lemma price_layout_large priceLen :
  0 <= priceLen <= 12 ->
  fst (fst (Display.price_layout priceLen)) = 2
  /\ (Display.right_edge (Display.price_layout priceLen) priceLen <= 128
      <-> priceLen <= 10).
Proof.
  intro H. unfold Display.right_edge, Display.price_layout.
  replace (priceLen <=? 12) with true by (symmetry; apply Z.leb_le; lia).
  cbn [Z.eqb Pos.eqb fst snd]. split; [reflexivity|].
  pose proof (Z.quot_rem' (128 - priceLen * 12) 2).
  pose proof (Z.rem_bound_abs (128 - priceLen * 12) 2).
  split; intros; lia.
Qed.

Lemma digits_ok_facts z :
  0 <= z <= 999 ->
  (String.length (Display.dec z) <= 3)%nat
  /\ (100 <= z -> String.length (Display.dec z) = 3%nat)
  /\ (z < 100 -> (String.length (Display.dec z) <= 2)%nat)
  /\ String.length (Display.zero_pad 3 z) = 3%nat
  /\ (z < 100 -> String.length (Display.zero_pad 2 z) = 2%nat).
Proof.
  intro H. pose proof (digits_ok_at z H) as D. unfold DisplayCheck.digits_ok in D.
  repeat (apply andb_true_iff in D; destruct D as [D ?]).
  repeat match goal with
         | X : (_ || _) = true |- _ => apply orb_true_iff in X
         | X : (_ <=? _)%nat = true |- _ => apply Nat.leb_le in X
         | X : (_ =? _)%nat = true |- _ => apply Nat.eqb_eq in X
         end.
  rewrite ?Z.ltb_lt, ?Z.leb_le, ?Nat.leb_le, ?Nat.eqb_eq in *.
  repeat split; intros; try lia.
Qed.

(** [(long)(price + 0.5f)] for a price up to 999999: an integer within
    9/16 of the price. *)
Lemma rounded_price_near (price : Q) :
  (0 <= price)%Q -> (price <= 999999)%Q ->
  exists n, Display.rounded_price price = Some n /\ 0 <= n <= 999999 /\
            (price - (9 # 16) < inject_Z n)%Q /\
            (inject_Z n <= price + (9 # 16))%Q.
Proof.
  intros H0 H1. unfold Display.rounded_price, fadd.
  destruct (round32_near 20 (price + (1 # 2))) as (v & R & V0 & VL & VU);
    [lia | lra | change (inject_Z (2 ^ 20)) with 1048576%Q; lra |].
  change (Z.to_pos (2 ^ (24 - 20))) with 16%positive in VL, VU.
  rewrite R, int_of_float_small by lra.
  destruct (Qtrunc_floor v V0) as (P & L & U).
  exists (Qtrunc v). split; [reflexivity|].
  assert (B : Qtrunc v <= 999999).
  { assert (Qtrunc v < 1000000); [|lia]. rewrite Zlt_Qlt.
    change (inject_Z 1000000) with 1000000%Q. lra. }
  split; [lia|]. split; lra.
Qed.

(** The price text of [updateDisplay] for a three-letter currency (all
    the currencies of the configuration page) and a price from 0 to
    999999: the number printed is an integer within 9/16 of the price
    (the sum with 0.5 is rounded to [float] before the cast); the text is
    never cut by the 20-byte buffer, it is always drawn in the large
    font, and it ends inside the 128 pixel columns exactly when the
    number is below 100000. *)
Theorem price_line_three_letter_currency (price : Q) (currency : String.string) :
  String.length currency = 3%nat ->
  (0 <= price)%Q -> (price <= 999999)%Q ->
  exists intPart text layout,
    Display.rounded_price price = Some intPart
    /\ (price - (9 # 16) < inject_Z intPart)%Q
    /\ (inject_Z intPart <= price + (9 # 16))%Q
    /\ Display.price_line price currency = Some (text, layout)
    /\ text = (if 1000 <=? intPart
               then Display.dec (Z.quot intPart 1000) ++ "."
                    ++ Display.zero_pad 3 (Z.rem intPart 1000)
                    ++ " " ++ currency
               else Display.dec intPart ++ " " ++ currency)
    /\ fst (fst layout) = 2
    /\ (Display.right_edge layout (Z.of_nat (String.length text)) <= 128
        <-> intPart < 100000).
Proof.
  intros Hc H0 H1.
  destruct (rounded_price_near price H0 H1) as (intPart & Hp & Hr & Nl & Nu).
  exists intPart. unfold Display.price_line, Display.formatPrice. rewrite Hp.
  eexists. eexists. split; [reflexivity|]. split; [exact Nl|].
  split; [exact Nu|]. split; [reflexivity|].
  match goal with
  | |- ?t = _ /\ _ => set (text := t)
  end.
  assert (Ht : text = (if 1000 <=? intPart
          then Display.dec (Z.quot intPart 1000) ++ "."
               ++ Display.zero_pad 3 (Z.rem intPart 1000) ++ " " ++ currency
          else Display.dec intPart ++ " " ++ currency)
           /\ (if 100000 <=? intPart
               then String.length text = 11%nat
               else (String.length text <= 10)%nat)).
  { subst text.
    pose proof (Z.quot_rem' intPart 1000) as Hqr.
    pose proof (Z.rem_bound_pos intPart 1000 ltac:(lia) ltac:(lia)) as Hrem.
    destruct (digits_ok_facts (Z.quot intPart 1000) ltac:(lia))
      as (Q1 & Q2 & Q3 & _ & _).
    destruct (digits_ok_facts (Z.rem intPart 1000) ltac:(lia))
      as (_ & _ & _ & R4 & _).
    destruct (100000 <=? intPart) eqn:E1;
      [apply Z.leb_le in E1 | apply Z.leb_gt in E1].
    - replace (1000 <=? intPart) with true by (symmetry; apply Z.leb_le; lia).
      specialize (Q2 ltac:(lia)).
      rewrite snprintf_fits.
      + split; [reflexivity|].
        rewrite !string_length_append, Q2, R4, Hc. reflexivity.
      + rewrite !string_length_append, Q2, R4, Hc. cbn. lia.
    - destruct (1000 <=? intPart) eqn:E2;
        [apply Z.leb_le in E2 | apply Z.leb_gt in E2].
      + specialize (Q3 ltac:(lia)).
        rewrite snprintf_fits.
        * split; [reflexivity|].
          rewrite !string_length_append, R4, Hc. cbn. lia.
        * rewrite !string_length_append, R4, Hc. cbn. lia.
      + destruct (digits_ok_facts intPart ltac:(lia)) as (I1 & _).
        rewrite snprintf_fits.
        * split; [reflexivity|].
          rewrite !string_length_append, Hc. cbn. lia.
        * rewrite !string_length_append, Hc. cbn. lia. }
  destruct Ht as [Ht Hl]. split; [exact Ht|].
  assert (Hlen : 0 <= Z.of_nat (String.length text) <= 11).
  { destruct (100000 <=? intPart); lia. }
  destruct (price_layout_large (Z.of_nat (String.length text)) ltac:(lia))
    as (L1 & L3).
  split; [exact L1|].
  rewrite L3. destruct (100000 <=? intPart) eqn:E1;
    [apply Z.leb_le in E1 | apply Z.leb_gt in E1]; lia.
Qed.

(** The price theorem at the [float] just below one half, where the sum
    with 0.5 rounds up to 1. *)
Lemma price_line_three_letter_currency_witness :
  String.length "EUR" = 3%nat
  /\ (0 <= 16777215 # 33554432)%Q /\ (16777215 # 33554432 <= 999999)%Q
  /\ exists layout,
       Display.price_line (16777215 # 33554432) "EUR" = Some ("1 EUR", layout).
Proof.
  assert (H0 : (0 <= 16777215 # 33554432)%Q) by (vm_compute; discriminate).
  assert (H1 : (16777215 # 33554432 <= 999999)%Q) by (vm_compute; discriminate).
  destruct (price_line_three_letter_currency (16777215 # 33554432) "EUR"
              eq_refl H0 H1)
    as (n & text & layout & Hp & _ & _ & Hl & Ht & _).
  split; [reflexivity|]. split; [exact H0|]. split; [exact H1|].
  exists layout. rewrite Hl. f_equal. f_equal.
  rewrite Ht. injection Hp as <-. reflexivity.
Defined.

(** The placement of a price text of up to 19 characters (all the
    20-byte buffer holds): the large font up to 12 characters, a cursor
    column that is never negative, a text that ends inside the 128 pixel
    columns unless it has 11 or 12 characters, and that is then centred
    up to one pixel. *)
Theorem price_layout_placement priceLen :
  0 <= priceLen <= 19 ->
  fst (fst (Display.price_layout priceLen)) = (if priceLen <=? 12 then 2 else 1)
  /\ 0 <= snd (Display.price_layout priceLen)
  /\ (Display.right_edge (Display.price_layout priceLen) priceLen <= 128
      <-> priceLen <> 11 /\ priceLen <> 12)
  /\ (Display.right_edge (Display.price_layout priceLen) priceLen <= 128 ->
      0 <= 128 - Display.right_edge (Display.price_layout priceLen) priceLen
             - snd (Display.price_layout priceLen) <= 1).
Proof.
  intro H. unfold Display.right_edge, Display.price_layout.
  destruct (priceLen <=? 12) eqn:E;
    [apply Z.leb_le in E | apply Z.leb_gt in E];
    cbn [Z.eqb Pos.eqb fst snd];
    (split; [reflexivity|]); split; try lia.
  - pose proof (Z.quot_rem' (128 - priceLen * 12) 2).
    pose proof (Z.rem_bound_abs (128 - priceLen * 12) 2).
    split; [split|]; intros; lia.
  - pose proof (Z.quot_rem' (128 - priceLen * 6) 2).
    pose proof (Z.rem_bound_abs (128 - priceLen * 6) 2).
    split; [split|]; intros; lia.
Qed.

Lemma price_layout_placement_witness :
  0 <= 11 <= 19
  /\ snd (Display.price_layout 11) = 0
  /\ ~ Display.right_edge (Display.price_layout 11) 11 <= 128.
Proof.
  refine (let H := _ in
          conj H (conj eq_refl
            (fun E =>
               let fits := proj1 (proj2 (proj2 (price_layout_placement 11 H))) in
               proj1 (proj1 fits E) eq_refl))).
  split; vm_compute; discriminate.
Defined.

Lemma getCurrentTimeStr_year fmt t :
  100 < Display.tm_year t ->
  Display.getCurrentTimeStr fmt t 20
  = Display.getCurrentTimeStr (if String.eqb fmt "US" then "US" else "DE")
      {| Display.tm_year := 126; Display.tm_hour := Display.tm_hour t;
         Display.tm_min := Display.tm_min t |} 20.
Proof.
  intro H. unfold Display.getCurrentTimeStr. cbn [Display.tm_year Display.tm_hour Display.tm_min].
  replace (100 <? Display.tm_year t) with true by (symmetry; apply Z.ltb_lt; lia).
  replace (100 <? 126) with true by reflexivity.
  destruct (String.eqb fmt "US"); reflexivity.
Qed.

(** The clock text of [getCurrentTimeStr] for a time of day: before the
    clock is set it is the placeholder; in the US format it shows an hour
    between 1 and 12 and AM or PM, from which the hour of the day is
    recovered; otherwise it shows both fields with two digits.  The
    20-byte buffer never cuts it, so the footer of the price screen fits
    the 128 pixel columns and the right-aligned clock of the weather
    screen starts at column 74 or later. *)
Theorem getCurrentTimeStr_text (fmt : String.string) (t : Display.tm) :
  0 <= Display.tm_hour t <= 23 ->
  0 <= Display.tm_min t <= 59 ->
  let text := Display.getCurrentTimeStr fmt t 20 in
  (if 100 <? Display.tm_year t
   then if String.eqb fmt "US"
        then exists h12 (pm : bool),
               1 <= h12 <= 12
               /\ Display.tm_hour t = h12 mod 12 + (if pm then 12 else 0)
               /\ text = Display.dec h12 ++ ":"
                         ++ Display.zero_pad 2 (Display.tm_min t)
                         ++ (if pm then " PM" else " AM")
        else text = Display.zero_pad 2 (Display.tm_hour t) ++ ":"
                    ++ Display.zero_pad 2 (Display.tm_min t) ++ " Uhr"
   else text = "--:--")
  /\ (5 <= String.length text <= 9)%nat
  /\ Display.footer_width text <= 128
  /\ 74 <= Display.time_cursor text.
Proof.
  intros Hh Hm text.
  assert (A : (if 100 <? Display.tm_year t
   then if String.eqb fmt "US"
        then exists h12 (pm : bool),
               1 <= h12 <= 12
               /\ Display.tm_hour t = h12 mod 12 + (if pm then 12 else 0)
               /\ text = Display.dec h12 ++ ":"
                         ++ Display.zero_pad 2 (Display.tm_min t)
                         ++ (if pm then " PM" else " AM")
        else text = Display.zero_pad 2 (Display.tm_hour t) ++ ":"
                    ++ Display.zero_pad 2 (Display.tm_min t) ++ " Uhr"
   else text = "--:--")
  /\ (5 <= String.length text <= 9)%nat).
  { destruct (100 <? Display.tm_year t) eqn:Ey.
    - apply Z.ltb_lt in Ey.
      pose proof (getCurrentTimeStr_year fmt t Ey) as Y. fold text in Y.
      destruct (String.eqb fmt "US") eqn:Ef.
      + pose proof (clock_ok_at true _ _ Hh Hm) as C.
        unfold DisplayCheck.clock_ok in C. rewrite <- Y in C.
        repeat (apply andb_true_iff in C; destruct C as [C ?]).
        apply String.eqb_eq in C.
        rewrite ?Z.leb_le, ?Z.eqb_eq, ?Nat.leb_le in *.
        split.
        * exists (DisplayCheck.hour12_of (Display.tm_hour t)),
                 (12 <=? Display.tm_hour t).
          repeat split; try lia.
          rewrite C. destruct (12 <=? Display.tm_hour t); reflexivity.
        * split; [|lia].
          destruct (digits_ok_facts (Display.tm_min t) ltac:(lia))
            as (_ & _ & _ & _ & Z2).
          rewrite C, !string_length_append, Z2 by lia.
          destruct (12 <=? Display.tm_hour t); cbn; lia.
      + pose proof (clock_ok_at false _ _ Hh Hm) as C.
        unfold DisplayCheck.clock_ok in C. rewrite <- Y in C.
        apply andb_true_iff in C. destruct C as [C L].
        apply String.eqb_eq in C. apply Nat.eqb_eq in L.
        split; [exact C | lia].
    - subst text. unfold Display.getCurrentTimeStr. rewrite Ey.
      split; [reflexivity | cbn; lia]. }
  destruct A as [A L]. split; [exact A|]. split; [exact L|].
  unfold Display.footer_width, Display.footer, Display.time_cursor.
  rewrite string_length_append. cbn [String.length]. lia.
Qed.

Lemma getCurrentTimeStr_text_witness :
  exists t : Display.tm,
    0 <= Display.tm_hour t <= 23
    /\ 0 <= Display.tm_min t <= 59
    /\ Display.footer_width (Display.getCurrentTimeStr "US" t 20) <= 128.
Proof.
  pose (t := {| Display.tm_year := 126; Display.tm_hour := 0;
                Display.tm_min := 5 |}).
  assert (H1 : 0 <= Display.tm_hour t <= 23) by (split; vm_compute; discriminate).
  assert (H2 : 0 <= Display.tm_min t <= 59) by (split; vm_compute; discriminate).
  exists t.
  exact (conj H1 (conj H2
           (proj1 (proj2 (proj2 (getCurrentTimeStr_text "US" t H1 H2)))))).
Defined.

(** [(int)((absChange - intPart) * 100 + 0.5f)] for a real [a] of
    [[0, 2^24)] with whole part [n]: within 1/2 + 1/1000 of the
    hundredths of the fraction. *)
Lemma hundredths_near (a' : Q) :
  (0 <= a')%Q -> (a' <= 16777215)%Q ->
  let n := Qtrunc a' in
  exists d, Display.hundredths (Fin a') n = Some d /\ 0 <= d <= 100 /\
            (100 * (a' - inject_Z n) - (1 # 2) - (1 # 1000) < inject_Z d)%Q /\
            (inject_Z d <= 100 * (a' - inject_Z n) + (1 # 2) + (1 # 1000))%Q.
Proof.
  intros H0 H1 n. destruct (Qtrunc_floor a' H0) as (P & L & U). fold n in P, L, U.
  assert (Hn : n <= 16777215).
  { rewrite Zle_Qle. change (inject_Z 16777215) with 16777215%Q. lra. }
  unfold Display.hundredths.
  rewrite (float_of_int_exact n) by lia.
  rewrite (float_of_int_exact 100) by lia.
  unfold fsub, fneg, fadd at 2.
  pose proof (Qred_correct (- inject_Z n)) as Rn.
  destruct (round32_near 0 (a' + Qred (- inject_Z n))) as (v1 & R1 & A1 & B1 & C1);
    [lia | lra | change (inject_Z (2 ^ 0)) with 1%Q; lra |].
  change (Z.to_pos (2 ^ (24 - 0))) with 16777216%positive in B1, C1.
  rewrite R1. unfold fmul.
  destruct (round32_near 7 (v1 * inject_Z 100)) as (v2 & R2 & A2 & B2 & C2);
    [lia | change (inject_Z 100) with 100%Q; lra
     | change (inject_Z (2 ^ 7)) with 128%Q; change (inject_Z 100) with 100%Q; lra |].
  change (Z.to_pos (2 ^ (24 - 7))) with 131072%positive in B2, C2.
  change (inject_Z 100) with 100%Q in B2, C2.
  rewrite R2. unfold fadd.
  destruct (round32_near 7 (v2 + (1 # 2))) as (v3 & R3 & A3 & B3 & C3);
    [lia | lra | change (inject_Z (2 ^ 7)) with 128%Q; lra |].
  change (Z.to_pos (2 ^ (24 - 7))) with 131072%positive in B3, C3.
  rewrite R3, int_of_float_small by lra.
  destruct (Qtrunc_floor v3 A3) as (P3 & L3 & U3).
  exists (Qtrunc v3). split; [reflexivity|].
  assert (D : Qtrunc v3 <= 100).
  { assert (Qtrunc v3 < 101); [|lia]. rewrite Zlt_Qlt.
    change (inject_Z 101) with 101%Q. lra. }
  split; [lia|]. split; lra.
Qed.

(** The text of [formatChange] for a change below 2^24 in size: the
    sign, the whole part and the hundredths of the absolute change.  The
    hundredths are computed on their own from the fraction, in [float]:
    an integer from 0 to 100 within 1/2 + 1/1000 of a hundred times the
    fraction; from a fraction of 0.996 on they are 100, printed with
    three digits after the point, and the whole part is not carried. *)
Theorem formatChange_hundredths (change : Q) (bufferSize : nat) :
  (- (16777215) <= change)%Q -> (change <= 16777215)%Q ->
  let absChange := if Qleb 0 change then change else (- change)%Q in
  let intPart := Qtrunc absChange in
  let fraction := (absChange - inject_Z intPart)%Q in
  exists decPart,
    Display.formatChange (Fin change) bufferSize
    = Some (Display.snprintf bufferSize
              ((if Qleb 0 change then "+" else "-") ++ Display.dec intPart
               ++ "." ++ Display.zero_pad 2 decPart ++ "%"))
    /\ 0 <= decPart <= 100
    /\ (100 * fraction - (1 # 2) - (1 # 1000) < inject_Z decPart)%Q
    /\ (inject_Z decPart <= 100 * fraction + (1 # 2) + (1 # 1000))%Q
    /\ ((996 # 1000 <= fraction)%Q ->
        decPart = 100 /\ Display.zero_pad 2 decPart = "100").
Proof.
  intros Hl Hu. cbv zeta.
  unfold Display.formatChange.
  change (float_of_int 0) with (Fin 0). cbn [fleb].
  assert (Main : forall a' : Q,
            (a' == (if Qleb 0 change then change else - change))%Q ->
            exists d,
              Display.hundredths (Fin a') (Qtrunc a') = Some d /\
              int_of_float (Fin a') = Some (Qtrunc a') /\
              Qtrunc a' = Qtrunc (if Qleb 0 change then change else (- change)%Q) /\
              0 <= d <= 100 /\
              (100 * ((if Qleb 0 change then change else - change)
                      - inject_Z (Qtrunc (if Qleb 0 change then change
                                          else (- change)%Q)))
               - (1 # 2) - (1 # 1000) < inject_Z d)%Q /\
              (inject_Z d
               <= 100 * ((if Qleb 0 change then change else - change)
                         - inject_Z (Qtrunc (if Qleb 0 change then change
                                             else (- change)%Q)))
                  + (1 # 2) + (1 # 1000))%Q).
  { intros a' E.
    assert (B : (0 <= a')%Q /\ (a' <= 16777215)%Q).
    { destruct (Qleb 0 change) eqn:S;
        [apply Qleb_le in S | apply Qleb_gt in S]; split; lra. }
    destruct B as [B0 B1].
    destruct (hundredths_near a' B0 B1) as (d & Hd & Rd & Ld & Ud).
    cbv zeta in Hd, Ld, Ud.
    exists d. split; [exact Hd|].
    split; [apply int_of_float_small; lra|].
    pose proof (Qtrunc_proper _ _ E) as T.
    split; [exact T|]. split; [exact Rd|].
    rewrite <- T. split; lra. }
  destruct (Qleb 0 change) eqn:S.
  - destruct (Main change (Qeq_refl _)) as (d & Hd & Hi & _ & Rd & Ld & Ud).
    rewrite Hi, Hd. exists d. split; [reflexivity|]. split; [exact Rd|].
    split; [exact Ld|]. split; [exact Ud|].
    intro F. assert (d = 100); [|subst d; split; reflexivity].
    assert (99 < d); [|lia]. rewrite Zlt_Qlt.
    change (inject_Z 99) with 99%Q. lra.
  - cbn [fneg].
    destruct (Main (Qred (- change)) (Qred_correct _))
      as (d & Hd & Hi & T & Rd & Ld & Ud).
    rewrite Hi, Hd, T. exists d. split; [reflexivity|]. split; [exact Rd|].
    split; [exact Ld|]. split; [exact Ud|].
    intro F. assert (d = 100); [|subst d; split; reflexivity].
    assert (99 < d); [|lia]. rewrite Zlt_Qlt.
    change (inject_Z 99) with 99%Q. lra.
Qed.

(** The hundredths theorem at the [float] nearest to 1.999, printed with
    the decimals 100. *)
Lemma formatChange_hundredths_witness :
  (- (16777215) <= 16768827 # 8388608)%Q /\
  (16768827 # 8388608 <= 16777215)%Q /\
  Display.formatChange (Fin (16768827 # 8388608)) 20 = Some "+1.100%".
Proof.
  assert (H0 : (- (16777215) <= 16768827 # 8388608)%Q)
    by (vm_compute; discriminate).
  assert (H1 : (16768827 # 8388608 <= 16777215)%Q)
    by (vm_compute; discriminate).
  destruct (formatChange_hundredths (16768827 # 8388608) 20 H0 H1)
    as (d & E & _ & _ & _ & C).
  split; [exact H0|]. split; [exact H1|].
  rewrite E. destruct C as [-> _]; [vm_compute; discriminate|]. reflexivity.
Defined.

End DisplayProperties.

Section WebProperties.
Import String.
Local Open Scope string_scope.
Local Open Scope Z_scope.

Lemma store_length {A : Type} (n : nat) (v : A) (a : list A) :
  List.length (Web.store n v a) = List.length a.
Proof.
  revert n. induction a as [|x a IH]; intros [|n]; cbn; auto.
Qed.

Lemma store_same {A : Type} (n : nat) (v d : A) (a : list A) :
  (n < List.length a)%nat -> nth n (Web.store n v a) d = v.
Proof.
  revert n. induction a as [|x a IH]; intros [|n] H; cbn in *; try lia; auto.
  apply IH. lia.
Qed.

Lemma store_other {A : Type} (n k : nat) (v d : A) (a : list A) :
  n <> k -> nth k (Web.store n v a) d = nth k a d.
Proof.
  revert n k. induction a as [|x a IH]; intros [|n] [|k] H; cbn; auto;
    try congruence.
Qed.

(** What the buffer holds after the messages [msgs]. *)
Lemma logged_invariant (msgs : list string) :
  let n := Z.of_nat (List.length msgs) in
  let st := Web.logged msgs in
  List.length (Web.g_logBuffer st) = 20%nat
  /\ Web.g_logHead st = n mod 20
  /\ Web.g_logCount st = Z.min n 20
  /\ forall j, n - Z.min n 20 <= j < n ->
       nth (Z.to_nat (j mod 20)) (Web.g_logBuffer st) ""
       = Web.strncpy 99 (nth (Z.to_nat j) msgs "").
Proof.
  induction msgs as [|m msgs IH] using rev_ind.
  - cbn. repeat split; try reflexivity. intros j H. lia.
  - cbv zeta in *. destruct IH as (IL & IH & IC & IB).
    unfold Web.logged in *. rewrite fold_left_app. cbn [fold_left].
    set (st := fold_left _ msgs Web.log_boot) in *.
    rewrite length_app. cbn [List.length].
    set (n := Z.of_nat (List.length msgs)) in *.
    replace (Z.of_nat (List.length msgs + 1)) with (n + 1) by lia.
    assert (Hn : 0 <= n) by lia.
    unfold Web.addLogEntry. cbn [Web.g_logBuffer Web.g_logHead Web.g_logCount].
    rewrite store_length, IH, IC.
    unfold Web.LOG_BUFFER_SIZE, Web.LOG_LINE_LENGTH, wrap8.
    split; [exact IL|]. split; [|split].
    + pose proof (Z.mod_pos_bound n 20 ltac:(lia)).
      rewrite Z.rem_mod_nonneg by lia.
      rewrite (Z.mod_small (_ mod 20) 256)
        by (pose proof (Z.mod_pos_bound ((n mod 20 + 1)) 20 ltac:(lia)); lia).
      rewrite Z.add_mod_idemp_l by lia. reflexivity.
    + destruct (Z.min n 20 <? 20) eqn:E;
        [apply Z.ltb_lt in E | apply Z.ltb_ge in E].
      * rewrite Z.mod_small by lia. lia.
      * lia.
    + intros j Hj.
      pose proof (Z.mod_pos_bound n 20 ltac:(lia)) as Bn.
      pose proof (Z.mod_pos_bound j 20 ltac:(lia)) as Bj.
      destruct (Z.eq_dec j n) as [->|Hne].
      * rewrite store_same by lia.
        replace (Z.to_nat n) with (List.length msgs) by lia.
        rewrite nth_middle. reflexivity.
      * rewrite store_other.
        -- rewrite IB by lia. rewrite app_nth1 by lia. reflexivity.
        -- intro E. apply Z2Nat.inj in E; try lia.
           pose proof (Z.div_mod n 20 ltac:(lia)).
           pose proof (Z.div_mod j 20 ltac:(lia)).
           lia.
Qed.

Lemma nth_skipn_at {A : Type} (k i : nat) (l : list A) (d : A) :
  nth i (skipn k l) d = nth (k + i) l d.
Proof.
  revert l. induction k as [|k IH]; intros l; [reflexivity|].
  destruct l as [|x l]; [destruct i; reflexivity|]. cbn. apply IH.
Qed.

Lemma log_lines_logged (msgs : list string) :
  Web.log_lines (Web.logged msgs)
  = map (Web.strncpy 99) (skipn (List.length msgs - 20) msgs).
Proof.
  destruct (logged_invariant msgs) as (IL & IH & IC & IB). cbv zeta in *.
  set (st := Web.logged msgs) in *.
  set (n := Z.of_nat (List.length msgs)) in *.
  unfold Web.log_lines.
  set (f := fun i => nth (Z.to_nat (Web.log_index st i)) (Web.g_logBuffer st) "").
  apply (nth_ext _ _ (f 0) (Web.strncpy 99 "")).
  - rewrite !length_map, length_seq, length_skipn, IC. lia.
  - intros i Hi. rewrite !length_map, length_seq, IC in Hi.
    rewrite !map_nth. rewrite (map_nth Z.of_nat _ 0%nat).
    rewrite seq_nth by (rewrite IC; lia). cbn [Nat.add].
    rewrite nth_skipn_at. subst f. cbv beta.
    assert (E : Web.log_index st (Z.of_nat i)
                = (n - Z.min n 20 + Z.of_nat i) mod 20).
    { unfold Web.log_index, Web.LOG_BUFFER_SIZE. rewrite IH, IC.
      pose proof (Z.mod_pos_bound n 20 ltac:(lia)).
      rewrite Z.rem_mod_nonneg by lia.
      pose proof (Z.div_mod n 20 ltac:(lia)).
      replace (n mod 20 - Z.min n 20 + Z.of_nat i + 20)
        with ((n - Z.min n 20 + Z.of_nat i) + (1 - n / 20) * 20) by lia.
      apply Z.mod_add. lia. }
    rewrite E, IB by lia. f_equal. f_equal. lia.
Qed.

(** The log view: after any sequence of messages the body that
    [handleLogs] streams lists the last 20 of them, oldest first, each
    cut to 99 characters. *)
Theorem handleLogs_lists_last_twenty (msgs : list string) :
  let kept := map (Web.strncpy 99) (skipn (List.length msgs - 20) msgs) in
  Web.log_lines (Web.logged msgs) = kept
  /\ Web.handleLogs true (Web.logged msgs)
     = Some ("[" ++ String.concat "," (map Web.json_entry kept) ++ "]")
  /\ (List.length kept <= 20)%nat
  /\ Forall (fun line => (String.length line <= 99)%nat) kept.
Proof.
  cbv zeta. split; [apply log_lines_logged|]. split; [|split].
  - unfold Web.handleLogs. rewrite log_lines_logged. reflexivity.
  - rewrite length_map, length_skipn. lia.
  - apply Forall_forall. intros line H. apply in_map_iff in H.
    destruct H as (m & <- & _). unfold Web.strncpy.
    clear. generalize 99%nat. induction m as [|c m IH]; intros [|k]; cbn;
      try lia. specialize (IH k). lia.
Qed.

Lemma escape_char_unescape (c : Ascii.ascii) (rest : string) :
  Web.json_unescape (Web.escape_char c ++ rest)
  = String c (Web.json_unescape rest).
Proof.
  destruct c as [[] [] [] [] [] [] [] []]; reflexivity.
Qed.

(** The escaping of [handleLogs] loses nothing: reading the escapes
    back gives the stored line. *)
Theorem escape_round_trip (line : string) :
  Web.json_unescape (Web.escape line) = line.
Proof.
  induction line as [|c line IH]; [reflexivity|].
  cbn [Web.escape]. rewrite escape_char_unescape, IH. reflexivity.
Qed.

End WebProperties.

Lemma if_arg_frame {A : Type} (p : Config -> A) arg assign conv c :
  (forall v c', p (assign v c') = p c') ->
  p (if_arg arg assign conv c) = p c.
Proof. intro H. destruct arg; cbn; auto. Qed.

(** Reads member [p] through the stages of [handleSave_config] that do
    not assign it. *)
Ltac through_stages p :=
  repeat first
    [ rewrite (if_arg_frame p) by (intros; reflexivity)
    | progress cbn [p assign_touch_enabled assign_led_inverted
                      assign_weather_enabled assign_d5_weather_mode
                      assign_d5_btc_mode assign_button_mode]
    | match goal with
      | |- context [if arg_linv ?f then _ else _] => destruct (arg_linv f)
      end ].

Lemma handleSave_d5_fields (f : Form) (config : Config) :
  let saved := handleSave_config f config in
  d5_btc_mode saved = arg_d5_btc f
  /\ d5_weather_mode saved = arg_d5_weather f && negb (arg_d5_btc f)
  /\ button_mode saved
     = (if arg_d5_weather f || arg_d5_btc f then 3
        else match arg_wbtn f with
             | Some v => wrap8 v
             | None => button_mode config
             end)
  /\ d5_timeout saved
     = match arg_d5_timeout f with
       | Some v => (v * 1000) mod two32
       | None => d5_timeout config
       end.
Proof.
  unfold handleSave_config. cbv zeta.
  set (before := if_arg (arg_wpoll f) _ _ _).
  assert (B : button_mode before = button_mode config).
  { subst before. through_stages button_mode; reflexivity. }
  assert (T : d5_timeout before = d5_timeout config).
  { subst before. through_stages d5_timeout; reflexivity. }
  clearbody before.
  set (chosen := if_arg (arg_wbtn f) assign_button_mode wrap8 before).
  assert (C : button_mode chosen
              = match arg_wbtn f with
                | Some v => wrap8 v
                | None => button_mode config
                end).
  { subst chosen. destruct (arg_wbtn f); cbn; [reflexivity | exact B]. }
  assert (T' : d5_timeout chosen = d5_timeout config).
  { subst chosen. rewrite (if_arg_frame d5_timeout) by (intros; reflexivity).
    exact T. }
  clearbody chosen.
  cbn [d5_weather_mode d5_btc_mode assign_d5_weather_mode assign_d5_btc_mode].
  destruct (arg_d5_weather f), (arg_d5_btc f), (arg_d5_timeout f);
    cbn [andb orb negb if_arg];
    cbn [d5_weather_mode d5_btc_mode button_mode d5_timeout
         assign_d5_weather_mode assign_d5_btc_mode assign_d5_timeout
         assign_button_mode andb orb];
    repeat split; try reflexivity; try exact C; try exact T';
    unfold mul32, wrap32; rewrite Z.mul_mod_idemp_l by (unfold two32; lia);
    reflexivity.
Qed.

(** The configuration [handleSave] stores never has both D5 roles: with
    both boxes checked the BTC role stays.  A D5 role forces the manual
    button mode whatever the form chose.  A granted settings request ends
    the iteration that serves it: the configuration is saved and the chip
    restarts, without a wipe.  Under a stored configuration with a D5
    role no iteration of the loop wipes the flash, and an iteration that
    serves no settings request runs to its end.  The timeout is taken in
    seconds and stored in milliseconds, modulo 2^32. *)
Theorem handleSave_normalises_d5 (f : Form) (config : Config) :
  let saved := handleSave_config f config in
  d5_weather_mode saved && d5_btc_mode saved = false
  /\ d5_btc_mode saved = arg_d5_btc f
  /\ d5_weather_mode saved = arg_d5_weather f && negb (arg_d5_btc f)
  /\ (d5_weather_mode saved || d5_btc_mode saved = true ->
      button_mode saved = 3)
  /\ (arg_d5_weather f || arg_d5_btc f = false ->
      button_mode saved = match arg_wbtn f with
                          | Some v => wrap8 v
                          | None => button_mode config
                          end)
  /\ (forall authorised i s,
        client_request i = SaveRequest authorised f ->
        loop config i s
        = (if g_isInConfigMode s || authorised
           then Restarted [SaveConfig saved; EspRestart]
           else loop config (sample_request NoRequest i) s))
  /\ (arg_d5_weather f || arg_d5_btc f = true ->
      forall i s,
        ~ In FormatFS (events (loop saved i s)) /\
        (save_served i s = false ->
         exists s' out, loop saved i s = Running s' out))
  /\ (forall v, arg_d5_timeout f = Some v ->
      d5_timeout saved = (v * 1000) mod two32
      /\ (0 <= v <= 4294967 -> d5_timeout saved = v * 1000)).
Proof.
  cbv zeta. destruct (handleSave_d5_fields f config) as (Hb & Hw & Hm & Ht).
  cbv zeta in Hb, Hw, Hm, Ht.
  set (saved := handleSave_config f config) in *.
  split; [rewrite Hb, Hw; destruct (arg_d5_weather f), (arg_d5_btc f);
          reflexivity|].
  split; [exact Hb|]. split; [exact Hw|]. split; [|split; [|split; [|split]]].
  - intro H. rewrite Hm. rewrite Hb, Hw in H.
    destruct (arg_d5_weather f), (arg_d5_btc f); try reflexivity;
      discriminate H.
  - intro H. rewrite Hm, H. reflexivity.
  - intros authorised i s Hq.
    destruct (g_isInConfigMode s || authorised) eqn:G.
    + rewrite loop_served by (unfold save_served; rewrite Hq; exact G).
      unfold save_sequence. rewrite Hq. reflexivity.
    + rewrite !loop_not_served;
        [reflexivity | reflexivity | unfold save_served; rewrite Hq; exact G].
  - intros H i s.
    assert (R : d5_weather_mode saved = true \/ d5_btc_mode saved = true).
    { rewrite Hb, Hw.
      destruct (arg_d5_weather f), (arg_d5_btc f); cbn; auto; discriminate H. }
    destruct (save_served i s) eqn:Sv.
    + rewrite (loop_served saved i s Sv). cbn [events].
      split; [apply save_sequence_no_wipe | discriminate].
    + rewrite (loop_not_served saved i s Sv).
      destruct (g_isInConfigMode s).
      * split; [intros [] | intros _; eexists; eexists; reflexivity].
      * pose proof (proj2 (ticker_outputs saved i s)) as F.
        rewrite (d5_role_keeps_running saved i s R) in *. cbn [events].
        split; [|intros _; eexists; eexists; reflexivity].
        intro X. destruct (F eq_refl _ X) as (N & _). congruence.
  - intros v Hv. rewrite Ht, Hv. split; [reflexivity|].
    intro R. apply Z.mod_small. unfold two32. lia.
Qed.
